(** * resume-parser: the LlamaParse / LlamaExtract job client

    A shallow embedding of the two versions of the [parse-resume] edge
    function (the LlamaParse version with [pollLlamaParseMarkdown], and
    the LlamaExtract version in
    [supabase/functions/parse-resume/index.ts]) and of the web client's
    [extractMarkdown], together with the properties of the submission /
    poll / normalisation protocol.

    Layout:
    - [JS]: the JavaScript values and string primitives the code uses;
    - [JSON]: a reference implementation of [JSON.parse] used to run the
      code on concrete inputs;
    - [Runtime], [Env], [World], [IO]: what the engine and the outside
      world provide (built-ins, HTTP replies, timers, storage, database);
    - [Shared], [LlamaParse], [LlamaExtract], [WebApp]: the program;
    - the theorems. *)

From Stdlib Require Import ZArith NArith List Bool Lia String Ascii DecimalString.
Import ListNotations.

Set Implicit Arguments.
Set Warnings "-register-all,-abstract-large-number".

Open Scope string_scope.
Open Scope list_scope.

(* ================================================================== *)
(** * JavaScript values *)
(* ================================================================== *)

Module JS.

(** A JavaScript string is a sequence of UTF-16 code units. *)
Definition code_unit := N.
Definition jsstring := list code_unit.

(** An ASCII source literal as a JavaScript string. *)
Definition lit (s : string) : jsstring :=
  map N_of_ascii (list_ascii_of_string s).

Fixpoint str_eqb (a b : jsstring) : bool :=
  match a, b with
  | [], [] => true
  | x :: a', y :: b' => N.eqb x y && str_eqb a' b'
  | _, _ => false
  end.

Fixpoint startsWith (s pre : jsstring) : bool :=
  match pre, s with
  | [], _ => true
  | p :: pre', c :: s' => N.eqb c p && startsWith s' pre'
  | _ :: _, [] => false
  end.

(** [String.prototype.includes]: [sub] occurs somewhere in [s]. *)
Fixpoint includes (s sub : jsstring) : bool :=
  startsWith s sub ||
  match s with
  | [] => false
  | _ :: s' => includes s' sub
  end.

(** [s.slice(0, n)] for a non-negative [n]. *)
Definition slice0 (n : nat) (s : jsstring) : jsstring := firstn n s.

(** White space and line terminators, as [String.prototype.trim] sees
    them. *)
Definition is_white_space (c : code_unit) : bool :=
  ((9 <=? c) && (c <=? 13) || (c =? 32) || (c =? 160) || (c =? 5760)
   || (8192 <=? c) && (c <=? 8202) || (c =? 8232) || (c =? 8233)
   || (c =? 8239) || (c =? 8287) || (c =? 12288) || (c =? 65279))%N.

Fixpoint trimStart (s : jsstring) : jsstring :=
  match s with
  | c :: s' => if is_white_space c then trimStart s' else s
  | [] => []
  end.

Definition trimEnd (s : jsstring) : jsstring := rev (trimStart (rev s)).

Definition trim (s : jsstring) : jsstring := trimEnd (trimStart s).

(** Values.  A number is kept as the decimal [mantissa * 10 ^ exp10] it
    was written as; the program never computes with numbers, it only
    tests values for truthiness. *)
Inductive value : Type :=
| VUndefined
| VNull
| VBool (b : bool)
| VNum (mantissa exp10 : Z)
| VStr (s : jsstring)
| VArr (items : list value)
| VObj (fields : list (jsstring * value)).

(** Does the decimal denote a number that rounds to zero as an IEEE
    double (at most half of the least subnormal, [2 ^ -1075])? *)
Definition num_is_zero (mantissa exp10 : Z) : bool :=
  ((mantissa =? 0)
   || (exp10 <? 0) && (Z.abs mantissa * 2 ^ 1075 <=? 10 ^ (- exp10)))%Z.

(** [ToBoolean]. *)
Definition truthy (v : value) : bool :=
  match v with
  | VUndefined | VNull => false
  | VBool b => b
  | VNum m e => negb (num_is_zero m e)
  | VStr s => match s with [] => false | _ => true end
  | VArr _ | VObj _ => true
  end.

(** [typeof v === "string"]. *)
Definition is_string (v : value) : bool :=
  match v with VStr _ => true | _ => false end.

(** [v === null || v === undefined]. *)
Definition nullish (v : value) : bool :=
  match v with VUndefined | VNull => true | _ => false end.

(** [a ?? b]. *)
Definition coalesce (a b : value) : value := if nullish a then b else a.

(** An object is an ordered list of properties with distinct keys. *)
Fixpoint lookup (k : jsstring) (fields : list (jsstring * value)) : option value :=
  match fields with
  | [] => None
  | (k', v) :: rest => if str_eqb k k' then Some v else lookup k rest
  end.

(** [obj[k] = v]: an existing property keeps its place and takes the
    new value, a new one goes last. *)
Fixpoint set_prop (k : jsstring) (v : value) (fields : list (jsstring * value))
  : list (jsstring * value) :=
  match fields with
  | [] => [(k, v)]
  | (k', v') :: rest =>
      if str_eqb k k' then (k', v) :: rest else (k', v') :: set_prop k v rest
  end.

(** [v?.k], for the property names the program reads ([markdown],
    [detail], [id], [status], [data], [parsed], [name]): none of them
    is an array index or a member of a built-in prototype, so only an
    object can have one. *)
Definition prop (v : value) (k : jsstring) : value :=
  match v with
  | VObj fields => match lookup k fields with Some x => x | None => VUndefined end
  | _ => VUndefined
  end.

End JS.
Import JS.

Notation "v '?.' k" := (prop v (lit k)) (at level 9, k at level 0, format "v '?.' k").

(* ================================================================== *)
(** * A reference [JSON.parse] *)
(* ================================================================== *)

Module JSON.

Definition is_ws (c : code_unit) : bool :=
  ((c =? 32) || (c =? 9) || (c =? 10) || (c =? 13))%N.

Fixpoint skip_ws (s : jsstring) : jsstring :=
  match s with
  | c :: s' => if is_ws c then skip_ws s' else s
  | [] => []
  end.

Definition digit (c : code_unit) : option Z :=
  if ((48 <=? c) && (c <=? 57))%N then Some (Z.of_N c - 48)%Z else None.

Definition hex (c : code_unit) : option N :=
  if ((48 <=? c) && (c <=? 57))%N then Some (c - 48)%N
  else if ((65 <=? c) && (c <=? 70))%N then Some (c - 55)%N
  else if ((97 <=? c) && (c <=? 102))%N then Some (c - 87)%N
  else None.

Definition hex4 (a b c d : code_unit) : option code_unit :=
  match hex a, hex b, hex c, hex d with
  | Some x, Some y, Some z, Some w => Some (((x * 16 + y) * 16 + z) * 16 + w)%N
  | _, _, _, _ => None
  end.

(** The character after a backslash, for the two-character escapes. *)
Definition escape (c : code_unit) : option code_unit :=
  if (c =? 34)%N then Some 34%N          (* quote *)
  else if (c =? 92)%N then Some 92%N     (* backslash *)
  else if (c =? 47)%N then Some 47%N     (* slash *)
  else if (c =? 98)%N then Some 8%N      (* b *)
  else if (c =? 102)%N then Some 12%N    (* f *)
  else if (c =? 110)%N then Some 10%N    (* n *)
  else if (c =? 114)%N then Some 13%N    (* r *)
  else if (c =? 116)%N then Some 9%N     (* t *)
  else None.

(** The characters of a string after its opening quote, up to and
    including the closing quote. *)
Fixpoint chars (s : jsstring) (acc : jsstring) : option (jsstring * jsstring) :=
  match s with
  | [] => None
  | c :: r =>
      if (c =? 34)%N then Some (rev acc, r)
      else if (c <? 32)%N then None
      else if (c =? 92)%N then
        match r with
        | [] => None
        | e :: r' =>
            if (e =? 117)%N then
              match r' with
              | h1 :: h2 :: h3 :: h4 :: r'' =>
                  match hex4 h1 h2 h3 h4 with
                  | Some u => chars r'' (u :: acc)
                  | None => None
                  end
              | _ => None
              end
            else
              match escape e with
              | Some u => chars r' (u :: acc)
              | None => None
              end
        end
      else chars r (c :: acc)
  end.

Fixpoint digits (s : jsstring) : list Z * jsstring :=
  match s with
  | c :: s' =>
      match digit c with
      | Some d => let (ds, r) := digits s' in (d :: ds, r)
      | None => ([], s)
      end
  | [] => ([], [])
  end.

Definition decimal (ds : list Z) : Z := fold_left (fun acc d => acc * 10 + d)%Z ds 0%Z.

(** The integer part: a single zero, or a digit sequence that does not
    start with zero. *)
Definition int_part (s : jsstring) : option (list Z * jsstring) :=
  match s with
  | c :: s' =>
      if (c =? 48)%N then Some ([0%Z], s')
      else match digits s with
           | ([], _) => None
           | (ds, r) => Some (ds, r)
           end
  | [] => None
  end.

Definition frac_part (s : jsstring) : option (list Z * jsstring) :=
  match s with
  | c :: s' =>
      if (c =? 46)%N then
        match digits s' with
        | ([], _) => None
        | (ds, r) => Some (ds, r)
        end
      else Some ([], s)
  | [] => Some ([], [])
  end.

Definition exp_part (s : jsstring) : option (Z * jsstring) :=
  match s with
  | c :: s' =>
      if ((c =? 101) || (c =? 69))%N then
        let (neg, s'') :=
          match s' with
          | g :: t => if (g =? 45)%N then (true, t)
                      else if (g =? 43)%N then (false, t)
                      else (false, s')
          | [] => (false, s')
          end in
        match digits s'' with
        | ([], _) => None
        | (ds, r) => Some (if neg then (- decimal ds)%Z else decimal ds, r)
        end
      else Some (0%Z, s)
  | [] => Some (0%Z, [])
  end.

Definition number (s : jsstring) : option (value * jsstring) :=
  let (neg, s1) :=
    match s with
    | c :: s' => if (c =? 45)%N then (true, s') else (false, s)
    | [] => (false, s)
    end in
  match int_part s1 with
  | None => None
  | Some (i, s2) =>
      match frac_part s2 with
      | None => None
      | Some (f, s3) =>
          match exp_part s3 with
          | None => None
          | Some (e, s4) =>
              let m := decimal (i ++ f) in
              Some (VNum (if neg then (- m)%Z else m) (e - Z.of_nat (List.length f))%Z, s4)
          end
      end
  end.

Definition keyword (kw : string) (v : value) (s : jsstring) : option (value * jsstring) :=
  if startsWith s (lit kw) then Some (v, skipn (String.length kw) s) else None.

Fixpoint element (fuel : nat) (s : jsstring) {struct fuel} : option (value * jsstring) :=
  match fuel with
  | O => None
  | S fuel' =>
      match skip_ws s with
      | [] => None
      | c :: r =>
          if (c =? 34)%N then
            match chars r [] with
            | Some (str, r') => Some (VStr str, r')
            | None => None
            end
          else if (c =? 91)%N then
            match skip_ws r with
            | c' :: r' =>
                if (c' =? 93)%N then Some (VArr [], r')
                else match elements fuel' r [] with
                     | Some (items, r'') => Some (VArr items, r'')
                     | None => None
                     end
            | [] => None
            end
          else if (c =? 123)%N then
            match skip_ws r with
            | c' :: r' =>
                if (c' =? 125)%N then Some (VObj [], r')
                else match members fuel' r [] with
                     | Some (fields, r'') => Some (VObj fields, r'')
                     | None => None
                     end
            | [] => None
            end
          else if (c =? 116)%N then keyword "true" (VBool true) (c :: r)
          else if (c =? 102)%N then keyword "false" (VBool false) (c :: r)
          else if (c =? 110)%N then keyword "null" VNull (c :: r)
          else number (c :: r)
      end
  end

with elements (fuel : nat) (s : jsstring) (acc : list value) {struct fuel}
  : option (list value * jsstring) :=
  match fuel with
  | O => None
  | S fuel' =>
      match element fuel' s with
      | None => None
      | Some (v, r) =>
          match skip_ws r with
          | c :: r' =>
              if (c =? 44)%N then elements fuel' r' (v :: acc)
              else if (c =? 93)%N then Some (rev (v :: acc), r')
              else None
          | [] => None
          end
      end
  end

with members (fuel : nat) (s : jsstring) (acc : list (jsstring * value)) {struct fuel}
  : option (list (jsstring * value) * jsstring) :=
  match fuel with
  | O => None
  | S fuel' =>
      match skip_ws s with
      | q :: r =>
          if (q =? 34)%N then
            match chars r [] with
            | None => None
            | Some (k, r1) =>
                match skip_ws r1 with
                | colon :: r2 =>
                    if (colon =? 58)%N then
                      match element fuel' r2 with
                      | None => None
                      | Some (v, r3) =>
                          match skip_ws r3 with
                          | c :: r4 =>
                              if (c =? 44)%N then members fuel' r4 (set_prop k v acc)
                              else if (c =? 125)%N then Some (set_prop k v acc, r4)
                              else None
                          | [] => None
                          end
                      end
                    else None
                | [] => None
                end
            end
          else None
      | [] => None
      end
  end.

(** [JSON.parse(text)]: [None] when it throws a [SyntaxError]. *)
Definition parse (text : jsstring) : option value :=
  match element (2 * List.length text + 2) text with
  | Some (v, r) => match skip_ws r with [] => Some v | _ => None end
  | None => None
  end.

(** Test inputs are written with an apostrophe where the JSON text has
    a double quote. *)
Definition text (s : string) : jsstring :=
  map (fun c => if (c =? 39)%N then 34%N else c) (lit s).

End JSON.


(* ================================================================== *)
(** * The engine and the outside world *)
(* ================================================================== *)

(** [new TextEncoder().encode(s)]: the UTF-8 bytes of [s]; a surrogate
    that is not part of a pair is encoded as U+FFFD. *)
Module TextEncoder.

Definition utf8 (cp : N) : list N :=
  (if cp <? 128 then [cp]
   else if cp <? 2048 then [192 + cp / 64; 128 + cp mod 64]
   else if cp <? 65536 then [224 + cp / 4096; 128 + (cp / 64) mod 64; 128 + cp mod 64]
   else [240 + cp / 262144; 128 + (cp / 4096) mod 64; 128 + (cp / 64) mod 64;
         128 + cp mod 64])%N.

Definition is_high (c : code_unit) : bool := ((55296 <=? c) && (c <=? 56319))%N.
Definition is_low (c : code_unit) : bool := ((56320 <=? c) && (c <=? 57343))%N.

Fixpoint encode (s : jsstring) : list N :=
  match s with
  | [] => []
  | c :: s' =>
      if is_high c then
        match s' with
        | d :: s'' =>
            if is_low d
            then utf8 (65536 + (c - 55296) * 1024 + (d - 56320))%N ++ encode s''
            else utf8 65533%N ++ encode s'
        | [] => utf8 65533%N
        end
      else if is_low c then utf8 65533%N ++ encode s'
      else utf8 c ++ encode s'
  end.

End TextEncoder.

(** What the code can throw. *)
Inductive exn : Type :=
| Error (message : jsstring)      (* [throw new Error(message)] *)
| SyntaxError (text : jsstring)   (* [JSON.parse(text)], [res.json()] on a body that is not JSON *)
| TypeError (property : jsstring) (* reading [property] of [null] or [undefined] *)
| FetchRejected.                  (* [fetch] itself failed: no response *)

Inductive completion (A : Type) : Type :=
| Normal (a : A)
| Thrown (e : exn).
Arguments Thrown {A} e.

(** Built-ins of the engine that the model does not implement. *)
Record Runtime : Type := {
  JSON_parse : jsstring -> option value;    (* [None]: throws [SyntaxError] *)
  JSON_stringify : value -> jsstring;
  toLowerCase : jsstring -> jsstring;
  engine_message : exn -> jsstring          (* [.message] of an error the engine raised *)
}.

(** [error.message]. *)
Definition message_of (rt : Runtime) (e : exn) : jsstring :=
  match e with
  | Error m => m
  | _ => engine_message rt e
  end.

(** An HTTP response as the code reads it: [res.status], and the body
    that [res.text()] returns and [res.json()] parses. *)
Record Response : Type := { status : Z; body : jsstring }.

(** [res.ok]. *)
Definition ok (res : Response) : bool :=
  ((200 <=? status res) && (status res <=? 299))%Z.

Record ResumeInput : Type := {
  buffer : list N;
  filename : jsstring;
  contentType : jsstring
}.

(** The requests the code issues, one constructor per [fetch] site.
    Every request carries the bearer token of the configuration; the
    two uploads are multipart forms with the file (and, for
    LlamaParse, the fixed parse options), the job creation posts the
    fixed extraction schema and configuration. *)
Inductive Request : Type :=
| PostUpload (input : ResumeInput)              (* POST LLAMA_API/upload *)
| GetMarkdown (jobId : value)                   (* GET  LLAMA_API/job/<jobId>/result/markdown *)
| PostFile (input : ResumeInput)                (* POST LLAMA_BASE/files *)
| PostJob (agentId : jsstring) (fileId : value) (* POST LLAMA_BASE/extraction/jobs *)
| GetJob (jobId : value)                        (* GET  LLAMA_BASE/extraction/jobs/<jobId> *)
| GetResult (jobId : value).                    (* GET  LLAMA_BASE/extraction/jobs/<jobId>/result *)

(** One round trip: how many milliseconds the [await] takes, and what
    comes back ([None]: the [fetch] promise rejects). *)
Record Exchange : Type := { latency : N; reply : option Response }.

Record Blob : Type := { blob_bytes : list N; blob_type : jsstring }.

(** [{ data, error }] of [storage.from(bucket).download(filePath)]. *)
Record Download : Type := {
  download_data : option Blob;
  download_error : option (option jsstring)     (* [error], with its [message] if it has one *)
}.

(** The row handed to [from("resumes").insert]. *)
Record Row : Type := {
  candidate_name : value;
  job_id : value;
  created_by : value;
  file_bucket : value;
  file_path : value;
  raw_text : value;
  parsed_column : value;
  parser_version : jsstring;
  row_status : jsstring
}.

(** [{ data, error }] of the insert. *)
Record Inserted : Type := { insert_data : value; insert_error : option value }.

Record Client : Type := {
  download : jsstring -> jsstring -> Download;
  insert : Row -> Inserted
}.

(** The world outside one invocation.  Durations are natural numbers:
    a round trip takes no negative time and a timer does not fire
    before its delay has elapsed. *)
Record Env : Type := {
  Deno_env_get : jsstring -> option jsstring;
  createClient : jsstring -> jsstring -> Client;
  network : nat -> Exchange;          (* the n-th [fetch] of the invocation *)
  timer_lag : nat -> N                (* how late the n-th timer fires, in milliseconds *)
}.

(** An argument of [console.error]. *)
Inductive logged : Type :=
| LogText (s : jsstring)
| LogValue (v : value).

(** The state one invocation threads through its awaits. *)
Record World : Type := {
  now : Z;                            (* [Date.now()], in milliseconds *)
  fetches : list (Z * Request);       (* the requests issued, each with the time it began *)
  timers : list Z;                    (* the delays of the timers awaited *)
  console : list (list logged)        (* the [console.error] calls *)
}.

(** Asynchronous code: state passing, with exceptions.  [None] when
    the model has no answer: a loop ran out of fuel, or the request
    body does not have its declared type. *)
Definition IO (A : Type) : Type := World -> option (completion A * World).

Definition ret {A} (a : A) : IO A := fun w => Some (Normal a, w).

Definition throw {A} (e : exn) : IO A := fun w => Some (Thrown e, w).

Definition bind {A B} (m : IO A) (k : A -> IO B) : IO B :=
  fun w =>
    match m w with
    | None => None
    | Some (Normal a, w') => k a w'
    | Some (Thrown e, w') => Some (Thrown e, w')
    end.

(** [try { m } catch (e) { handler e }]. *)
Definition try_catch {A} (m : IO A) (handler : exn -> IO A) : IO A :=
  fun w =>
    match m w with
    | None => None
    | Some (Normal a, w') => Some (Normal a, w')
    | Some (Thrown e, w') => handler e w'
    end.

Declare Scope io_scope.
Delimit Scope io_scope with io.
Notation "x <- m ;; k" := (bind m (fun x => k))
  (at level 100, m at next level, right associativity) : io_scope.
Notation "m ;; k" := (bind m (fun _ => k))
  (at level 100, right associativity) : io_scope.
Open Scope io_scope.

Section Effects.

Context (env : Env).

Definition Date_now : IO Z := fun w => Some (Normal (now w), w).

(** The world once the next request has been answered. *)
Definition after_fetch (request : Request) (w : World) : World :=
  {| now := (now w + Z.of_N (latency (network env (List.length (fetches w)))))%Z;
     fetches := fetches w ++ [(now w, request)];
     timers := timers w;
     console := console w |}.

(** [await fetch(request)], and the reading of the body. *)
Definition fetch (request : Request) : IO Response :=
  fun w =>
    match reply (network env (List.length (fetches w))) with
    | Some res => Some (Normal res, after_fetch request w)
    | None => Some (Thrown FetchRejected, after_fetch request w)
    end.

(** The world once a timer of [ms] milliseconds has fired. *)
Definition after_sleep (ms : Z) (w : World) : World :=
  {| now := (now w + ms + Z.of_N (timer_lag env (List.length (timers w))))%Z;
     fetches := fetches w;
     timers := timers w ++ [ms];
     console := console w |}.

(** [await new Promise((r) => setTimeout(r, ms))]. *)
Definition sleep (ms : Z) : IO unit :=
  fun w => Some (Normal tt, after_sleep ms w).

(** The world once [args] have been written to the console. *)
Definition after_log (args : list logged) (w : World) : World :=
  {| now := now w;
     fetches := fetches w;
     timers := timers w;
     console := console w ++ [args] |}.

Definition console_error (args : list logged) : IO unit :=
  fun w => Some (Normal tt, after_log args w).

End Effects.

(** [v.k]: reading a property of [null] or [undefined] throws. *)
Definition get (v : value) (k : string) : IO value :=
  if nullish v then throw (TypeError (lit k)) else ret (prop v (lit k)).

(** [JSON.parse(text)] where a failure propagates. *)
Definition parse_or_throw (rt : Runtime) (text : jsstring) : IO value :=
  match JSON_parse rt text with
  | Some v => ret v
  | None => throw (SyntaxError text)
  end.

(** Truthiness of an optional string ([undefined] when absent). *)
Definition present (o : option jsstring) : bool :=
  match o with
  | Some (_ :: _) => true
  | _ => false
  end.

(* ================================================================== *)
(** * What the two versions of the edge function share *)
(* ================================================================== *)

(** The request body: [type ResumeRequest]. *)
Record ResumeRequest : Type := {
  text : option jsstring;
  bucket : option jsstring;
  filePath : option jsstring;
  candidateName : option jsstring;
  jobId : option jsstring;
  userId : option jsstring
}.

(** The body without its [text]. *)
Definition without_text (body : ResumeRequest) : ResumeRequest :=
  {| text := None; bucket := bucket body; filePath := filePath body;
     candidateName := candidateName body; jobId := jobId body; userId := userId body |}.

(** An optional field as a value. *)
Definition opt (o : option jsstring) : value :=
  match o with
  | Some s => VStr s
  | None => VUndefined
  end.

(** What the edge function answers: [respond(status, body)], whose
    body is [JSON.stringify(body)] sent with the CORS headers, or the
    plain ["ok"] of a preflight request. *)
Inductive HttpReply : Type :=
| respond (status : Z) (body : value)
| preflight_ok.

Module Shared.

(** [s.split(".")]. *)
Fixpoint split_dot (s : jsstring) : list jsstring :=
  match s with
  | [] => [[]]
  | c :: s' =>
      match split_dot s' with
      | part :: parts => if (c =? 46)%N then [] :: part :: parts else (c :: part) :: parts
      | [] => [[c]]
      end
  end.

Section Program.

Context (rt : Runtime) (env : Env).

Definition supabaseUrl : option jsstring := Deno_env_get env (lit "SUPABASE_URL").
Definition supabaseKey : option jsstring := Deno_env_get env (lit "SUPABASE_SERVICE_ROLE_KEY").

(** [const supabase = env.supabaseUrl && env.supabaseKey ? createClient(...) : null]. *)
Definition supabase : option Client :=
  match supabaseUrl, supabaseKey with
  | Some url, Some key =>
      if present (Some url) && present (Some key)
      then Some (createClient env url key)
      else None
  | _, _ => None
  end.

Definition inferExt (filePath : option jsstring) : option jsstring :=
  match filePath with
  | None | Some [] => None
  | Some path =>
      let parts := split_dot path in
      if (1 <? List.length parts)%nat
      then Some (toLowerCase rt (last parts []))
      else None
  end.

(** The part of [loadResumeInput] after the [text] branch: the file is
    fetched from storage. *)
Definition loadStoredFile (body : ResumeRequest) : IO ResumeInput :=
  match supabase with
  | None => throw (Error (lit "Supabase client not initialized"))
  | Some client =>
      match bucket body, filePath body with
      | Some ((_ :: _) as b), Some ((_ :: _) as path) =>
          let r := download client b path in
          match download_error r, download_data r with
          | Some error, _ =>
              throw (Error (lit "Unable to download file: "
                            ++ match error with Some m => m | None => lit "unknown" end))
          | None, None => throw (Error (lit "Unable to download file: unknown"))
          | None, Some data =>
              let ext := match inferExt (Some path) with Some e => e | None => lit "bin" end in
              let type := match blob_type data with [] => lit "application/octet-stream" | t => t end in
              ret {| buffer := blob_bytes data;
                     filename := lit "resume." ++ ext;
                     contentType := type |}
          end
      | _, _ => throw (Error (lit "Provide either `text` or (`bucket` and `filePath`)"))
      end
  end.

Definition loadResumeInput (body : ResumeRequest) : IO ResumeInput :=
  match text body with
  | Some ((_ :: _) as t) =>
      if (0 <? List.length (trim t))%nat then
        ret {| buffer := TextEncoder.encode t;
               filename := lit "resume.txt";
               contentType := lit "text/plain" |}
      else loadStoredFile body
  | _ => loadStoredFile body
  end.

End Program.

End Shared.

(* ================================================================== *)
(** * The LlamaParse version of the edge function *)
(* ================================================================== *)

Module LlamaParse.

Definition PARSER_VERSION : jsstring := lit "llamaparse-v1".
Definition POLL_INTERVAL_MS : Z := 3000.
Definition POLL_MAX_MS : Z := 60000.

Section Program.

Context (rt : Runtime) (env : Env).

(** [env.llamaKey]. *)
Definition llamaKey : option jsstring := Deno_env_get env (lit "LLAMA_PARSE_API_KEY").

Definition uploadToLlamaParse (input : ResumeInput) : IO value :=
  if negb (present llamaKey) then throw (Error (lit "LLAMA_PARSE_API_KEY is missing"))
  else
    res <- fetch env (PostUpload input) ;;
    if negb (ok res) then
      let err := body res in
      throw (Error (lit "LlamaParse upload failed: " ++ err))
    else
      json <- parse_or_throw rt (body res) ;;
      get json "id".

(** [const detail = await res.json().catch(() => ({}))]. *)
Definition detail_of (res : Response) : value :=
  match JSON_parse rt (body res) with
  | Some d => d
  | None => VObj []
  end.

(** [typeof detail?.detail === "string" ? detail.detail : ""]. *)
Definition message_in (detail : value) : jsstring :=
  match detail?."detail" with
  | VStr s => s
  | _ => []
  end.

(** The two texts LlamaParse sends with a 400 or 404 while it is still
    processing. *)
Definition still_processing (message : jsstring) : bool :=
  includes message (lit "Job not completed yet")
  || includes message (lit "Result for Parsing Job").

(** The [while] loop of [pollLlamaParseMarkdown]; [fuel] bounds the
    number of iterations of the model. *)
Fixpoint poll_loop (fuel : nat) (jobId : value) (started : Z) : IO jsstring :=
  match fuel with
  | O => fun _ => None
  | S fuel' =>
      t <- Date_now ;;
      if (t - started <? POLL_MAX_MS)%Z then
        res <- fetch env (GetMarkdown jobId) ;;
        if ok res then
          let raw := body res in
          match JSON_parse rt raw with
          | Some json =>
              match truthy json, json?."markdown" with
              | true, VStr markdown => ret markdown
              | _, _ => ret raw
              end
          | None => ret raw   (* not valid JSON: assume a raw markdown string *)
          end
        else if ((status res =? 400) || (status res =? 404))%Z then
          let detail := detail_of res in
          let message := message_in detail in
          if still_processing message then
            sleep env POLL_INTERVAL_MS ;;
            poll_loop fuel' jobId started
          else
            throw (Error (lit "LlamaParse job error: "
                          ++ JSON_stringify rt (coalesce detail (VStr (lit "unknown")))))
        else
          let text := body res in
          throw (Error (lit "LlamaParse poll failed: " ++ text))
      else throw (Error (lit "LlamaParse job timed out"))
  end.

Definition pollLlamaParseMarkdown (fuel : nat) (jobId : value) : IO jsstring :=
  started <- Date_now ;;
  poll_loop fuel jobId started.

(** What one response means for the loop, in the vocabulary of the
    specification: the job is done and this is its payload, the job is
    still running, or the poll has failed for good. *)
Inductive PollOutcome : Type :=
| Ready (payload : jsstring)
| Pending
| Permanent (error : exn).

(** The decision the body of the loop takes on a response. *)
Definition classify (res : Response) : PollOutcome :=
  if ok res then
    match JSON_parse rt (body res) with
    | Some json =>
        match truthy json, json?."markdown" with
        | true, VStr markdown => Ready markdown
        | _, _ => Ready (body res)
        end
    | None => Ready (body res)
    end
  else if ((status res =? 400) || (status res =? 404))%Z then
    if still_processing (message_in (detail_of res)) then Pending
    else Permanent (Error (lit "LlamaParse job error: "
                           ++ JSON_stringify rt (coalesce (detail_of res) (VStr (lit "unknown")))))
  else Permanent (Error (lit "LlamaParse poll failed: " ++ body res)).

Definition parseResumeWithLlamaParse (fuel : nat) (input : ResumeInput) : IO value :=
  jobId <- uploadToLlamaParse input ;;
  markdown <- pollLlamaParseMarkdown fuel jobId ;;
  ret (VObj [(lit "markdown", VStr markdown); (lit "jobId", jobId);
             (lit "source", VStr (lit "llamaparse"))]).

End Program.

End LlamaParse.

(* ================================================================== *)
(** * The LlamaExtract version: [supabase/functions/parse-resume/index.ts] *)
(* ================================================================== *)

(** The incoming request, as the handler reads it: [req.method] and
    [await req.text()]. *)
Record HttpRequest : Type := { method : jsstring; req_text : jsstring }.

Module LlamaExtract.

Definition PARSER_VERSION : jsstring := lit "llamaextract-http-v1".
Definition MAX_TEXT_STORE : nat := 50000.

(** [v === s] for a string literal [s]. *)
Definition is_str (v : value) (s : string) : bool :=
  match v with
  | VStr x => str_eqb x (lit s)
  | _ => false
  end.

Definition is_hex (c : code_unit) : bool :=
  match JSON.hex c with Some _ => true | None => false end.

Definition four_hex (s : jsstring) : bool :=
  match s with
  | a :: b :: c :: d :: _ => is_hex a && is_hex b && is_hex c && is_hex d
  | _ => false
  end.

(** The first [replace] of the handler: a backslash followed by [u]
    but not by four hexadecimal digits becomes the escape of U+FFFD
    (backslash, u, F, F, F, D). *)
Fixpoint replace_bad_unicode (s : jsstring) : jsstring :=
  match s with
  | [] => []
  | c :: rest =>
      match rest with
      | u :: rest' =>
          if (c =? 92)%N && (u =? 117)%N && negb (four_hex rest')
          then [92; 117; 70; 70; 70; 68]%N ++ replace_bad_unicode rest'
          else c :: replace_bad_unicode rest
      | [] => [c]
      end
  end.

(** The characters that start a JSON escape after a backslash: the
    double quote, the backslash, the slash and the letters b f n r t u. *)
Definition starts_escape (c : code_unit) : bool :=
  ((c =? 34) || (c =? 92) || (c =? 47) || (c =? 98) || (c =? 102)
   || (c =? 110) || (c =? 114) || (c =? 116) || (c =? 117))%N.

(** The second [replace]: a backslash that does not start an escape is
    doubled. *)
Fixpoint double_stray_backslashes (s : jsstring) : jsstring :=
  match s with
  | [] => []
  | c :: rest =>
      if (c =? 92)%N && negb (match rest with n :: _ => starts_escape n | [] => false end)
      then 92%N :: 92%N :: double_stray_backslashes rest
      else c :: double_stray_backslashes rest
  end.

(** [const safeBody]: the raw body after the two replacements. *)
Definition safeBody (rawBody : jsstring) : jsstring :=
  double_stray_backslashes (replace_bad_unicode rawBody).

(** One field of the body, when it has its declared type. *)
Definition field (v : value) (k : string) : option (option jsstring) :=
  match prop v (lit k) with
  | VUndefined => Some None
  | VStr s => Some (Some s)
  | _ => None
  end.

(** [JSON.parse(...) as ResumeRequest].  The cast is not checked by the
    engine; the model covers the bodies that have the declared type, an
    object whose listed fields are strings or absent, and gives no
    answer ([None]) for the others. *)
Definition asResumeRequest (v : value) : option ResumeRequest :=
  match v with
  | VObj _ =>
      match field v "text", field v "bucket", field v "filePath",
            field v "candidateName", field v "jobId", field v "userId" with
      | Some t, Some b, Some p, Some c, Some j, Some u =>
          Some {| text := t; bucket := b; filePath := p;
                  candidateName := c; jobId := j; userId := u |}
      | _, _, _, _, _, _ => None
      end
  | _ => None
  end.

Section Program.

Context (rt : Runtime) (env : Env).

(** [env.llamaApiKey]:
    [Deno.env.get("LLAMA_CLOUD_API_KEY") ?? Deno.env.get("LLAMA_PARSE_API_KEY")]. *)
Definition llamaApiKey : option jsstring :=
  match Deno_env_get env (lit "LLAMA_CLOUD_API_KEY") with
  | Some k => Some k
  | None => Deno_env_get env (lit "LLAMA_PARSE_API_KEY")
  end.

Definition llamaAgentId : option jsstring := Deno_env_get env (lit "LLAMA_AGENT_ID").

Definition llamaUploadFile (input : ResumeInput) : IO value :=
  res <- fetch env (PostFile input) ;;
  let raw := body res in
  if negb (ok res) then throw (Error (lit "LlamaExtract upload failed: " ++ slice0 400 raw))
  else
    json <- parse_or_throw rt raw ;;
    ret (json?."id").

Definition llamaCreateJob (agentId : jsstring) (fileId : value) : IO value :=
  res <- fetch env (PostJob agentId fileId) ;;
  let raw := body res in
  if negb (ok res) then throw (Error (lit "LlamaExtract job create failed: " ++ slice0 400 raw))
  else
    json <- parse_or_throw rt raw ;;
    ret (json?."id").

Definition llamaPollJob (jobId : value) : IO value :=
  res <- fetch env (GetJob jobId) ;;
  let raw := body res in
  if negb (ok res) then throw (Error (lit "LlamaExtract job status failed: " ++ slice0 400 raw))
  else parse_or_throw rt raw.

Definition llamaGetResult (jobId : value) : IO value :=
  res <- fetch env (GetResult jobId) ;;
  let raw := body res in
  if negb (ok res) then throw (Error (lit "LlamaExtract result failed: " ++ slice0 400 raw))
  else parse_or_throw rt raw.

(** The [while (Date.now() < deadline)] loop of
    [parseResumeWithLlamaExtract]: it ends on [break] or when the
    deadline has passed. *)
Fixpoint wait_loop (fuel : nat) (jobId : value) (deadline : Z) : IO unit :=
  match fuel with
  | O => fun _ => None
  | S fuel' =>
      t <- Date_now ;;
      if (t <? deadline)%Z then
        status <- llamaPollJob jobId ;;
        if is_str (status?."status") "SUCCESS" then ret tt
        else if is_str (status?."status") "FAILED" then
          throw (Error (lit "LlamaExtract job failed: " ++ JSON_stringify rt status))
        else
          sleep env 3000 ;;
          wait_loop fuel' jobId deadline
      else ret tt
  end.

Definition parseResumeWithLlamaExtract (fuel : nat) (input : ResumeInput) : IO value :=
  if negb (present llamaApiKey) then throw (Error (lit "LLAMA_CLOUD_API_KEY missing"))
  else
    match llamaAgentId with
    | Some ((_ :: _) as agentId) =>
        fileId <- llamaUploadFile input ;;
        jobId <- llamaCreateJob agentId fileId ;;
        (* poll for completion *)
        t <- Date_now ;;
        let deadline := (t + 60000)%Z in
        wait_loop fuel jobId deadline ;;
        result <- llamaGetResult jobId ;;
        ret (VObj [(lit "structured", coalesce (result?."data") VNull);
                   (lit "jobId", jobId);
                   (lit "source", VStr (lit "llamaextract"))])
    | _ => throw (Error (lit "LLAMA_AGENT_ID missing (pre-create an extraction agent)"))
    end.

(** [const rawText = body.text ? body.text : undefined]. *)
Definition rawText (body : ResumeRequest) : value :=
  if present (text body) then opt (text body) else VUndefined.

(** The row of the [resumes] table the handler inserts. *)
Definition resume_row (body : ResumeRequest) (parsed : value) : Row :=
  {| candidate_name :=
       coalesce (coalesce (opt (candidateName body)) ((parsed?."structured")?."name")) VNull;
     job_id := coalesce (opt (jobId body)) VNull;
     created_by := coalesce (opt (userId body)) VNull;
     file_bucket := coalesce (opt (bucket body)) VNull;
     file_path := coalesce (opt (filePath body)) VNull;
     raw_text :=
       match rawText body with
       | VStr t =>
           if truthy (VStr t) && (MAX_TEXT_STORE <? List.length t)%nat
           then VStr (slice0 MAX_TEXT_STORE t)
           else VStr t
       | other => coalesce other VNull
       end;
     parsed_column := parsed;
     parser_version := PARSER_VERSION;
     row_status := lit "parsed" |}.

(** The body of the successful answer. *)
Definition success_body (body : ResumeRequest) (parsed resumeId : value) : value :=
  VObj [(lit "parsed", parsed);
        (lit "rawText", rawText body);
        (lit "resumeId", resumeId);
        (lit "jobId", coalesce (parsed?."jobId") VNull);
        (lit "parserVersion", VStr PARSER_VERSION)].

(** The handler given to [Deno.serve]. *)
Definition serve (fuel : nat) (req : HttpRequest) : IO HttpReply :=
  if str_eqb (method req) (lit "OPTIONS") then ret preflight_ok
  else
    try_catch
      (let rawBody := req_text req in
       match JSON_parse rt (match safeBody rawBody with [] => lit "{}" | safe => safe end) with
       | None =>
           ret (respond 400
                  (VObj [(lit "error",
                          VStr (lit "Invalid JSON body (escape sequences/backslashes)"))]))
       | Some json =>
           match asResumeRequest json with
           | None => fun _ => None
           | Some body =>
               resumeInput <- Shared.loadResumeInput rt env body ;;
               parsed <- parseResumeWithLlamaExtract fuel resumeInput ;;
               resumeId <-
                 match Shared.supabase env with
                 | Some client =>
                     let r := insert client (resume_row body parsed) in
                     match insert_error r with
                     | Some error =>
                         console_error [LogText (lit "Supabase insert error:"); LogValue error] ;;
                         ret VNull
                     | None => ret (coalesce ((insert_data r)?."id") VNull)
                     end
                 | None => ret VNull
                 end ;;
               ret (respond 200 (success_body body parsed resumeId))
           end
       end)
      (fun error =>
         let msg := message_of rt error in
         console_error [LogText msg] ;;
         if includes msg (lit "unsupported Unicode escape sequence") then
           ret (respond 400
                  (VObj [(lit "error",
                          VStr (lit "Invalid JSON body (bad escape sequences/backslashes). Remove stray backslashes or ensure valid \uXXXX."))]))
         else ret (respond 400 (VObj [(lit "error", VStr msg)]))).

End Program.

End LlamaExtract.

(* ================================================================== *)
(** * The web client *)
(* ================================================================== *)

Module WebApp.

Section Program.

Context (rt : Runtime).

(** [extractMarkdown(result)].  The shapes it handles:
    1) [result.parsed.markdown] is already a markdown string;
    2) [result.parsed.markdown] is a JSON string containing an object
       with a [markdown] string;
    3) [result.parsed] is a JSON string containing such an object. *)
Definition extractMarkdown (result : value) : value :=
  let parsedField := result?."parsed" in
  let early :=
    match parsedField with
    | VStr s =>
        match JSON_parse rt s with
        | Some parsedObj =>
            match truthy parsedObj, parsedObj?."markdown" with
            | true, VStr markdown => Some (VStr markdown)
            | _, _ => None
            end
        | None => None   (* ignore *)
        end
    | _ => None
    end in
  match early with
  | Some markdown => markdown
  | None =>
      let maybe := parsedField?."markdown" in
      match maybe with
      | VStr s =>
          match JSON_parse rt s with
          | Some parsed =>
              match truthy parsed, parsed?."markdown" with
              | true, VStr markdown => VStr markdown
              | _, _ => maybe
              end
          | None => maybe   (* fall through *)
          end
      | _ => VNull
      end
  end.

End Program.

End WebApp.

(* ================================================================== *)
(** * A reference engine and scripted worlds, to run the code *)
(* ================================================================== *)

Module Reference.

Definition hex_char (n : N) : code_unit := (if n <? 10 then 48 + n else 87 + n)%N.

(** Backslash, u and four hexadecimal digits. *)
Definition unicode_escape (c : code_unit) : jsstring :=
  [92; 117; hex_char (c / 4096); hex_char ((c / 256) mod 16);
   hex_char ((c / 16) mod 16); hex_char (c mod 16)]%N.

Definition quote_unit (c : code_unit) : jsstring :=
  (if c =? 34 then [92; 34]
   else if c =? 92 then [92; 92]
   else if c =? 8 then [92; 98]
   else if c =? 9 then [92; 116]
   else if c =? 10 then [92; 110]
   else if c =? 12 then [92; 102]
   else if c =? 13 then [92; 114]
   else if c <? 32 then unicode_escape c
   else [c])%N.

Fixpoint quote_units (s : jsstring) : jsstring :=
  match s with
  | [] => []
  | c :: s' =>
      if TextEncoder.is_high c then
        match s' with
        | d :: s'' =>
            if TextEncoder.is_low d then c :: d :: quote_units s''
            else unicode_escape c ++ quote_units s'
        | [] => unicode_escape c
        end
      else if TextEncoder.is_low c then unicode_escape c ++ quote_units s'
      else quote_unit c ++ quote_units s'
  end.

Definition quote (s : jsstring) : jsstring := [34%N] ++ quote_units s ++ [34%N].

Definition integer_text (z : Z) : jsstring := lit (NilEmpty.string_of_int (Z.to_int z)).

Fixpoint join (parts : list jsstring) : jsstring :=
  match parts with
  | [] => []
  | [x] => x
  | x :: rest => x ++ [44%N] ++ join rest
  end.

(** [JSON.stringify(v)] for a [v] other than [undefined].  A number is
    printed as its mantissa and exponent, which is what the engine
    prints for an integer written without exponent only. *)
Fixpoint stringify (v : value) : jsstring :=
  match v with
  | VUndefined | VNull => lit "null"
  | VBool b => if b then lit "true" else lit "false"
  | VNum m e => if (e =? 0)%Z then integer_text m else integer_text m ++ lit "e" ++ integer_text e
  | VStr s => quote s
  | VArr items => lit "[" ++ join (map stringify items) ++ lit "]"
  | VObj fields =>
      lit "{"
      ++ join ((fix members (fs : list (jsstring * value)) : list jsstring :=
                  match fs with
                  | [] => []
                  | (_, VUndefined) :: rest => members rest
                  | (k, x) :: rest => (quote k ++ lit ":" ++ stringify x) :: members rest
                  end) fields)
      ++ lit "}"
  end.

(** Lower case of the ASCII letters. *)
Definition lower (s : jsstring) : jsstring :=
  map (fun c => if ((65 <=? c) && (c <=? 90))%N then (c + 32)%N else c) s.

Definition runtime : Runtime :=
  {| JSON_parse := JSON.parse;
     JSON_stringify := stringify;
     toLowerCase := lower;
     engine_message := fun e =>
       match e with
       | Error m => m
       | SyntaxError _ => lit "Unexpected token in JSON"
       | TypeError k => lit "Cannot read properties of undefined (reading '" ++ k ++ lit "')"
       | FetchRejected => lit "error sending request"
       end |}.

(** A storage and a table that always fail. *)
Definition no_client : Client :=
  {| download := fun _ _ => {| download_data := None;
                               download_error := Some (Some (lit "Object not found")) |};
     insert := fun _ => {| insert_data := VNull;
                           insert_error := Some (VObj [(lit "message", VStr (lit "permission denied"))]) |} |}.

(** A world in which the variables in [vars] are set, the service
    answers with [replies] in order and then with [last] for ever,
    each round trip taking [ms] milliseconds, and timers fire on
    time. *)
Definition world (vars : list (string * string)) (replies : list Response)
    (last : Response) (ms : N) : Env :=
  {| Deno_env_get := fun k =>
       (fix find (l : list (string * string)) : option jsstring :=
          match l with
          | [] => None
          | (k', v) :: rest => if str_eqb k (lit k') then Some (lit v) else find rest
          end) vars;
     createClient := fun _ _ => no_client;
     network := fun n => {| latency := ms; reply := Some (nth n replies last) |};
     timer_lag := fun _ => 0%N |}.

(** The world at the start of an invocation. *)
Definition start : World := {| now := 0; fetches := []; timers := []; console := [] |}.

Definition not_found_J1 : Response :=
  {| status := 404; body := JSON.text "{'detail':'Result for Parsing Job J1 not found'}" |}.

Definition hello : Response :=
  {| status := 200; body := JSON.text "{'markdown':'Hello'}" |}.

Definition bad_input : Response :=
  {| status := 400; body := JSON.text "{'detail':'bad input'}" |}.

Definition unreadable : Response :=
  {| status := 404; body := lit "<html>Not Found</html>" |}.

Definition plain_markdown : Response :=
  {| status := 200; body := lit "# Jane Doe" |}.

Definition empty_object : Response :=
  {| status := 200; body := JSON.text "{}" |}.

(** A server error with a body of 401 characters. *)
Definition long_failure : Response :=
  {| status := 500; body := repeat 120%N 401 |}.

Definition J1 : value := VStr (lit "J1").

Definition llamaparse_vars : list (string * string) :=
  [("SUPABASE_URL", "https://db.example"); ("SUPABASE_SERVICE_ROLE_KEY", "service");
   ("LLAMA_PARSE_API_KEY", "key")].

Definition llamaextract_vars : list (string * string) :=
  [("SUPABASE_URL", "https://db.example"); ("SUPABASE_SERVICE_ROLE_KEY", "service");
   ("LLAMA_CLOUD_API_KEY", "key"); ("LLAMA_AGENT_ID", "agent")].

(** Every poll is answered "Result for Parsing Job J1 not found". *)
Definition always_pending : Env := world llamaparse_vars [] not_found_J1 100.

(** Two such answers, then the markdown. *)
Definition two_pending_then_hello : Env :=
  world llamaparse_vars [not_found_J1; not_found_J1] hello 100.

Definition rejects_bad_input : Env := world llamaparse_vars [] bad_input 100.
Definition answers_unreadable : Env := world llamaparse_vars [] unreadable 100.
Definition answers_plain_markdown : Env := world llamaparse_vars [] plain_markdown 100.
Definition answers_empty_object : Env := world llamaparse_vars [] empty_object 100.
Definition answers_long_failure : Env := world llamaparse_vars [] long_failure 100.

(** No variable is set: the Supabase client is not created. *)
Definition unconfigured : Env := world [] [] hello 100.

Definition no_fields : ResumeRequest :=
  {| text := None; bucket := None; filePath := None;
     candidateName := None; jobId := None; userId := None |}.

Definition jane_text : jsstring := lit "Jane Doe, engineer".

Definition jane_body : ResumeRequest :=
  {| text := Some jane_text; bucket := None; filePath := None;
     candidateName := None; jobId := None; userId := None |}.

Definition jane_input : ResumeInput :=
  {| buffer := TextEncoder.encode jane_text;
     filename := lit "resume.txt";
     contentType := lit "text/plain" |}.

Definition jane_request : HttpRequest :=
  {| method := lit "POST"; req_text := JSON.text "{'text':'Jane Doe, engineer'}" |}.

(** LlamaExtract accepts the file, creates the job, reports it pending
    and then done, and returns the extracted data; the insert into
    the table fails. *)
Definition extract_then_insert_fails : Env :=
  world llamaextract_vars
    [ {| status := 200; body := JSON.text "{'id':'F1'}" |};
      {| status := 200; body := JSON.text "{'id':'J1'}" |};
      {| status := 200; body := JSON.text "{'status':'PENDING'}" |};
      {| status := 200; body := JSON.text "{'status':'SUCCESS'}" |} ]
    {| status := 200; body := JSON.text "{'data':{'name':'Jane Doe'}}" |}
    100.

(** LlamaExtract accepts the file and creates the job, and then answers
    every request with 200 and a pending status. *)
Definition never_done : Env :=
  world llamaextract_vars
    [ {| status := 200; body := JSON.text "{'id':'F1'}" |};
      {| status := 200; body := JSON.text "{'id':'J1'}" |} ]
    {| status := 200; body := JSON.text "{'status':'PENDING'}" |}
    100.

Definition jane_parsed : value :=
  VObj [(lit "structured", VObj [(lit "name", VStr (lit "Jane Doe"))]);
        (lit "jobId", J1);
        (lit "source", VStr (lit "llamaextract"))].

(** The world once the resume is parsed in [extract_then_insert_fails]. *)
Definition jane_parsed_world : World :=
  {| now := 3500;
     fetches := [(0%Z, PostFile jane_input);
                 (100%Z, PostJob (lit "agent") (VStr (lit "F1")));
                 (200%Z, GetJob J1);
                 (3300%Z, GetJob J1);
                 (3400%Z, GetResult J1)];
     timers := [3000%Z];
     console := [] |}.

Definition permission_denied : value :=
  VObj [(lit "message", VStr (lit "permission denied"))].

(** Results of the edge function, as the web client receives them. *)
Definition result_with_markdown : value :=
  VObj [(lit "parsed", VObj [(lit "markdown", VStr (lit "# Jane Doe"))])].

Definition result_with_garbage : value :=
  VObj [(lit "parsed", VStr (lit "garbage"))].

End Reference.

(* ================================================================== *)
(** * The handler of the LlamaParse version *)
(* ================================================================== *)

Module LlamaParseHandler.

Definition MAX_TEXT_STORE : nat := 50000.

(** The message of [new Error(x)]: empty for [undefined], [x] itself
    for a string, [String(x)] otherwise. *)
Definition error_text (ToString : value -> jsstring) (x : value) : jsstring :=
  match x with
  | VUndefined => []
  | VStr s => s
  | other => ToString other
  end.

Section Program.

Context (rt : Runtime) (env : Env).

(** Two more built-ins of the engine: [new TextDecoder().decode(bytes)]
    and the conversion [String(v)]. *)
Context (TextDecoder_decode : list N -> jsstring) (ToString : value -> jsstring).

(** The row of the [resumes] table this version inserts. *)
Definition resume_row (body : ResumeRequest) (resumeInput : ResumeInput) (parsed : value) : Row :=
  {| candidate_name := coalesce (opt (candidateName body)) VNull;
     job_id := coalesce (opt (jobId body)) VNull;
     created_by := coalesce (opt (userId body)) VNull;
     file_bucket := coalesce (opt (bucket body)) VNull;
     file_path := coalesce (opt (filePath body)) VNull;
     raw_text :=
       VStr (if (MAX_TEXT_STORE <? List.length (buffer resumeInput))%nat
             then TextDecoder_decode (firstn MAX_TEXT_STORE (buffer resumeInput))
             else TextDecoder_decode (buffer resumeInput));
     parsed_column := parsed;
     parser_version := LlamaParse.PARSER_VERSION;
     row_status := lit "parsed" |}.

(** The handler given to [Deno.serve].  The body is read with
    [req.json()]; as in the other version the model covers the bodies
    that have the declared type.  The error object written to the
    console is recorded by its message. *)
Definition serve (fuel : nat) (req : HttpRequest) : IO HttpReply :=
  if str_eqb (method req) (lit "OPTIONS") then ret preflight_ok
  else
    try_catch
      (json <- parse_or_throw rt (req_text req) ;;
       match LlamaExtract.asResumeRequest json with
       | None => fun _ => None
       | Some body =>
           resumeInput <- Shared.loadResumeInput rt env body ;;
           parsed <- LlamaParse.parseResumeWithLlamaParse rt env fuel resumeInput ;;
           match Shared.supabase env with
           | None => throw (Error (lit "Supabase client not initialized"))
           | Some client =>
               let r := insert client (resume_row body resumeInput parsed) in
               match insert_error r with
               | Some error => throw (Error (error_text ToString (error?."message")))
               | None =>
                   ret (respond 200
                          (VObj [(lit "resumeId", (insert_data r)?."id");
                                 (lit "parsed", parsed);
                                 (lit "parserVersion", VStr LlamaParse.PARSER_VERSION)]))
               end
           end
       end)
      (fun error =>
         console_error [LogText (message_of rt error)] ;;
         ret (respond 400 (VObj [(lit "error", VStr (message_of rt error))]))).

End Program.

End LlamaParseHandler.

(* ================================================================== *)
(** * More of the web client *)
(* ================================================================== *)

Module WebClient.

(** The decimal digits of an integer, as a template literal prints a
    status code. *)
Definition decimal_text (z : Z) : jsstring := lit (NilEmpty.string_of_int (Z.to_int z)).

(** What an answer of the edge function is on the wire:
    [new Response(JSON.stringify(body), { status, ... })], and
    [new Response("ok", ...)] for a preflight request. *)
Definition on_the_wire (rt : Runtime) (reply : HttpReply) : Response :=
  match reply with
  | respond st b => {| status := st; body := JSON_stringify rt b |}
  | preflight_ok => {| status := 200; body := lit "ok" |}
  end.

(** The word characters of a regular expression: [A-Za-z0-9_]. *)
Definition is_word (c : code_unit) : bool :=
  ((65 <=? c) && (c <=? 90) || (97 <=? c) && (c <=? 122)
   || (48 <=? c) && (c <=? 57) || (c =? 95))%N.

(** The characters an object name keeps: a word character, a dot or a
    dash. *)
Definition is_safe (c : code_unit) : bool := (is_word c || (c =? 46) || (c =? 45))%N.

Definition is_dash (c : code_unit) : bool := (c =? 45)%N.

(** [s.replace(/[...]+/g, "-")] for a character class [bad]: every
    maximal run of characters of the class becomes one dash.  [in_run]
    tells that the previous character was of the class. *)
Fixpoint replace_runs (bad : code_unit -> bool) (in_run : bool) (s : jsstring) : jsstring :=
  match s with
  | [] => []
  | c :: rest =>
      if bad c then
        if in_run then replace_runs bad true rest
        else 45%N :: replace_runs bad true rest
      else c :: replace_runs bad false rest
  end.


Section Program.

Context (rt : Runtime).

(** [String(v)] and [s.normalize("NFKD")], built-ins of the engine. *)
Context (ToString : value -> jsstring) (normalize_NFKD : jsstring -> jsstring).

Definition extractStructured (result : value) : value :=
  if negb (truthy (result?."parsed")) then VNull
  else if truthy ((result?."parsed")?."structured") then (result?."parsed")?."structured"
  else
    match result?."parsed" with
    | VStr s =>
        match JSON_parse rt s with
        | Some parsed =>
            if truthy (parsed?."structured") then parsed?."structured" else VNull
        | None => VNull
        end
    | _ => VNull
    end.

(** [const safeName] of [uploadFile]. *)
Definition safeName (name : jsstring) : jsstring :=
  replace_runs is_dash false
    (replace_runs (fun c => negb (is_safe c)) false (normalize_NFKD name)).

(** [const objectPath] of [uploadFile], for the identifier that
    [crypto.randomUUID()] returned. *)
Definition objectPath (uuid name : jsstring) : jsstring :=
  lit "uploads/" ++ uuid ++ lit "-" ++ safeName name.

(** [callFunction], as a function of what the [fetch] of the edge
    function gave ([None]: the promise rejected). *)
Definition callFunction (answer : option Response) : completion value :=
  match answer with
  | None => Thrown FetchRejected
  | Some res =>
      let data := match JSON_parse rt (body res) with Some d => d | None => VObj [] end in
      if negb (ok res) then
        let message :=
          if truthy (data?."error") then data?."error"
          else VStr (lit "Request failed with " ++ decimal_text (status res)) in
        Thrown (Error (LlamaParseHandler.error_text ToString message))
      else Normal data
  end.

(** The request [callFunction] sends for [payload]: a POST whose body
    is [JSON.stringify(payload)]. *)
Definition function_request (payload : value) : HttpRequest :=
  {| method := lit "POST"; req_text := JSON_stringify rt payload |}.

(** What [handleSubmit] of a configured client sends when no file is
    chosen and the text area holds [value]: the payload is the object
    whose single property [text] is the trimmed content.  [None] when
    the client sends nothing and asks for a text or a file instead. *)
Definition text_submission (value : jsstring) : option HttpRequest :=
  let text := trim value in
  if negb (present (Some text)) then None
  else Some (function_request (VObj [(lit "text", VStr text)])).

End Program.

End WebClient.

(* ================================================================== *)
(** * Vocabulary for request traces *)
(* ================================================================== *)

(** The requests of [polls] began in order, the first not before
    [from] and each at least [gap] milliseconds after the one before
    it began. *)
Fixpoint spaced (gap from : Z) (polls : list (Z * Request)) : Prop :=
  match polls with
  | [] => True
  | (t, _) :: rest => (from <= t)%Z /\ spaced gap (t + gap) rest
  end.

(* ================================================================== *)
(** * More scripted worlds *)
(* ================================================================== *)

Module Scenarios.

Import Reference.

(** A table that accepts every row and a storage that holds one PDF. *)
Definition working_client : Client :=
  {| download := fun _ _ =>
       {| download_data := Some {| blob_bytes := [37; 80; 68; 70]%N;
                                   blob_type := lit "application/pdf" |};
          download_error := None |};
     insert := fun _ =>
       {| insert_data := VObj [(lit "id", VStr (lit "R1"))]; insert_error := None |} |}.

(** The same world with another Supabase client. *)
Definition with_client (client : Client) (env : Env) : Env :=
  {| Deno_env_get := Deno_env_get env;
     createClient := fun _ _ => client;
     network := network env;
     timer_lag := timer_lag env |}.

(** [String(v)] where the examples need it: strings only. *)
Definition to_string (v : value) : jsstring :=
  match v with
  | VStr s => s
  | other => stringify other
  end.

(** UTF-8 decoding of ASCII bytes. *)
Definition decode_ascii (bytes : list N) : jsstring := bytes.

(** The world a computation leaves behind. *)
Definition world_after {A : Type} (m : IO A) (w : World) : World :=
  match m w with
  | Some (_, w') => w'
  | None => w
  end.

(** LlamaParse accepts the upload as job J1, finds the job running at
    the first poll and gives the markdown at the second. *)
Definition upload_then_hello : Env :=
  world llamaparse_vars
    [ {| status := 200; body := JSON.text "{'id':'J1'}" |}; not_found_J1 ]
    hello 100.

(** The same service with a table that accepts the row. *)
Definition upload_then_stored : Env := with_client working_client upload_then_hello.

Definition hello_parsed : value :=
  VObj [(lit "markdown", VStr (lit "Hello")); (lit "jobId", J1);
        (lit "source", VStr (lit "llamaparse"))].

(** The world after two polls found the job running and a third gave
    the markdown. *)
Definition polled_world : World :=
  Eval vm_compute in
    world_after (LlamaParse.pollLlamaParseMarkdown runtime two_pending_then_hello 21 J1) start.

(** The world once the resume is parsed in [upload_then_hello]. *)
Definition hello_parsed_world : World :=
  Eval vm_compute in
    world_after (LlamaParse.parseResumeWithLlamaParse runtime upload_then_hello 21 jane_input)
                start.

(** The world once [never_done] has been polled for a minute and asked
    for the result. *)
Definition never_done_world : World :=
  Eval vm_compute in
    world_after (LlamaExtract.parseResumeWithLlamaExtract runtime never_done 21 jane_input)
                start.



(** A request for a file in storage. *)
Definition stored_body : ResumeRequest :=
  {| text := None; bucket := Some (lit "resumes");
     filePath := Some (lit "uploads/2024.05/Jane.PDF");
     candidateName := None; jobId := None; userId := None |}.

(** A request body with an incomplete Unicode escape: backslash, u, 1, 2. *)
Definition broken_escape : jsstring := [92; 117; 49; 50]%N.

(** A file name that needs no change: a-b.pdf. *)
Definition plain_name : jsstring := [97; 45; 98; 46; 112; 100; 102]%N.

(** A text with a backslash before a letter that starts no escape:
    a, backslash, x. *)
Definition backslash_text : jsstring := [97; 92; 120]%N.



(** The request the web client sends for [backslash_text]. *)
Definition backslash_submission : HttpRequest :=
  WebClient.function_request runtime (VObj [(lit "text", VStr backslash_text)]).

(** The answer of the edge function when the API key is missing. *)
Definition key_missing : value :=
  VObj [(lit "error", VStr (lit "LLAMA_CLOUD_API_KEY missing"))].

(** A result whose [parsed] is a JSON string. *)
Definition result_with_wrapped_structured : value :=
  VObj [(lit "parsed", VStr (JSON.text "{'structured':{'name':'Jane Doe'}}"))].

End Scenarios.

(* ================================================================== *)
(** * Properties of the poll loop ([pollLlamaParseMarkdown]) *)
(* ================================================================== *)

Arguments lit : simpl never.

Section PollLoop.

Import LlamaParse.

Context (rt : Runtime) (env : Env).

(** One iteration of the loop: the deadline test, one query, and what
    [classify] says of the response. *)
Lemma poll_loop_step (fuel : nat) (jobId : value) (started : Z) (w : World) :
  poll_loop rt env (S fuel) jobId started w =
  if (now w - started <? POLL_MAX_MS)%Z then
    let w1 := after_fetch env (GetMarkdown jobId) w in
    match reply (network env (List.length (fetches w))) with
    | None => Some (Thrown FetchRejected, w1)
    | Some res =>
        match classify rt res with
        | Ready payload => Some (Normal payload, w1)
        | Pending => poll_loop rt env fuel jobId started (after_sleep env POLL_INTERVAL_MS w1)
        | Permanent error => Some (Thrown error, w1)
        end
    end
  else Some (Thrown (Error (lit "LlamaParse job timed out")), w).
Proof.
  cbn [poll_loop]. unfold bind, Date_now, fetch, classify.
  destruct (now w - started <? POLL_MAX_MS)%Z; [|reflexivity].
  cbv zeta.
  destruct (reply (network env (List.length (fetches w)))) as [res|]; [|reflexivity].
  destruct (ok res).
  - destruct (JSON_parse rt (body res)) as [json|]; [|reflexivity].
    destruct (truthy json); [|reflexivity].
    destruct (json?."markdown"); reflexivity.
  - destruct ((status res =? 400) || (status res =? 404))%Z; [|reflexivity].
    destruct (still_processing (message_in (detail_of rt res))); reflexivity.
Qed.

Lemma not_ready_status_not_ok (res : Response) :
  (status res = 400 \/ status res = 404)%Z ->
  ok res = false /\ ((status res =? 400) || (status res =? 404))%Z = true.
Proof.
  unfold ok. intros [H|H]; rewrite H; split; reflexivity.
Qed.

Lemma classify_pending (res : Response) :
  (status res = 400 \/ status res = 404)%Z ->
  still_processing (message_in (detail_of rt res)) = true ->
  classify rt res = Pending.
Proof.
  intros Hs Hm. destruct (not_ready_status_not_ok res Hs) as [Hok Hnr].
  unfold classify. rewrite Hok, Hnr, Hm. reflexivity.
Qed.

Lemma classify_permanent (res : Response) :
  (status res = 400 \/ status res = 404)%Z ->
  still_processing (message_in (detail_of rt res)) = false ->
  classify rt res =
  Permanent (Error (lit "LlamaParse job error: "
                    ++ JSON_stringify rt (coalesce (detail_of rt res) (VStr (lit "unknown"))))).
Proof.
  intros Hs Hm. destruct (not_ready_status_not_ok res Hs) as [Hok Hnr].
  unfold classify. rewrite Hok, Hnr, Hm. reflexivity.
Qed.

(** Only an object has a [markdown], a [detail] or an [id], and an
    object is truthy. *)
Lemma prop_string_truthy (v : value) (k s : jsstring) :
  prop v k = VStr s -> truthy v = true.
Proof.
  destruct v; simpl; try discriminate. reflexivity.
Qed.

Lemma classify_ready (res : Response) :
  ok res = true -> exists payload, classify rt res = Ready payload.
Proof.
  intros Hok. unfold classify. rewrite Hok.
  destruct (JSON_parse rt (body res)) as [json|]; [|eauto].
  destruct (truthy json); [|eauto].
  destruct (json?."markdown"); eauto.
Qed.

(** While every response says that the job is still running, the loop
    goes on until the deadline and then gives up; every query began
    before the deadline. *)
Lemma poll_loop_pending (fuel : nat) (jobId : value) (started : Z) :
  forall w : World,
    (forall n, (List.length (fetches w) <= n)%nat ->
       exists res, reply (network env n) = Some res /\ classify rt res = Pending) ->
    (started + POLL_MAX_MS - now w <= Z.of_nat fuel * POLL_INTERVAL_MS)%Z ->
    exists (w' : World) (polls : list (Z * Request)),
      poll_loop rt env (S fuel) jobId started w = Some (Thrown (Error (lit "LlamaParse job timed out")), w')
      /\ (started + POLL_MAX_MS <= now w')%Z
      /\ fetches w' = fetches w ++ polls
      /\ Forall (fun q => (fst q < started + POLL_MAX_MS)%Z /\ snd q = GetMarkdown jobId) polls
      /\ timers w' = timers w ++ repeat POLL_INTERVAL_MS (List.length polls)
      /\ console w' = console w
      /\ ((now w < started + POLL_MAX_MS)%Z -> polls <> [])
      /\ (polls = []
          \/ ((Z.of_nat (List.length polls) - 1) * POLL_INTERVAL_MS
              < started + POLL_MAX_MS - now w)%Z).
Proof.
  unfold POLL_MAX_MS, POLL_INTERVAL_MS in *.
  induction fuel as [|fuel IH]; intros w Hpend Hgap; rewrite poll_loop_step;
    unfold POLL_MAX_MS, POLL_INTERVAL_MS in *.
  - (* no iteration left to spend: the deadline has passed *)
    assert (Hdue : (now w - started <? 60000)%Z = false) by (apply Z.ltb_ge; lia).
    rewrite Hdue. exists w, []. rewrite !app_nil_r.
    repeat split; auto; try lia.
  - destruct (now w - started <? 60000)%Z eqn:Hdue.
    + apply Z.ltb_lt in Hdue. cbv zeta.
      destruct (Hpend (List.length (fetches w)) (le_n _)) as (res & Hres & Hcl).
      rewrite Hres, Hcl.
      set (w2 := after_sleep env 3000 (after_fetch env (GetMarkdown jobId) w)).
      assert (Hnow2 : (now w + 3000 <= now w2)%Z).
      { unfold w2, after_sleep, after_fetch; cbn [now timers fetches].
        lia. }
      destruct (IH w2) as (w' & polls & Hrun & Hend & Hf & Hall & Ht & Hc & _ & Hcount).
      * intros n Hn. apply Hpend.
        unfold w2, after_sleep, after_fetch in Hn; cbn [fetches] in Hn.
        rewrite length_app in Hn. simpl in Hn. lia.
      * lia.
      * exists w', ((now w, GetMarkdown jobId) :: polls).
        split; [exact Hrun|]. split; [exact Hend|].
        split; [rewrite Hf; unfold w2, after_sleep, after_fetch; cbn [fetches];
                rewrite <- app_assoc; reflexivity|].
        split; [constructor; [cbn [fst snd]; split; [lia|reflexivity]|exact Hall]|].
        split; [rewrite Ht; unfold w2, after_sleep, after_fetch; cbn [timers];
                rewrite <- app_assoc; reflexivity|].
        split; [rewrite Hc; reflexivity|].
        split; [discriminate|].
        right. cbn [List.length]. destruct Hcount as [->|Hcount]; cbn [List.length]; lia.
    + apply Z.ltb_ge in Hdue. exists w, []. rewrite !app_nil_r.
      repeat split; auto; try lia.
Qed.

(** Whatever the service answers, the loop ends: 21 iterations are
    enough, each pending answer costing at least one poll interval of
    the 60 seconds. *)
Lemma poll_loop_returns (fuel : nat) (jobId : value) (started : Z) :
  forall w : World,
    (started + POLL_MAX_MS - now w <= Z.of_nat fuel * POLL_INTERVAL_MS)%Z ->
    exists (r : completion jsstring) (w' : World),
      poll_loop rt env (S fuel) jobId started w = Some (r, w').
Proof.
  unfold POLL_MAX_MS, POLL_INTERVAL_MS.
  induction fuel as [|fuel IH]; intros w Hgap; rewrite poll_loop_step;
    unfold POLL_MAX_MS, POLL_INTERVAL_MS.
  - assert (Hdue : (now w - started <? 60000)%Z = false) by (apply Z.ltb_ge; lia).
    rewrite Hdue. eauto.
  - destruct (now w - started <? 60000)%Z eqn:Hdue; [|eauto].
    apply Z.ltb_lt in Hdue. cbv zeta.
    destruct (reply (network env (List.length (fetches w)))) as [res|]; [|eauto].
    destruct (classify rt res); eauto.
    apply IH. unfold after_sleep, after_fetch; cbn [now timers fetches].
    lia.
Qed.

(** The deadline test precedes each query: whatever the service
    answers, every query of the loop began before the deadline. *)
Lemma poll_loop_queries_before_deadline (fuel : nat) (jobId : value) (started : Z) :
  forall (w w' : World) (r : completion jsstring),
    poll_loop rt env fuel jobId started w = Some (r, w') ->
    exists polls : list (Z * Request),
      fetches w' = fetches w ++ polls
      /\ Forall (fun q => (fst q < started + POLL_MAX_MS)%Z /\ snd q = GetMarkdown jobId) polls.
Proof.
  induction fuel as [|fuel IH]; intros w w' r Hrun; [discriminate|].
  rewrite poll_loop_step in Hrun.
  destruct (now w - started <? POLL_MAX_MS)%Z eqn:Hdue.
  - apply Z.ltb_lt in Hdue. cbv zeta in Hrun.
    assert (Hone : forall x : completion jsstring,
               Some (x, after_fetch env (GetMarkdown jobId) w) = Some (r, w') ->
               exists polls : list (Z * Request),
                 fetches w' = fetches w ++ polls
                 /\ Forall (fun q => (fst q < started + POLL_MAX_MS)%Z
                                     /\ snd q = GetMarkdown jobId) polls).
    { intros x Hx. inversion Hx; subst. exists [(now w, GetMarkdown jobId)].
      split; [reflexivity|]. constructor; [|constructor].
      cbn [fst snd]. split; [lia|reflexivity]. }
    destruct (reply (network env (List.length (fetches w)))) as [res|]; [|eauto].
    destruct (classify rt res); eauto.
    apply IH in Hrun. destruct Hrun as (polls & Hf & Hall).
    exists ((now w, GetMarkdown jobId) :: polls). split.
    + rewrite Hf. unfold after_sleep, after_fetch; cbn [fetches].
      rewrite <- app_assoc. reflexivity.
    + constructor; [cbn [fst snd]; split; [lia|reflexivity]|exact Hall].
  - inversion Hrun; subst. exists []. rewrite app_nil_r. split; [reflexivity|constructor].
Qed.

(** The loop of the LlamaParse version.  If every response to a poll
    is a 400 or a 404 whose message says that the job is still being
    processed, then
    [pollLlamaParseMarkdown] polls until the deadline (60 seconds
    after it started) is reached and throws "LlamaParse job timed out":
    it returns no payload and no other error.  Every query began before
    the deadline (the test precedes each query), there are between 1
    and 20 of them, and each was followed by one sleep of the poll
    interval. *)
Theorem poll_all_pending_times_out :
  forall (fuel : nat) (jobId : value) (w : World),
    (forall n, (List.length (fetches w) <= n)%nat ->
       exists res, reply (network env n) = Some res
                   /\ (status res = 400 \/ status res = 404)%Z
                   /\ still_processing (message_in (detail_of rt res)) = true) ->
    (21 <= fuel)%nat ->
    exists (w' : World) (polls : list (Z * Request)),
      pollLlamaParseMarkdown rt env fuel jobId w = Some (Thrown (Error (lit "LlamaParse job timed out")), w')
      /\ (now w + POLL_MAX_MS <= now w')%Z
      /\ fetches w' = fetches w ++ polls
      /\ Forall (fun q => (fst q < now w + POLL_MAX_MS)%Z /\ snd q = GetMarkdown jobId) polls
      /\ (1 <= List.length polls <= 20)%nat
      /\ timers w' = timers w ++ repeat POLL_INTERVAL_MS (List.length polls).
Proof.
  intros fuel jobId w Hpend Hfuel.
  destruct fuel as [|fuel]; [lia|].
  destruct (@poll_loop_pending fuel jobId (now w) w)
    as (w' & polls & Hrun & Hend & Hf & Hall & Ht & _ & Hne & Hcount).
  - intros n Hn. destruct (Hpend n Hn) as (res & Hres & Hs & Hm).
    exists res. split; [exact Hres|]. apply classify_pending; assumption.
  - unfold POLL_MAX_MS, POLL_INTERVAL_MS. lia.
  - exists w', polls. unfold pollLlamaParseMarkdown, bind, Date_now.
    repeat split; auto.
    + assert (polls <> []) as Hp by (apply Hne; unfold POLL_MAX_MS; lia).
      destruct polls; [congruence|]. cbn [List.length]. lia.
    + unfold POLL_MAX_MS, POLL_INTERVAL_MS in Hcount.
      destruct Hcount as [->|Hcount]; cbn [List.length]; lia.
Qed.

(** A 400 or 404 without a still-processing message ends the loop. *)
Lemma poll_loop_job_error (fuel : nat) (jobId : value) (started : Z) (w : World)
    (res : Response) :
  (now w - started < POLL_MAX_MS)%Z ->
  reply (network env (List.length (fetches w))) = Some res ->
  (status res = 400 \/ status res = 404)%Z ->
  still_processing (message_in (detail_of rt res)) = false ->
  poll_loop rt env (S fuel) jobId started w
  = Some (Thrown (Error (lit "LlamaParse job error: "
                         ++ JSON_stringify rt (coalesce (detail_of rt res)
                                                        (VStr (lit "unknown"))))),
          after_fetch env (GetMarkdown jobId) w).
Proof.
  intros Hdue Hres Hs Hm. apply Z.ltb_lt in Hdue.
  rewrite poll_loop_step, Hdue; cbv zeta; rewrite Hres.
  rewrite (classify_permanent res Hs Hm). reflexivity.
Qed.

(** C2.  In an iteration of the loop (the deadline has not passed), on
    a response with status 400 or 404: if the message of the error
    body contains one of the two still-processing texts, the loop
    sleeps one poll interval and goes on with the next iteration; if
    it does not, the loop throws "LlamaParse job error: ..." at once:
    the world it leaves has this one query more and no timer more, so
    nothing is polled after such a response. *)
Theorem not_ready_status_pending_or_permanent :
  forall (fuel : nat) (jobId : value) (started : Z) (w : World) (res : Response),
    (now w - started < POLL_MAX_MS)%Z ->
    reply (network env (List.length (fetches w))) = Some res ->
    (status res = 400 \/ status res = 404)%Z ->
    let message := message_in (detail_of rt res) in
    let w1 := after_fetch env (GetMarkdown jobId) w in
    (still_processing message = true ->
       poll_loop rt env (S fuel) jobId started w
       = poll_loop rt env fuel jobId started (after_sleep env POLL_INTERVAL_MS w1)
       /\ timers (after_sleep env POLL_INTERVAL_MS w1) = timers w ++ [POLL_INTERVAL_MS]
       /\ fetches (after_sleep env POLL_INTERVAL_MS w1) = fetches w ++ [(now w, GetMarkdown jobId)])
    /\ (still_processing message = false ->
       poll_loop rt env (S fuel) jobId started w
       = Some (Thrown (Error (lit "LlamaParse job error: "
                              ++ JSON_stringify rt (coalesce (detail_of rt res)
                                                             (VStr (lit "unknown"))))), w1)
       /\ fetches w1 = fetches w ++ [(now w, GetMarkdown jobId)]
       /\ timers w1 = timers w).
Proof.
  intros fuel jobId started w res Hdue Hres Hs message w1.
  apply Z.ltb_lt in Hdue.
  split; intros Hm; rewrite poll_loop_step, Hdue; cbv zeta; rewrite Hres.
  - rewrite (classify_pending res Hs Hm). repeat split.
  - rewrite (classify_permanent res Hs Hm). repeat split.
Qed.

(** C3.  In an iteration of the loop, on a response with a success
    status: if the body parses as JSON and the value has a string
    [markdown], the loop returns that string; if the body is not valid
    JSON, or is JSON without a string [markdown], the loop returns the
    raw body.  In each case it returns; it does not throw. *)
Theorem success_returns_markdown_or_raw_body :
  forall (fuel : nat) (jobId : value) (started : Z) (w : World) (res : Response),
    (now w - started < POLL_MAX_MS)%Z ->
    reply (network env (List.length (fetches w))) = Some res ->
    ok res = true ->
    let w1 := after_fetch env (GetMarkdown jobId) w in
    (forall json markdown,
        JSON_parse rt (body res) = Some json ->
        json?."markdown" = VStr markdown ->
        poll_loop rt env (S fuel) jobId started w = Some (Normal markdown, w1))
    /\ (JSON_parse rt (body res) = None ->
        poll_loop rt env (S fuel) jobId started w = Some (Normal (body res), w1))
    /\ (forall json,
        JSON_parse rt (body res) = Some json ->
        is_string (json?."markdown") = false ->
        poll_loop rt env (S fuel) jobId started w = Some (Normal (body res), w1)).
Proof.
  intros fuel jobId started w res Hdue Hres Hok w1.
  apply Z.ltb_lt in Hdue.
  repeat split; intros; rewrite poll_loop_step, Hdue; cbv zeta; rewrite Hres;
    unfold classify; rewrite Hok.
  - rewrite H, H0, (prop_string_truthy _ _ H0). reflexivity.
  - rewrite H. reflexivity.
  - rewrite H. destruct (truthy json); [|reflexivity].
    destruct (json?."markdown"); try reflexivity. discriminate.
Qed.

(** C4.  If the response to the first poll has a success status,
    [pollLlamaParseMarkdown] returns a payload after exactly one
    query and without setting any timer. *)
Theorem first_response_ready_one_query :
  forall (fuel : nat) (jobId : value) (w : World) (res : Response),
    reply (network env (List.length (fetches w))) = Some res ->
    ok res = true ->
    exists (payload : jsstring) (w' : World),
      pollLlamaParseMarkdown rt env (S fuel) jobId w = Some (Normal payload, w')
      /\ classify rt res = Ready payload
      /\ fetches w' = fetches w ++ [(now w, GetMarkdown jobId)]
      /\ timers w' = timers w.
Proof.
  intros fuel jobId w res Hres Hok.
  destruct (classify_ready res Hok) as [payload Hcl].
  exists payload, (after_fetch env (GetMarkdown jobId) w).
  unfold pollLlamaParseMarkdown, bind, Date_now.
  rewrite poll_loop_step.
  replace (now w - now w)%Z with 0%Z by lia.
  change (0 <? POLL_MAX_MS)%Z with true. cbv zeta iota.
  rewrite Hres, Hcl. repeat split.
Qed.

Lemma still_processing_empty : still_processing [] = false.
Proof. reflexivity. Qed.

(** C9.  In an iteration of the loop, on a response with status 400 or
    404 whose body is not valid JSON, or is JSON whose [detail] is not
    a string: the message used to classify it is empty, and the loop
    throws "LlamaParse job error: ..." at once, after this one query
    and without sleeping.  The failure to parse the body does not
    surface (the error is not a [SyntaxError]) and is not taken for a
    still-processing answer. *)
Theorem unreadable_error_body_is_permanent :
  forall (fuel : nat) (jobId : value) (started : Z) (w : World) (res : Response),
    (now w - started < POLL_MAX_MS)%Z ->
    reply (network env (List.length (fetches w))) = Some res ->
    (status res = 400 \/ status res = 404)%Z ->
    (JSON_parse rt (body res) = None
     \/ exists d, JSON_parse rt (body res) = Some d /\ is_string (d?."detail") = false) ->
    let w1 := after_fetch env (GetMarkdown jobId) w in
    message_in (detail_of rt res) = []
    /\ classify rt res <> Pending
    /\ poll_loop rt env (S fuel) jobId started w
       = Some (Thrown (Error (lit "LlamaParse job error: "
                              ++ JSON_stringify rt (coalesce (detail_of rt res)
                                                             (VStr (lit "unknown"))))), w1)
    /\ fetches w1 = fetches w ++ [(now w, GetMarkdown jobId)]
    /\ timers w1 = timers w.
Proof.
  intros fuel jobId started w res Hdue Hres Hs Hbody w1.
  assert (Hmsg : message_in (detail_of rt res) = []).
  { unfold message_in, detail_of.
    destruct Hbody as [Hnone|(d & Hd & Hdetail)].
    - rewrite Hnone. reflexivity.
    - rewrite Hd. destruct (d?."detail"); try reflexivity. discriminate. }
  assert (Hm : still_processing (message_in (detail_of rt res)) = false)
    by (rewrite Hmsg; apply still_processing_empty).
  split; [exact Hmsg|].
  split; [rewrite (classify_permanent res Hs Hm); discriminate|].
  split; [apply poll_loop_job_error; assumption|].
  split; reflexivity.
Qed.

End PollLoop.

(* ================================================================== *)
(** * Properties of the submission ([uploadToLlamaParse], [llamaUploadFile]) *)
(* ================================================================== *)

Section Submission.

Import LlamaParse LlamaExtract.

Context (rt : Runtime) (env : Env).

(** [llamaUploadFile] on a non-success status: one request, and an
    error that carries at most the first 400 code units of the body. *)
Lemma llamaUploadFile_failure_truncated (input : ResumeInput) (w : World) (res : Response) :
  reply (network env (List.length (fetches w))) = Some res ->
  ok res = false ->
  llamaUploadFile rt env input w
  = Some (Thrown (Error (lit "LlamaExtract upload failed: " ++ slice0 400 (body res))),
          after_fetch env (PostFile input) w)
  /\ (List.length (slice0 400 (body res)) <= 400)%nat
  /\ (exists rest, body res = slice0 400 (body res) ++ rest).
Proof.
  intros Hres Hok. unfold llamaUploadFile, bind, fetch. rewrite Hres, Hok.
  split; [reflexivity|]. unfold slice0. split.
  - apply firstn_le_length.
  - exists (skipn 400 (body res)). symmetry. apply firstn_skipn.
Qed.

(** [uploadToLlamaParse] on a non-success status: one request, and an
    error that carries the whole body. *)
Lemma uploadToLlamaParse_failure_whole_body (input : ResumeInput) (w : World) (res : Response) :
  present (llamaKey env) = true ->
  reply (network env (List.length (fetches w))) = Some res ->
  ok res = false ->
  uploadToLlamaParse rt env input w
  = Some (Thrown (Error (lit "LlamaParse upload failed: " ++ body res)),
          after_fetch env (PostUpload input) w).
Proof.
  intros Hkey Hres Hok. unfold uploadToLlamaParse. rewrite Hkey. cbn [negb].
  unfold bind, fetch. rewrite Hres, Hok. reflexivity.
Qed.

(** C5, as the code has it.  When the response to the upload has a
    success status, both submit functions parse its body as JSON.  If
    the body is not valid JSON, the submission fails with the parser's
    [SyntaxError] and returns no identifier.  If it is valid JSON, the
    [id] of the value is returned as it is, without any check:
    [undefined] when the field is absent.  ([uploadToLlamaParse] reads
    [json.id], which throws a [TypeError] when the body is the JSON
    [null]; [llamaUploadFile] reads [json?.id].) *)
Theorem submit_success_returns_id_unchecked :
  forall (input : ResumeInput) (w : World) (res : Response),
    reply (network env (List.length (fetches w))) = Some res ->
    ok res = true ->
    (JSON_parse rt (body res) = None ->
       llamaUploadFile rt env input w
       = Some (Thrown (SyntaxError (body res)), after_fetch env (PostFile input) w)
       /\ (present (llamaKey env) = true ->
           uploadToLlamaParse rt env input w
           = Some (Thrown (SyntaxError (body res)), after_fetch env (PostUpload input) w)))
    /\ (forall json, JSON_parse rt (body res) = Some json ->
       llamaUploadFile rt env input w
       = Some (Normal (json?."id"), after_fetch env (PostFile input) w)
       /\ (present (llamaKey env) = true ->
           uploadToLlamaParse rt env input w
           = Some (if nullish json then Thrown (TypeError (lit "id")) else Normal (json?."id"),
                   after_fetch env (PostUpload input) w))).
Proof.
  intros input w res Hres Hok. split.
  - intros Hbad. split.
    + unfold llamaUploadFile, bind, fetch, parse_or_throw, throw.
      rewrite Hres, Hok, Hbad. reflexivity.
    + intros Hkey. unfold uploadToLlamaParse. rewrite Hkey. cbn [negb].
      unfold bind, fetch, parse_or_throw, throw.
      rewrite Hres, Hok, Hbad. reflexivity.
  - intros json Hjson. split.
    + unfold llamaUploadFile, bind, fetch, parse_or_throw, ret.
      rewrite Hres, Hok, Hjson. reflexivity.
    + intros Hkey. unfold uploadToLlamaParse. rewrite Hkey. cbn [negb].
      unfold bind, fetch, parse_or_throw, get, ret, throw.
      rewrite Hres, Hok, Hjson. destruct (nullish json); reflexivity.
Qed.

End Submission.

(* ================================================================== *)
(** * Properties of [loadResumeInput] *)
(* ================================================================== *)

Section LoadResumeInput.

Import Shared.

Lemma trimStart_nil (s : jsstring) :
  trimStart s = [] <-> forallb is_white_space s = true.
Proof.
  induction s as [|c s IH]; simpl; [tauto|].
  destruct (is_white_space c); simpl; [exact IH|]. split; discriminate.
Qed.

Lemma trimStart_all_white (s : jsstring) :
  forallb is_white_space (trimStart s) = true -> trimStart s = [].
Proof.
  induction s as [|c s IH]; simpl; [reflexivity|].
  destruct (is_white_space c) eqn:Hc; [exact IH|].
  simpl. rewrite Hc. discriminate.
Qed.

Lemma forallb_rev (f : code_unit -> bool) (s : jsstring) :
  forallb f (rev s) = forallb f s.
Proof.
  induction s as [|c s IH]; simpl; [reflexivity|].
  rewrite forallb_app, IH. simpl. rewrite andb_true_r. apply andb_comm.
Qed.

(** [s.trim()] is empty exactly when [s] is made of white space. *)
Lemma trim_nil (s : jsstring) :
  trim s = [] <-> forallb is_white_space s = true.
Proof.
  unfold trim, trimEnd. split.
  - intros H. apply (f_equal (@rev code_unit)) in H. rewrite rev_involutive in H.
    simpl in H. apply trimStart_nil in H. rewrite forallb_rev in H.
    apply trimStart_nil. apply trimStart_all_white. exact H.
  - intros H. apply trimStart_nil in H. rewrite H. reflexivity.
Qed.

Context (rt : Runtime) (env : Env).

Lemma text_not_provided (body : ResumeRequest) :
  text body = None \/ (exists t, text body = Some t /\ forallb is_white_space t = true) ->
  loadResumeInput rt env body = loadStoredFile rt env body.
Proof.
  unfold loadResumeInput. intros [H|(t & H & Hws)]; rewrite H; [reflexivity|].
  destruct t as [|c t]; [reflexivity|].
  apply trim_nil in Hws. rewrite Hws. reflexivity.
Qed.

(** C10, as the code has it.  [loadResumeInput] treats a [text] that is
    absent, empty or made of white space only as not provided: the
    result is the one for the body without its [text].  Then, when the
    Supabase client is initialised, it requires both [bucket] and
    [filePath] and throws "Provide either `text` or (`bucket` and
    `filePath`)" if either is missing or empty; when the client is not
    initialised it throws "Supabase client not initialized" before it
    looks at them.  A [text] with a character that is not white space
    is encoded and used as the input, whatever the other fields and the
    client are. *)
Theorem loadResumeInput_text_or_file :
  forall (body : ResumeRequest) (w : World),
    (text body = None \/ (exists t, text body = Some t /\ forallb is_white_space t = true) ->
       loadResumeInput rt env body w = loadResumeInput rt env (without_text body) w
       /\ (forall client, supabase env = Some client ->
          present (bucket body) = false \/ present (filePath body) = false ->
          loadResumeInput rt env body w
          = Some (Thrown (Error (lit "Provide either `text` or (`bucket` and `filePath`)")), w))
       /\ (supabase env = None ->
          loadResumeInput rt env body w
          = Some (Thrown (Error (lit "Supabase client not initialized")), w)))
    /\ (forall t, text body = Some t ->
          existsb (fun c => negb (is_white_space c)) t = true ->
          loadResumeInput rt env body w
          = Some (Normal {| buffer := TextEncoder.encode t;
                            filename := lit "resume.txt";
                            contentType := lit "text/plain" |}, w)).
Proof.
  intros body w. split.
  - intros Hno. rewrite (text_not_provided body Hno). split; [reflexivity|].
    unfold loadStoredFile. split.
    + intros client Hc Hmiss. rewrite Hc.
      destruct (bucket body) as [[|? ?]|]; destruct (filePath body) as [[|? ?]|];
        try reflexivity; destruct Hmiss; discriminate.
    + intros Hc. rewrite Hc. reflexivity.
  - intros t Ht Hex. unfold loadResumeInput. rewrite Ht.
    assert (Hnw : forallb is_white_space t = false).
    { destruct (forallb is_white_space t) eqn:Hall; [|reflexivity].
      apply existsb_exists in Hex. destruct Hex as (c & Hin & Hc).
      rewrite forallb_forall in Hall. rewrite (Hall c Hin) in Hc. discriminate. }
    destruct t as [|c t]; [discriminate|].
    destruct (trim (c :: t)) eqn:Htrim.
    + apply trim_nil in Htrim. congruence.
    + reflexivity.
Qed.

End LoadResumeInput.

(* ================================================================== *)
(** * Properties of the result normaliser ([extractMarkdown]) *)
(* ================================================================== *)

Section Normalizer.

Import WebApp.

Context (rt : Runtime).

(** C7, as the code has it.  Let [payload] be [result.parsed].
    - When [payload] is a string holding JSON for a value with a string
      [markdown], or [payload.markdown] is such a string,
      [extractMarkdown] returns the inner [markdown] (one level deep).
    - When [payload.markdown] is a string that is not valid JSON, or is
      JSON without a string [markdown], it is returned unchanged.
    - In every other case (a [payload] string that wraps no markdown,
      or a [payload] without a string [markdown]) the function returns
      [null].
    The function is total: it never throws. *)
Theorem extractMarkdown_cases :
  forall (result : value),
    let payload := result?."parsed" in
    (forall s obj markdown,
        payload = VStr s ->
        JSON_parse rt s = Some obj -> obj?."markdown" = VStr markdown ->
        extractMarkdown rt result = VStr markdown)
    /\ (forall s obj markdown,
        payload?."markdown" = VStr s ->
        JSON_parse rt s = Some obj -> obj?."markdown" = VStr markdown ->
        extractMarkdown rt result = VStr markdown)
    /\ (forall s,
        payload?."markdown" = VStr s ->
        (JSON_parse rt s = None
         \/ exists obj, JSON_parse rt s = Some obj /\ is_string (obj?."markdown") = false) ->
        extractMarkdown rt result = VStr s)
    /\ (forall s,
        payload = VStr s ->
        (JSON_parse rt s = None
         \/ exists obj, JSON_parse rt s = Some obj /\ is_string (obj?."markdown") = false) ->
        extractMarkdown rt result = VNull)
    /\ (is_string payload = false ->
        is_string (payload?."markdown") = false ->
        extractMarkdown rt result = VNull).
Proof.
  intros result payload. unfold extractMarkdown. fold payload.
  repeat split.
  - intros s obj markdown Hp Hobj Hm. rewrite Hp, Hobj, Hm.
    rewrite (prop_string_truthy _ _ Hm). reflexivity.
  - intros s obj markdown Hp Hobj Hm.
    assert (Hnot : forall t, payload <> VStr t).
    { intros t Ht. rewrite Ht in Hp. discriminate. }
    destruct payload; try discriminate. rewrite Hp, Hobj, Hm.
    rewrite (prop_string_truthy _ _ Hm). reflexivity.
  - intros s Hp Hbad.
    destruct payload; try discriminate. rewrite Hp.
    destruct Hbad as [Hnone|(obj & Hobj & Hm)].
    + rewrite Hnone. reflexivity.
    + rewrite Hobj. destruct (truthy obj); [|reflexivity].
      destruct (obj?."markdown"); try reflexivity. discriminate.
  - intros s Hp Hbad. rewrite Hp.
    destruct Hbad as [Hnone|(obj & Hobj & Hm)].
    + rewrite Hnone. reflexivity.
    + rewrite Hobj. destruct (truthy obj); [|reflexivity].
      destruct (obj?."markdown"); try reflexivity. discriminate.
  - intros Hp Hm. destruct payload; try discriminate;
      try reflexivity; destruct ((VObj fields)?."markdown") eqn:E; try reflexivity;
      try discriminate.
    all: simpl in Hm; try discriminate.
Qed.

End Normalizer.

(* ================================================================== *)
(** * Properties of the LlamaExtract version *)
(* ================================================================== *)

Section Handler.

Import Shared LlamaExtract.

Context (rt : Runtime) (env : Env).


(** When the deadline has passed the loop of
    [parseResumeWithLlamaExtract] ends without an error and without a
    query; the function goes on to request the result. *)
Lemma wait_loop_deadline (fuel : nat) (jobId : value) (deadline : Z) (w : World) :
  (deadline <= now w)%Z ->
  wait_loop rt env (S fuel) jobId deadline w = Some (Normal tt, w).
Proof.
  intros Hdue. cbn [wait_loop]. unfold bind, Date_now.
  apply Z.ltb_ge in Hdue. rewrite Hdue. reflexivity.
Qed.

(** [llamaPollJob] issues one query, whatever comes back. *)
Lemma llamaPollJob_one_query (jobId : value) (w : World) :
  exists r : completion value,
    llamaPollJob rt env jobId w = Some (r, after_fetch env (GetJob jobId) w).
Proof.
  unfold llamaPollJob, bind, fetch, parse_or_throw, throw, ret.
  destruct (reply (network env (List.length (fetches w)))) as [res|]; [|eauto].
  destruct (ok res); cbn [negb]; [|eauto].
  destruct (JSON_parse rt (body res)); eauto.
Qed.

(** One iteration of the LlamaExtract loop. *)
Lemma wait_loop_step (fuel : nat) (jobId : value) (deadline : Z) (w : World) :
  wait_loop rt env (S fuel) jobId deadline w =
  if (now w <? deadline)%Z then
    match llamaPollJob rt env jobId w with
    | None => None
    | Some (Thrown e, w1) => Some (Thrown e, w1)
    | Some (Normal status, w1) =>
        if is_str (status?."status") "SUCCESS" then Some (Normal tt, w1)
        else if is_str (status?."status") "FAILED" then
          Some (Thrown (Error (lit "LlamaExtract job failed: " ++ JSON_stringify rt status)), w1)
        else wait_loop rt env fuel jobId deadline (after_sleep env 3000 w1)
    end
  else Some (Normal tt, w).
Proof.
  cbn [wait_loop]. unfold bind at 1. unfold Date_now.
  destruct (now w <? deadline)%Z; [|reflexivity].
  unfold bind at 1.
  destruct (llamaPollJob rt env jobId w) as [[[status|e] w1]|]; try reflexivity.
  destruct (is_str (status?."status") "SUCCESS"); [reflexivity|].
  destruct (is_str (status?."status") "FAILED"); reflexivity.
Qed.


(** While LlamaExtract reports the job neither done nor failed, the loop
    polls until the deadline and then ends normally: this version has
    no timeout error, the caller goes on to request the result. *)
Lemma wait_loop_never_done (fuel : nat) (jobId : value) (deadline : Z) :
  forall w : World,
    (forall n, (List.length (fetches w) <= n)%nat ->
       exists res status,
         reply (network env n) = Some res /\ ok res = true
         /\ JSON_parse rt (body res) = Some status
         /\ is_str (status?."status") "SUCCESS" = false
         /\ is_str (status?."status") "FAILED" = false) ->
    (deadline - now w <= Z.of_nat fuel * 3000)%Z ->
    exists w' : World,
      wait_loop rt env (S fuel) jobId deadline w = Some (Normal tt, w')
      /\ (deadline <= now w')%Z.
Proof.
  induction fuel as [|fuel IH]; intros w Hpend Hgap; rewrite wait_loop_step.
  - assert (Hdue : (now w <? deadline)%Z = false) by (apply Z.ltb_ge; lia).
    rewrite Hdue. exists w. split; [reflexivity|lia].
  - destruct (now w <? deadline)%Z eqn:Hdue.
    + apply Z.ltb_lt in Hdue.
      destruct (Hpend (List.length (fetches w)) (le_n _))
        as (res & status & Hres & Hok & Hjson & Hs & Hf).
      assert (Hpoll : llamaPollJob rt env jobId w
                      = Some (Normal status, after_fetch env (GetJob jobId) w)).
      { unfold llamaPollJob, bind, fetch, parse_or_throw, ret.
        rewrite Hres, Hok. cbn [negb]. rewrite Hjson. reflexivity. }
      rewrite Hpoll, Hs, Hf. apply IH.
      * intros n Hn. apply Hpend.
        unfold after_sleep, after_fetch in Hn; cbn [fetches] in Hn.
        rewrite length_app in Hn. simpl in Hn. lia.
      * unfold after_sleep, after_fetch; cbn [now timers fetches]. lia.
    + apply Z.ltb_ge in Hdue. exists w. split; [reflexivity|lia].
Qed.

(** C8.  In the LlamaExtract handler, when the request is read, the
    input is loaded and the resume is parsed, but the insert into the
    table reports an error: the handler logs "Supabase insert error:"
    with that error and answers with status 200, the parsed result and
    the parser version, and a [resumeId] of [null]. *)
Theorem insert_failure_still_answers_200 :
  forall (fuel : nat) (req : HttpRequest) (json : value) (body : ResumeRequest)
         (input : ResumeInput) (parsed error : value) (client : Client)
         (w w1 w2 : World),
    str_eqb (method req) (lit "OPTIONS") = false ->
    JSON_parse rt (match safeBody (req_text req) with [] => lit "{}" | safe => safe end)
    = Some json ->
    asResumeRequest json = Some body ->
    loadResumeInput rt env body w = Some (Normal input, w1) ->
    parseResumeWithLlamaExtract rt env fuel input w1 = Some (Normal parsed, w2) ->
    supabase env = Some client ->
    insert_error (insert client (resume_row body parsed)) = Some error ->
    serve rt env fuel req w
    = Some (Normal (respond 200
                      (VObj [(lit "parsed", parsed);
                             (lit "rawText", rawText body);
                             (lit "resumeId", VNull);
                             (lit "jobId", coalesce (parsed?."jobId") VNull);
                             (lit "parserVersion", VStr (lit "llamaextract-http-v1"))])),
            after_log [LogText (lit "Supabase insert error:"); LogValue error] w2).
Proof.
  intros fuel req json body input parsed error client w w1 w2
         Hmethod Hjson Hbody Hload Hparse Hclient Herror.
  unfold serve. rewrite Hmethod, Hjson, Hbody.
  unfold try_catch, bind. rewrite Hload, Hparse, Hclient.
  cbv zeta. rewrite Herror.
  reflexivity.
Qed.

End Handler.

(* ================================================================== *)
(** * Polls that find the job still running, in both versions *)
(* ================================================================== *)

Section PendingPolls.

Import LlamaParse LlamaExtract.

Context (rt : Runtime) (env : Env).


End PendingPolls.

(* ================================================================== *)
(** * The code on concrete inputs *)
(* ================================================================== *)

Section Examples.

Import Shared LlamaParse LlamaExtract WebApp Reference.

(** The scenario of the specification: two polls answered 404
    "Result for Parsing Job J1 not found", the third answered 200 with
    the markdown "Hello": two sleeps of one interval, then "Hello". *)
Example two_pending_cycles_then_success :
  pollLlamaParseMarkdown runtime two_pending_then_hello 3 J1 start
  = Some (Normal (lit "Hello"),
          {| now := 6300;
             fetches := [(0%Z, GetMarkdown J1); (3100%Z, GetMarkdown J1);
                         (6200%Z, GetMarkdown J1)];
             timers := [3000%Z; 3000%Z];
             console := [] |}).
Proof. vm_compute. reflexivity. Qed.

(** The scenario of the specification: a poll answered 400 "bad input"
    fails at once. *)
Example bad_input_fails_at_once :
  pollLlamaParseMarkdown runtime rejects_bad_input 3 J1 start
  = Some (Thrown (Error (lit "LlamaParse job error: " ++ JSON.text "{'detail':'bad input'}")),
          {| now := 100; fetches := [(0%Z, GetMarkdown J1)]; timers := []; console := [] |}).
Proof. vm_compute. reflexivity. Qed.

Lemma poll_all_pending_times_out_witness :
  (forall n, (List.length (fetches start) <= n)%nat ->
        exists res, reply (network always_pending n) = Some res
                    /\ (status res = 400 \/ status res = 404)%Z
                    /\ still_processing (message_in (detail_of runtime res)) = true)
  /\ (21 <= 21)%nat
  /\ exists (w' : World) (polls : list (Z * Request)),
      pollLlamaParseMarkdown runtime always_pending 21 J1 start
      = Some (Thrown (Error (lit "LlamaParse job timed out")), w')
      /\ (now start + POLL_MAX_MS <= now w')%Z
      /\ fetches w' = fetches start ++ polls
      /\ Forall (fun q => (fst q < now start + POLL_MAX_MS)%Z /\ snd q = GetMarkdown J1) polls
      /\ (1 <= List.length polls <= 20)%nat
      /\ timers w' = timers start ++ repeat POLL_INTERVAL_MS (List.length polls).
Proof.
  assert (H2 : forall n, (List.length (fetches start) <= n)%nat ->
             exists res, reply (network always_pending n) = Some res
                         /\ (status res = 400 \/ status res = 404)%Z
                         /\ still_processing (message_in (detail_of runtime res)) = true).
  { intros n _. exists not_found_J1. split; [destruct n; reflexivity|].
    split; [right; reflexivity|vm_compute; reflexivity]. }
  assert (H3 : (21 <= 21)%nat) by lia.
  exact (conj H2 (conj H3
           (@poll_all_pending_times_out runtime always_pending 21 J1 start H2 H3))).
Defined.

Lemma not_ready_status_pending_or_permanent_witness :
  (now start - 0 < POLL_MAX_MS)%Z
  /\ reply (network rejects_bad_input (List.length (fetches start))) = Some bad_input
  /\ (status bad_input = 400 \/ status bad_input = 404)%Z
  /\ still_processing (message_in (detail_of runtime bad_input)) = false
  /\ poll_loop runtime rejects_bad_input 1 J1 0 start
     = Some (Thrown (Error (lit "LlamaParse job error: "
                            ++ JSON_stringify runtime
                                 (coalesce (detail_of runtime bad_input) (VStr (lit "unknown"))))),
             after_fetch rejects_bad_input (GetMarkdown J1) start).
Proof.
  assert (H1 : (now start - 0 < POLL_MAX_MS)%Z) by (vm_compute; reflexivity).
  assert (H2 : reply (network rejects_bad_input (List.length (fetches start))) = Some bad_input)
    by reflexivity.
  assert (H3 : (status bad_input = 400 \/ status bad_input = 404)%Z) by (left; reflexivity).
  assert (H4 : still_processing (message_in (detail_of runtime bad_input)) = false)
    by (vm_compute; reflexivity).
  refine (conj H1 (conj H2 (conj H3 (conj H4 _)))).
  exact (proj1 (proj2 (@not_ready_status_pending_or_permanent
                         runtime rejects_bad_input 0 J1 0 start bad_input H1 H2 H3) H4)).
Defined.

Lemma success_returns_markdown_or_raw_body_witness :
  (now start - 0 < POLL_MAX_MS)%Z
  /\ reply (network answers_plain_markdown (List.length (fetches start))) = Some plain_markdown
  /\ ok plain_markdown = true
  /\ JSON_parse runtime (body plain_markdown) = None
  /\ poll_loop runtime answers_plain_markdown 1 J1 0 start
     = Some (Normal (lit "# Jane Doe"), after_fetch answers_plain_markdown (GetMarkdown J1) start).
Proof.
  assert (H1 : (now start - 0 < POLL_MAX_MS)%Z) by (vm_compute; reflexivity).
  assert (H2 : reply (network answers_plain_markdown (List.length (fetches start)))
               = Some plain_markdown) by reflexivity.
  assert (H3 : ok plain_markdown = true) by reflexivity.
  assert (H4 : JSON_parse runtime (body plain_markdown) = None) by (vm_compute; reflexivity).
  refine (conj H1 (conj H2 (conj H3 (conj H4 _)))).
  exact (proj1 (proj2 (@success_returns_markdown_or_raw_body
                         runtime answers_plain_markdown 0 J1 0 start plain_markdown H1 H2 H3)) H4).
Defined.

Lemma first_response_ready_one_query_witness :
  reply (network answers_plain_markdown (List.length (fetches start))) = Some plain_markdown
  /\ ok plain_markdown = true
  /\ exists (payload : jsstring) (w' : World),
      pollLlamaParseMarkdown runtime answers_plain_markdown 1 J1 start
      = Some (Normal payload, w')
      /\ classify runtime plain_markdown = Ready payload
      /\ fetches w' = fetches start ++ [(now start, GetMarkdown J1)]
      /\ timers w' = timers start.
Proof.
  assert (H1 : reply (network answers_plain_markdown (List.length (fetches start)))
               = Some plain_markdown) by reflexivity.
  assert (H2 : ok plain_markdown = true) by reflexivity.
  refine (conj H1 (conj H2 _)).
  exact (@first_response_ready_one_query
           runtime answers_plain_markdown 0 J1 start plain_markdown H1 H2).
Defined.

Lemma unreadable_error_body_is_permanent_witness :
  (now start - 0 < POLL_MAX_MS)%Z
  /\ reply (network answers_unreadable (List.length (fetches start))) = Some unreadable
  /\ (status unreadable = 400 \/ status unreadable = 404)%Z
  /\ JSON_parse runtime (body unreadable) = None
  /\ message_in (detail_of runtime unreadable) = []
  /\ classify runtime unreadable <> Pending
  /\ poll_loop runtime answers_unreadable 1 J1 0 start
     = Some (Thrown (Error (lit "LlamaParse job error: "
                            ++ JSON_stringify runtime
                                 (coalesce (detail_of runtime unreadable) (VStr (lit "unknown"))))),
             after_fetch answers_unreadable (GetMarkdown J1) start)
  /\ fetches (after_fetch answers_unreadable (GetMarkdown J1) start)
     = fetches start ++ [(now start, GetMarkdown J1)]
  /\ timers (after_fetch answers_unreadable (GetMarkdown J1) start) = timers start.
Proof.
  assert (H1 : (now start - 0 < POLL_MAX_MS)%Z) by (vm_compute; reflexivity).
  assert (H2 : reply (network answers_unreadable (List.length (fetches start))) = Some unreadable)
    by reflexivity.
  assert (H3 : (status unreadable = 400 \/ status unreadable = 404)%Z) by (right; reflexivity).
  assert (H4 : JSON_parse runtime (body unreadable) = None) by (vm_compute; reflexivity).
  refine (conj H1 (conj H2 (conj H3 (conj H4 _)))).
  exact (@unreadable_error_body_is_permanent
           runtime answers_unreadable 0 J1 0 start unreadable H1 H2 H3 (or_introl H4)).
Defined.

(** C5, a submission that the claim says must fail: the service
    answers the upload with status 200 and the body [{}], which has no
    [id].  Both submit functions return [undefined] as the identifier;
    neither throws. *)
Lemma submit_without_id_returns_undefined :
  ok empty_object = true
  /\ JSON_parse runtime (body empty_object) = Some (VObj [])
  /\ (VObj [])?."id" = VUndefined
  /\ llamaUploadFile runtime answers_empty_object jane_input start
     = Some (Normal VUndefined, after_fetch answers_empty_object (PostFile jane_input) start)
  /\ uploadToLlamaParse runtime answers_empty_object jane_input start
     = Some (Normal VUndefined, after_fetch answers_empty_object (PostUpload jane_input) start).
Proof. repeat split; vm_compute; reflexivity. Qed.

Lemma submit_success_returns_id_unchecked_witness :
  reply (network answers_empty_object (List.length (fetches start))) = Some empty_object
  /\ ok empty_object = true
  /\ JSON_parse runtime (body empty_object) = Some (VObj [])
  /\ present (llamaKey answers_empty_object) = true
  /\ llamaUploadFile runtime answers_empty_object jane_input start
     = Some (Normal ((VObj [])?."id"), after_fetch answers_empty_object (PostFile jane_input) start)
  /\ uploadToLlamaParse runtime answers_empty_object jane_input start
     = Some (if nullish (VObj []) then Thrown (TypeError (lit "id"))
             else Normal ((VObj [])?."id"),
             after_fetch answers_empty_object (PostUpload jane_input) start).
Proof.
  assert (H1 : reply (network answers_empty_object (List.length (fetches start)))
               = Some empty_object) by reflexivity.
  assert (H2 : ok empty_object = true) by reflexivity.
  assert (H3 : JSON_parse runtime (body empty_object) = Some (VObj []))
    by (vm_compute; reflexivity).
  assert (H4 : present (llamaKey answers_empty_object) = true) by (vm_compute; reflexivity).
  refine (conj H1 (conj H2 (conj H3 (conj H4 _)))).
  destruct (proj2 (@submit_success_returns_id_unchecked
                     runtime answers_empty_object jane_input start empty_object H1 H2)
                  (VObj []) H3) as [Hfile Hupload].
  exact (conj Hfile (Hupload H4)).
Defined.

(** C6, the failing submission: the service answers the upload with
    status 500 and a body of 401 characters.  [uploadToLlamaParse]
    throws an error whose message carries all 401 of them, where
    [llamaUploadFile] keeps the first 400. *)
Theorem uploadToLlamaParse_error_not_truncated :
  ok long_failure = false
  /\ List.length (body long_failure) = 401%nat
  /\ uploadToLlamaParse runtime answers_long_failure jane_input start
     = Some (Thrown (Error (lit "LlamaParse upload failed: " ++ repeat 120%N 401)),
             after_fetch answers_long_failure (PostUpload jane_input) start)
  /\ llamaUploadFile runtime answers_long_failure jane_input start
     = Some (Thrown (Error (lit "LlamaExtract upload failed: " ++ repeat 120%N 400)),
             after_fetch answers_long_failure (PostFile jane_input) start).
Proof. repeat split; vm_compute; reflexivity. Qed.

(** C7, an input that the claim says is returned unchanged: the result
    whose [parsed] is the string "garbage", which is not JSON.
    [extractMarkdown] returns [null], which is neither the payload nor
    the result. *)
Lemma extractMarkdown_garbage_is_null :
  JSON_parse runtime (lit "garbage") = None
  /\ extractMarkdown runtime result_with_garbage = VNull
  /\ VNull <> VStr (lit "garbage")
  /\ VNull <> result_with_garbage.
Proof. repeat split; try (vm_compute; reflexivity); discriminate. Qed.

Lemma extractMarkdown_cases_witness :
  (result_with_markdown?."parsed")?."markdown" = VStr (lit "# Jane Doe")
  /\ JSON_parse runtime (lit "# Jane Doe") = None
  /\ extractMarkdown runtime result_with_markdown = VStr (lit "# Jane Doe")
  /\ result_with_garbage?."parsed" = VStr (lit "garbage")
  /\ JSON_parse runtime (lit "garbage") = None
  /\ extractMarkdown runtime result_with_garbage = VNull.
Proof.
  assert (H1 : (result_with_markdown?."parsed")?."markdown" = VStr (lit "# Jane Doe"))
    by (vm_compute; reflexivity).
  assert (H2 : JSON_parse runtime (lit "# Jane Doe") = None) by (vm_compute; reflexivity).
  assert (H3 : result_with_garbage?."parsed" = VStr (lit "garbage"))
    by (vm_compute; reflexivity).
  assert (H4 : JSON_parse runtime (lit "garbage") = None) by (vm_compute; reflexivity).
  refine (conj H1 (conj H2 (conj _ (conj H3 (conj H4 _))))).
  - exact (proj1 (proj2 (proj2 (@extractMarkdown_cases runtime result_with_markdown)))
             (lit "# Jane Doe") H1 (or_introl H2)).
  - exact (proj1 (proj2 (proj2 (proj2 (@extractMarkdown_cases runtime result_with_garbage))))
             (lit "garbage") H3 (or_introl H4)).
Defined.

Lemma insert_failure_still_answers_200_witness :
  str_eqb (method jane_request) (lit "OPTIONS") = false
  /\ JSON_parse runtime
       (match safeBody (req_text jane_request) with [] => lit "{}" | safe => safe end)
     = Some (VObj [(lit "text", VStr jane_text)])
  /\ asResumeRequest (VObj [(lit "text", VStr jane_text)]) = Some jane_body
  /\ loadResumeInput runtime extract_then_insert_fails jane_body start
     = Some (Normal jane_input, start)
  /\ parseResumeWithLlamaExtract runtime extract_then_insert_fails 2 jane_input start
     = Some (Normal jane_parsed, jane_parsed_world)
  /\ supabase extract_then_insert_fails = Some no_client
  /\ insert_error (insert no_client (resume_row jane_body jane_parsed)) = Some permission_denied
  /\ serve runtime extract_then_insert_fails 2 jane_request start
     = Some (Normal (respond 200
                       (VObj [(lit "parsed", jane_parsed);
                              (lit "rawText", rawText jane_body);
                              (lit "resumeId", VNull);
                              (lit "jobId", coalesce (jane_parsed?."jobId") VNull);
                              (lit "parserVersion", VStr (lit "llamaextract-http-v1"))])),
             after_log [LogText (lit "Supabase insert error:"); LogValue permission_denied]
                       jane_parsed_world).
Proof.
  assert (H1 : str_eqb (method jane_request) (lit "OPTIONS") = false)
    by (vm_compute; reflexivity).
  assert (H2 : JSON_parse runtime
                 (match safeBody (req_text jane_request) with [] => lit "{}" | safe => safe end)
               = Some (VObj [(lit "text", VStr jane_text)])) by (vm_compute; reflexivity).
  assert (H3 : asResumeRequest (VObj [(lit "text", VStr jane_text)]) = Some jane_body)
    by (vm_compute; reflexivity).
  assert (H4 : loadResumeInput runtime extract_then_insert_fails jane_body start
               = Some (Normal jane_input, start)) by (vm_compute; reflexivity).
  assert (H5 : parseResumeWithLlamaExtract runtime extract_then_insert_fails 2 jane_input start
               = Some (Normal jane_parsed, jane_parsed_world)) by (vm_compute; reflexivity).
  assert (H6 : supabase extract_then_insert_fails = Some no_client)
    by (vm_compute; reflexivity).
  assert (H7 : insert_error (insert no_client (resume_row jane_body jane_parsed))
               = Some permission_denied) by reflexivity.
  refine (conj H1 (conj H2 (conj H3 (conj H4 (conj H5 (conj H6 (conj H7 _))))))).
  exact (@insert_failure_still_answers_200
           runtime extract_then_insert_fails 2 jane_request _ jane_body jane_input
           jane_parsed permission_denied no_client start start jane_parsed_world
           H1 H2 H3 H4 H5 H6 H7).
Defined.

(** C10, a request that the claim says is refused with "Provide either
    ...": no [text], no [bucket], no [filePath], in a deployment whose
    Supabase variables are not set.  [loadResumeInput] throws
    "Supabase client not initialized". *)
Lemma loadResumeInput_without_client :
  text no_fields = None
  /\ present (bucket no_fields) = false
  /\ supabase unconfigured = None
  /\ loadResumeInput runtime unconfigured no_fields start
     = Some (Thrown (Error (lit "Supabase client not initialized")), start)
  /\ loadResumeInput runtime unconfigured no_fields start
     <> Some (Thrown (Error (lit "Provide either `text` or (`bucket` and `filePath`)")), start).
Proof.
  repeat split; try (vm_compute; reflexivity).
  vm_compute. discriminate.
Qed.

Lemma loadResumeInput_text_or_file_witness :
  (text no_fields = None
   \/ exists t, text no_fields = Some t /\ forallb is_white_space t = true)
  /\ supabase extract_then_insert_fails = Some no_client
  /\ (present (bucket no_fields) = false \/ present (filePath no_fields) = false)
  /\ loadResumeInput runtime extract_then_insert_fails no_fields start
     = Some (Thrown (Error (lit "Provide either `text` or (`bucket` and `filePath`)")), start)
  /\ text jane_body = Some jane_text
  /\ existsb (fun c => negb (is_white_space c)) jane_text = true
  /\ loadResumeInput runtime extract_then_insert_fails jane_body start
     = Some (Normal jane_input, start).
Proof.
  assert (H1 : text no_fields = None
               \/ exists t, text no_fields = Some t /\ forallb is_white_space t = true)
    by (left; reflexivity).
  assert (H2 : supabase extract_then_insert_fails = Some no_client)
    by (vm_compute; reflexivity).
  assert (H3 : present (bucket no_fields) = false \/ present (filePath no_fields) = false)
    by (left; reflexivity).
  assert (H4 : text jane_body = Some jane_text) by reflexivity.
  assert (H5 : existsb (fun c => negb (is_white_space c)) jane_text = true)
    by (vm_compute; reflexivity).
  refine (conj H1 (conj H2 (conj H3 (conj _ (conj H4 (conj H5 _)))))).
  - exact (proj1 (proj2 (proj1 (@loadResumeInput_text_or_file
                                  runtime extract_then_insert_fails no_fields start) H1))
             no_client H2 H3).
  - exact (proj2 (@loadResumeInput_text_or_file
                    runtime extract_then_insert_fails jane_body start)
             jane_text H4 H5).
Defined.

(** The LlamaExtract version when the job is never done: after 20
    polls the deadline has passed, the loop ends, and the result is
    requested all the same; here the answer has no [data], and the
    function returns normally with [structured: null].  No timeout
    error exists in this version. *)
Example llamaextract_deadline_requests_result :
  exists (parsed : value) (w : World),
    parseResumeWithLlamaExtract runtime never_done 21 jane_input start
    = Some (Normal parsed, w)
    /\ parsed?."structured" = VNull
    /\ List.length (timers w) = 20%nat
    /\ last (fetches w) (0%Z, GetJob VNull) = (62200%Z, GetResult J1).
Proof.
  eexists. eexists. split; [vm_compute; reflexivity|].
  repeat split; vm_compute; reflexivity.
Qed.



End Examples.

(* ================================================================== *)
(** * More on the poll loop of the LlamaParse version *)
(* ================================================================== *)

Section PollLoopTraces.

Import LlamaParse.

Context (rt : Runtime) (env : Env).

Lemma spaced_weaken (gap from from' : Z) (polls : list (Z * Request)) :
  (from' <= from)%Z -> spaced gap from polls -> spaced gap from' polls.
Proof.
  destruct polls as [|[t q] rest]; simpl; [tauto|]. intros H [H1 H2]. split; [lia|exact H2].
Qed.

(** Requests that are [gap] apart and all begin before [bound] are
    few. *)
Lemma spaced_count (gap bound : Z) (polls : list (Z * Request)) :
  (0 < gap)%Z ->
  forall from : Z,
    spaced gap from polls ->
    Forall (fun q => (fst q < bound)%Z) polls ->
    polls = [] \/ ((Z.of_nat (List.length polls) - 1) * gap < bound - from)%Z.
Proof.
  intros Hgap. induction polls as [|[t q] rest IH]; intros from Hsp Hall; [left; reflexivity|].
  right. simpl in Hsp. destruct Hsp as [Hfrom Hrest].
  inversion Hall as [|? ? Ht Hall']; subst. cbn [fst] in Ht.
  destruct (IH (t + gap)%Z Hrest Hall') as [->|Hc]; cbn [List.length]; nia.
Qed.

(** What a run of the loop leaves behind, whatever the service
    answers. *)
Lemma poll_loop_trace (fuel : nat) (jobId : value) (started : Z) :
  forall (w w' : World) (r : completion jsstring),
    poll_loop rt env fuel jobId started w = Some (r, w') ->
    exists (polls : list (Z * Request)) (k : nat),
      fetches w' = fetches w ++ polls
      /\ spaced POLL_INTERVAL_MS (now w) polls
      /\ Forall (fun q => (fst q < started + POLL_MAX_MS)%Z) polls
      /\ Forall (fun q => snd q = GetMarkdown jobId) polls
      /\ timers w' = timers w ++ repeat POLL_INTERVAL_MS k
      /\ (k = List.length polls \/ S k = List.length polls)
      /\ console w' = console w
      /\ (now w <= now w')%Z
      /\ (polls = [] -> r = Thrown (Error (lit "LlamaParse job timed out"))).
Proof.
  induction fuel as [|fuel IH]; intros w w' r Hrun; [discriminate|].
  rewrite poll_loop_step in Hrun.
  destruct (now w - started <? POLL_MAX_MS)%Z eqn:Hdue.
  - apply Z.ltb_lt in Hdue. cbv zeta in Hrun.
    assert (Hone : forall x : completion jsstring,
               Some (x, after_fetch env (GetMarkdown jobId) w) = Some (r, w') ->
               exists (polls : list (Z * Request)) (k : nat),
                 fetches w' = fetches w ++ polls
                 /\ spaced POLL_INTERVAL_MS (now w) polls
                 /\ Forall (fun q => (fst q < started + POLL_MAX_MS)%Z) polls
                 /\ Forall (fun q => snd q = GetMarkdown jobId) polls
                 /\ timers w' = timers w ++ repeat POLL_INTERVAL_MS k
                 /\ (k = List.length polls \/ S k = List.length polls)
                 /\ console w' = console w
                 /\ (now w <= now w')%Z
                 /\ (polls = [] -> r = Thrown (Error (lit "LlamaParse job timed out")))).
    { intros x Hx. inversion Hx; subst. exists [(now w, GetMarkdown jobId)], 0%nat.
      unfold after_fetch; cbn [fetches timers console now repeat].
      rewrite app_nil_r. repeat split; try lia; try discriminate.
      - constructor; [cbn [fst]; lia|constructor].
      - constructor; [reflexivity|constructor].
      - right; reflexivity. }
    destruct (reply (network env (List.length (fetches w)))) as [res|]; [|eauto].
    destruct (classify rt res); eauto.
    apply IH in Hrun.
    destruct Hrun as (polls & k & Hf & Hsp & Hb & Hq & Ht & Hk & Hc & Hn & _).
    unfold after_sleep, after_fetch in *; cbn [fetches timers console now] in *.
    exists ((now w, GetMarkdown jobId) :: polls), (S k).
    split; [rewrite Hf, <- app_assoc; reflexivity|].
    split.
    { simpl. split; [lia|]. eapply spaced_weaken; [|exact Hsp].
      unfold POLL_INTERVAL_MS. lia. }
    split; [constructor; [cbn [fst]; lia|exact Hb]|].
    split; [constructor; [reflexivity|exact Hq]|].
    split; [rewrite Ht, <- app_assoc; reflexivity|].
    split; [cbn [List.length]; lia|].
    split; [exact Hc|].
    split; [unfold POLL_INTERVAL_MS in *; lia|discriminate].
  - inversion Hrun; subst. exists [], 0%nat. cbn [repeat]. rewrite !app_nil_r.
    repeat split; auto; try constructor; try lia.
Qed.

(** X1.  Whatever the service answers, [pollLlamaParseMarkdown] issues
    at most 20 queries, all for the job it was given; the first begins
    when the function is called, each next one at least one poll
    interval after the one before began, and all begin within the 60
    seconds.  Every timer it awaits is one poll interval, and it awaits
    one after each query but possibly the last.  It writes nothing to
    the console. *)
Theorem pollLlamaParseMarkdown_trace :
  forall (fuel : nat) (jobId : value) (w w' : World) (r : completion jsstring),
    pollLlamaParseMarkdown rt env fuel jobId w = Some (r, w') ->
    exists (polls : list (Z * Request)) (k : nat),
      fetches w' = fetches w ++ polls
      /\ (List.length polls <= 20)%nat
      /\ spaced POLL_INTERVAL_MS (now w) polls
      /\ Forall (fun q => (fst q < now w + POLL_MAX_MS)%Z) polls
      /\ Forall (fun q => snd q = GetMarkdown jobId) polls
      /\ timers w' = timers w ++ repeat POLL_INTERVAL_MS k
      /\ (k = List.length polls \/ S k = List.length polls)
      /\ console w' = console w.
Proof.
  intros fuel jobId w w' r Hrun.
  unfold pollLlamaParseMarkdown, bind, Date_now in Hrun.
  destruct (poll_loop_trace _ _ _ _ Hrun)
    as (polls & k & Hf & Hsp & Hb & Hq & Ht & Hk & Hc & _ & _).
  exists polls, k. repeat split; auto.
  destruct (@spaced_count POLL_INTERVAL_MS (now w + POLL_MAX_MS) polls
              ltac:(unfold POLL_INTERVAL_MS; lia) (now w) Hsp Hb) as [->|Hcount].
  - cbn [List.length]. lia.
  - unfold POLL_INTERVAL_MS, POLL_MAX_MS in Hcount. lia.
Qed.

(** How a run of the loop can end: on the deadline, on a rejected
    [fetch], or on what [classify] says of the last response. *)
Lemma poll_loop_outcome (fuel : nat) (jobId : value) (started : Z) :
  forall (w w' : World) (r : completion jsstring),
    poll_loop rt env fuel jobId started w = Some (r, w') ->
    (r = Thrown (Error (lit "LlamaParse job timed out"))
     /\ (started + POLL_MAX_MS <= now w')%Z)
    \/ r = Thrown FetchRejected
    \/ exists (n : nat) (res : Response),
         reply (network env n) = Some res
         /\ S n = List.length (fetches w')
         /\ match classify rt res with
            | Ready payload => r = Normal payload
            | Permanent error => r = Thrown error
            | Pending => False
            end.
Proof.
  induction fuel as [|fuel IH]; intros w w' r Hrun; [discriminate|].
  rewrite poll_loop_step in Hrun.
  destruct (now w - started <? POLL_MAX_MS)%Z eqn:Hdue.
  - cbv zeta in Hrun.
    destruct (reply (network env (List.length (fetches w)))) as [res|] eqn:Hres.
    + destruct (classify rt res) eqn:Hcl.
      * inversion Hrun; subst. right. right.
        exists (List.length (fetches w)), res. rewrite Hcl.
        unfold after_fetch; cbn [fetches]. rewrite length_app. simpl.
        repeat split; auto; lia.
      * apply IH in Hrun. exact Hrun.
      * inversion Hrun; subst. right. right.
        exists (List.length (fetches w)), res. rewrite Hcl.
        unfold after_fetch; cbn [fetches]. rewrite length_app. simpl.
        repeat split; auto; lia.
    + inversion Hrun; subst. right. left. reflexivity.
  - inversion Hrun; subst. left. split; [reflexivity|]. apply Z.ltb_ge in Hdue. lia.
Qed.

Lemma classify_ready_inv (res : Response) (payload : jsstring) :
  classify rt res = Ready payload ->
  ok res = true
  /\ (payload = body res
      \/ exists json, JSON_parse rt (body res) = Some json
                      /\ json?."markdown" = VStr payload).
Proof.
  unfold classify. destruct (ok res).
  - intros H. split; [reflexivity|].
    destruct (JSON_parse rt (body res)) as [json|] eqn:Hj.
    + destruct (truthy json); [|inversion H; auto].
      destruct (json?."markdown") eqn:Hm; inversion H; subst; auto.
      right. exists json. split; [reflexivity|exact Hm].
    + inversion H; auto.
  - destruct ((status res =? 400) || (status res =? 404))%Z; [|discriminate].
    destruct (still_processing (message_in (detail_of rt res))); discriminate.
Qed.

Lemma classify_permanent_inv (res : Response) (error : exn) :
  classify rt res = Permanent error ->
  ok res = false
  /\ (((status res = 400 \/ status res = 404)%Z
       /\ still_processing (message_in (detail_of rt res)) = false
       /\ error = Error (lit "LlamaParse job error: "
                         ++ JSON_stringify rt (coalesce (detail_of rt res)
                                                        (VStr (lit "unknown")))))
      \/ (status res <> 400 /\ status res <> 404)%Z
         /\ error = Error (lit "LlamaParse poll failed: " ++ body res)).
Proof.
  unfold classify. destruct (ok res).
  - destruct (JSON_parse rt (body res)) as [json|]; [|discriminate].
    destruct (truthy json); [|discriminate].
    destruct (json?."markdown"); discriminate.
  - intros H. split; [reflexivity|].
    destruct ((status res =? 400) || (status res =? 404))%Z eqn:Hs.
    + destruct (still_processing (message_in (detail_of rt res))) eqn:Hm; [discriminate|].
      inversion H; subst. left. split; [|split; reflexivity].
      apply orb_true_iff in Hs. destruct Hs as [Hs|Hs]; apply Z.eqb_eq in Hs; auto.
    + inversion H; subst. right. apply orb_false_iff in Hs. destruct Hs as [H4 H5].
      apply Z.eqb_neq in H4, H5. auto.
Qed.

(** X2.  With fuel for 21 iterations [pollLlamaParseMarkdown] always
    ends, in one of five ways: it throws "LlamaParse job timed out"
    once the 60 seconds have passed; the [fetch] itself is rejected;
    or, on the last response it received, it returns the payload of a
    response with a success status (its string [markdown], or its raw
    body), it throws "LlamaParse job error: ..." for a 400 or 404
    without a still-processing message, or it throws "LlamaParse poll
    failed: " followed by the whole body for any other status. *)
Theorem pollLlamaParseMarkdown_outcomes :
  forall (fuel : nat) (jobId : value) (w : World),
    (21 <= fuel)%nat ->
    exists (r : completion jsstring) (w' : World),
      pollLlamaParseMarkdown rt env fuel jobId w = Some (r, w')
      /\ ((r = Thrown (Error (lit "LlamaParse job timed out"))
           /\ (now w + POLL_MAX_MS <= now w')%Z)
          \/ r = Thrown FetchRejected
          \/ exists (n : nat) (res : Response),
               reply (network env n) = Some res
               /\ S n = List.length (fetches w')
               /\ ((exists payload,
                      r = Normal payload /\ ok res = true
                      /\ (payload = body res
                          \/ exists json, JSON_parse rt (body res) = Some json
                                          /\ json?."markdown" = VStr payload))
                   \/ (r = Thrown (Error (lit "LlamaParse job error: "
                                          ++ JSON_stringify rt
                                               (coalesce (detail_of rt res)
                                                         (VStr (lit "unknown")))))
                       /\ (status res = 400 \/ status res = 404)%Z
                       /\ still_processing (message_in (detail_of rt res)) = false)
                   \/ (r = Thrown (Error (lit "LlamaParse poll failed: " ++ body res))
                       /\ ok res = false
                       /\ (status res <> 400 /\ status res <> 404)%Z))).
Proof.
  intros fuel jobId w Hfuel. destruct fuel as [|fuel]; [lia|].
  destruct (@poll_loop_returns rt env fuel jobId (now w) w) as (r & w' & Hrun).
  { unfold POLL_MAX_MS, POLL_INTERVAL_MS. lia. }
  exists r, w'. split; [exact Hrun|].
  destruct (poll_loop_outcome _ _ _ _ Hrun) as [[Hr Ht]|[Hr|(n & res & Hn & Hlast & Hc)]].
  - left. auto.
  - right. left. exact Hr.
  - right. right. exists n, res. split; [exact Hn|]. split; [exact Hlast|].
    destruct (classify rt res) eqn:Hcl; [| contradiction |].
    + left. destruct (classify_ready_inv _ Hcl) as [Hok Hp]. exists payload. auto.
    + destruct (classify_permanent_inv _ Hcl) as [Hok [(Hs & Hm & He)|(Hs & He)]]; subst.
      * right. left. auto.
      * right. right. auto.
Qed.

(** The clock at the end of a run, when a round trip takes at most
    [L] milliseconds and a timer fires at most [G] milliseconds late. *)
Lemma poll_loop_duration (L G : N) (fuel : nat) (jobId : value) (started : Z) :
  (forall n, (latency (network env n) <= L)%N) ->
  (forall n, (timer_lag env n <= G)%N) ->
  forall (w w' : World) (r : completion jsstring),
    poll_loop rt env fuel jobId started w = Some (r, w') ->
    (now w' <= Z.max (now w)
                 (started + POLL_MAX_MS - 1 + Z.of_N L + POLL_INTERVAL_MS + Z.of_N G))%Z.
Proof.
  intros HL HG. induction fuel as [|fuel IH]; intros w w' r Hrun; [discriminate|].
  rewrite poll_loop_step in Hrun.
  destruct (now w - started <? POLL_MAX_MS)%Z eqn:Hdue.
  - apply Z.ltb_lt in Hdue. cbv zeta in Hrun.
    pose proof (HL (List.length (fetches w))) as Hl.
    pose proof (HG (List.length (timers w))) as Hg.
    assert (Hone : forall x : completion jsstring,
               Some (x, after_fetch env (GetMarkdown jobId) w) = Some (r, w') ->
               (now w' <= Z.max (now w)
                  (started + POLL_MAX_MS - 1 + Z.of_N L + POLL_INTERVAL_MS + Z.of_N G))%Z).
    { intros x Hx. inversion Hx; subst. unfold after_fetch; cbn [now].
      unfold POLL_INTERVAL_MS. lia. }
    destruct (reply (network env (List.length (fetches w)))) as [res|]; [|eauto].
    destruct (classify rt res); eauto.
    apply IH in Hrun. unfold after_sleep, after_fetch in Hrun; cbn [now timers] in Hrun.
    unfold POLL_INTERVAL_MS in *. lia.
  - inversion Hrun; subst. lia.
Qed.

(** X3.  When every round trip takes at most [L] milliseconds and
    every timer fires at most [G] milliseconds late,
    [pollLlamaParseMarkdown] ends less than 60 seconds, one round
    trip and one (late) poll interval after it was called. *)
Theorem pollLlamaParseMarkdown_duration :
  forall (L G : N) (fuel : nat) (jobId : value) (w w' : World) (r : completion jsstring),
    (forall n, (latency (network env n) <= L)%N) ->
    (forall n, (timer_lag env n <= G)%N) ->
    pollLlamaParseMarkdown rt env fuel jobId w = Some (r, w') ->
    (now w <= now w' < now w + POLL_MAX_MS + Z.of_N L + POLL_INTERVAL_MS + Z.of_N G)%Z.
Proof.
  intros L G fuel jobId w w' r HL HG Hrun.
  unfold pollLlamaParseMarkdown, bind, Date_now in Hrun.
  pose proof (@poll_loop_duration L G fuel jobId (now w) HL HG w w' r Hrun) as Hd.
  destruct (poll_loop_trace _ _ _ _ Hrun) as (_ & _ & _ & _ & _ & _ & _ & _ & _ & Hn & _).
  unfold POLL_MAX_MS, POLL_INTERVAL_MS in *. lia.
Qed.



(** Without a LLAMA_PARSE_API_KEY (unset or empty),
    [parseResumeWithLlamaParse] throws "LLAMA_PARSE_API_KEY is
    missing" and issues no request. *)
Lemma parseResumeWithLlamaParse_without_key :
  forall (fuel : nat) (input : ResumeInput) (w : World),
    (Deno_env_get env (lit "LLAMA_PARSE_API_KEY") = None
     \/ Deno_env_get env (lit "LLAMA_PARSE_API_KEY") = Some []) ->
    parseResumeWithLlamaParse rt env fuel input w
    = Some (Thrown (Error (lit "LLAMA_PARSE_API_KEY is missing")), w).
Proof.
  intros fuel input w Hkey.
  unfold parseResumeWithLlamaParse, bind, uploadToLlamaParse, llamaKey.
  destruct Hkey as [-> | ->]; reflexivity.
Qed.

End PollLoopTraces.

(* ================================================================== *)
(** * More on the LlamaExtract version *)
(* ================================================================== *)

Section LlamaExtractPipeline.

Import Shared LlamaExtract.

Context (rt : Runtime) (env : Env).

Lemma llamaUploadFile_cases (input : ResumeInput) (w : World) :
  llamaUploadFile rt env input w =
  Some (match reply (network env (List.length (fetches w))) with
        | None => Thrown FetchRejected
        | Some res =>
            if ok res then
              match JSON_parse rt (body res) with
              | Some json => Normal (json?."id")
              | None => Thrown (SyntaxError (body res))
              end
            else Thrown (Error (lit "LlamaExtract upload failed: " ++ slice0 400 (body res)))
        end, after_fetch env (PostFile input) w).
Proof.
  unfold llamaUploadFile, bind, fetch, parse_or_throw, ret, throw.
  destruct (reply (network env (List.length (fetches w)))) as [res|]; [|reflexivity].
  destruct (ok res); cbn [negb]; [|reflexivity].
  destruct (JSON_parse rt (body res)); reflexivity.
Qed.

Lemma llamaCreateJob_cases (agentId : jsstring) (fileId : value) (w : World) :
  llamaCreateJob rt env agentId fileId w =
  Some (match reply (network env (List.length (fetches w))) with
        | None => Thrown FetchRejected
        | Some res =>
            if ok res then
              match JSON_parse rt (body res) with
              | Some json => Normal (json?."id")
              | None => Thrown (SyntaxError (body res))
              end
            else Thrown (Error (lit "LlamaExtract job create failed: "
                                ++ slice0 400 (body res)))
        end, after_fetch env (PostJob agentId fileId) w).
Proof.
  unfold llamaCreateJob, bind, fetch, parse_or_throw, ret, throw.
  destruct (reply (network env (List.length (fetches w)))) as [res|]; [|reflexivity].
  destruct (ok res); cbn [negb]; [|reflexivity].
  destruct (JSON_parse rt (body res)); reflexivity.
Qed.

Lemma llamaPollJob_cases (jobId : value) (w : World) :
  llamaPollJob rt env jobId w =
  Some (match reply (network env (List.length (fetches w))) with
        | None => Thrown FetchRejected
        | Some res =>
            if ok res then
              match JSON_parse rt (body res) with
              | Some json => Normal json
              | None => Thrown (SyntaxError (body res))
              end
            else Thrown (Error (lit "LlamaExtract job status failed: "
                                ++ slice0 400 (body res)))
        end, after_fetch env (GetJob jobId) w).
Proof.
  unfold llamaPollJob, bind, fetch, parse_or_throw, ret, throw.
  destruct (reply (network env (List.length (fetches w)))) as [res|]; [|reflexivity].
  destruct (ok res); cbn [negb]; [|reflexivity].
  destruct (JSON_parse rt (body res)); reflexivity.
Qed.

Lemma llamaGetResult_cases (jobId : value) (w : World) :
  llamaGetResult rt env jobId w =
  Some (match reply (network env (List.length (fetches w))) with
        | None => Thrown FetchRejected
        | Some res =>
            if ok res then
              match JSON_parse rt (body res) with
              | Some json => Normal json
              | None => Thrown (SyntaxError (body res))
              end
            else Thrown (Error (lit "LlamaExtract result failed: " ++ slice0 400 (body res)))
        end, after_fetch env (GetResult jobId) w).
Proof.
  unfold llamaGetResult, bind, fetch, parse_or_throw, ret, throw.
  destruct (reply (network env (List.length (fetches w)))) as [res|]; [|reflexivity].
  destruct (ok res); cbn [negb]; [|reflexivity].
  destruct (JSON_parse rt (body res)); reflexivity.
Qed.

Lemma slice0_length (n : nat) (s : jsstring) : (List.length (slice0 n s) <= n)%nat.
Proof. unfold slice0. apply firstn_le_length. Qed.

(** X6.  On a response with a failure status each request helper of
    the LlamaExtract version throws, after that single request, an
    error whose message is its own prefix followed by the first 400
    characters of the body at most: no message is longer than 432
    characters, however long the body. *)
Theorem llamaextract_failures_are_bounded :
  forall (input : ResumeInput) (agentId : jsstring) (id : value) (w : World) (res : Response),
    reply (network env (List.length (fetches w))) = Some res ->
    ok res = false ->
    exists detail : jsstring,
      detail = slice0 400 (body res)
      /\ (List.length detail <= 400)%nat
      /\ llamaUploadFile rt env input w
         = Some (Thrown (Error (lit "LlamaExtract upload failed: " ++ detail)),
                 after_fetch env (PostFile input) w)
      /\ llamaCreateJob rt env agentId id w
         = Some (Thrown (Error (lit "LlamaExtract job create failed: " ++ detail)),
                 after_fetch env (PostJob agentId id) w)
      /\ llamaPollJob rt env id w
         = Some (Thrown (Error (lit "LlamaExtract job status failed: " ++ detail)),
                 after_fetch env (GetJob id) w)
      /\ llamaGetResult rt env id w
         = Some (Thrown (Error (lit "LlamaExtract result failed: " ++ detail)),
                 after_fetch env (GetResult id) w)
      /\ (List.length (lit "LlamaExtract upload failed: " ++ detail) <= 432)%nat
      /\ (List.length (lit "LlamaExtract job create failed: " ++ detail) <= 432)%nat
      /\ (List.length (lit "LlamaExtract job status failed: " ++ detail) <= 432)%nat
      /\ (List.length (lit "LlamaExtract result failed: " ++ detail) <= 432)%nat.
Proof.
  intros input agentId id w res Hres Hok.
  exists (slice0 400 (body res)).
  pose proof (slice0_length 400 (body res)) as Hlen.
  rewrite llamaUploadFile_cases, llamaCreateJob_cases, llamaPollJob_cases,
    llamaGetResult_cases, Hres, Hok.
  repeat split; auto; rewrite length_app;
    match goal with
    | |- context [List.length (lit ?p)] =>
        let n := eval vm_compute in (List.length (lit p)) in
        change (List.length (lit p)) with n
    end; lia.
Qed.

(** What a run of the loop leaves behind, whatever the service
    answers. *)
Lemma wait_loop_trace (fuel : nat) (jobId : value) (deadline : Z) :
  forall (w w' : World) (r : completion unit),
    wait_loop rt env fuel jobId deadline w = Some (r, w') ->
    exists (polls : list (Z * Request)) (k : nat),
      fetches w' = fetches w ++ polls
      /\ spaced 3000 (now w) polls
      /\ Forall (fun q => (fst q < deadline)%Z) polls
      /\ Forall (fun q => snd q = GetJob jobId) polls
      /\ timers w' = timers w ++ repeat 3000%Z k
      /\ (k = List.length polls \/ S k = List.length polls)
      /\ console w' = console w
      /\ (now w <= now w')%Z
      /\ (polls = [] -> (deadline <= now w)%Z).
Proof.
  induction fuel as [|fuel IH]; intros w w' r Hrun; [discriminate|].
  rewrite wait_loop_step in Hrun.
  destruct (now w <? deadline)%Z eqn:Hdue.
  - apply Z.ltb_lt in Hdue.
    destruct (llamaPollJob_one_query rt env jobId w) as [x Hx]. rewrite Hx in Hrun.
    assert (Hone : forall y : completion unit,
               Some (y, after_fetch env (GetJob jobId) w) = Some (r, w') ->
               exists (polls : list (Z * Request)) (k : nat),
                 fetches w' = fetches w ++ polls
                 /\ spaced 3000 (now w) polls
                 /\ Forall (fun q => (fst q < deadline)%Z) polls
                 /\ Forall (fun q => snd q = GetJob jobId) polls
                 /\ timers w' = timers w ++ repeat 3000%Z k
                 /\ (k = List.length polls \/ S k = List.length polls)
                 /\ console w' = console w
                 /\ (now w <= now w')%Z
                 /\ (polls = [] -> (deadline <= now w)%Z)).
    { intros y Hy. inversion Hy; subst. exists [(now w, GetJob jobId)], 0%nat.
      unfold after_fetch; cbn [fetches timers console now repeat].
      rewrite app_nil_r. repeat split; try lia; try discriminate.
      - constructor; [cbn [fst]; lia|constructor].
      - constructor; [reflexivity|constructor].
      - right; reflexivity. }
    destruct x as [status|e]; [|eauto].
    destruct (is_str (status?."status") "SUCCESS"); [eauto|].
    destruct (is_str (status?."status") "FAILED"); [eauto|].
    apply IH in Hrun.
    destruct Hrun as (polls & k & Hf & Hsp & Hb & Hq & Ht & Hk & Hc & Hn & _).
    unfold after_sleep, after_fetch in *; cbn [fetches timers console now] in *.
    exists ((now w, GetJob jobId) :: polls), (S k).
    split; [rewrite Hf, <- app_assoc; reflexivity|].
    split.
    { simpl. split; [lia|]. eapply spaced_weaken; [|exact Hsp]. lia. }
    split; [constructor; [cbn [fst]; lia|exact Hb]|].
    split; [constructor; [reflexivity|exact Hq]|].
    split; [rewrite Ht, <- app_assoc; reflexivity|].
    split; [cbn [List.length]; lia|].
    split; [exact Hc|].
    split; [lia|discriminate].
  - apply Z.ltb_ge in Hdue. inversion Hrun; subst. exists [], 0%nat. cbn [repeat].
    rewrite !app_nil_r. repeat split; auto; try constructor; try lia.
Qed.

(** The loop ends: each turn costs at least three of the sixty
    seconds. *)
Lemma wait_loop_returns (fuel : nat) (jobId : value) (deadline : Z) :
  forall w : World,
    (deadline - now w <= Z.of_nat fuel * 3000)%Z ->
    exists (r : completion unit) (w' : World),
      wait_loop rt env (S fuel) jobId deadline w = Some (r, w').
Proof.
  induction fuel as [|fuel IH]; intros w Hgap; rewrite wait_loop_step.
  - assert (Hdue : (now w <? deadline)%Z = false) by (apply Z.ltb_ge; lia).
    rewrite Hdue. eauto.
  - destruct (now w <? deadline)%Z eqn:Hdue; [|eauto].
    apply Z.ltb_lt in Hdue.
    destruct (llamaPollJob_one_query rt env jobId w) as [x Hx]. rewrite Hx.
    destruct x as [status|e]; [|eauto].
    destruct (is_str (status?."status") "SUCCESS"); [eauto|].
    destruct (is_str (status?."status") "FAILED"); [eauto|].
    apply IH. unfold after_sleep, after_fetch; cbn [now timers fetches]. lia.
Qed.

(** The body of [parseResumeWithLlamaExtract] once both variables are
    known to be set. *)
Lemma parseResumeWithLlamaExtract_configured (fuel : nat) (input : ResumeInput)
    (agentId : jsstring) (w : World) :
  present (llamaApiKey env) = true ->
  llamaAgentId env = Some agentId ->
  agentId <> [] ->
  parseResumeWithLlamaExtract rt env fuel input w =
  match llamaUploadFile rt env input w with
  | Some (Normal fileId, w1) =>
      match llamaCreateJob rt env agentId fileId w1 with
      | Some (Normal jobId, w2) =>
          match wait_loop rt env fuel jobId (now w2 + 60000) w2 with
          | Some (Normal _, w3) =>
              match llamaGetResult rt env jobId w3 with
              | Some (Normal result, w4) =>
                  Some (Normal (VObj [(lit "structured", coalesce (result?."data") VNull);
                                      (lit "jobId", jobId);
                                      (lit "source", VStr (lit "llamaextract"))]), w4)
              | Some (Thrown e, w4) => Some (Thrown e, w4)
              | None => None
              end
          | Some (Thrown e, w3) => Some (Thrown e, w3)
          | None => None
          end
      | Some (Thrown e, w2) => Some (Thrown e, w2)
      | None => None
      end
  | Some (Thrown e, w1) => Some (Thrown e, w1)
  | None => None
  end.
Proof.
  intros Hkey Hagent Hne. unfold parseResumeWithLlamaExtract. rewrite Hkey, Hagent.
  cbn [negb]. destruct agentId as [|c agentId]; [congruence|].
  unfold bind at 1.
  destruct (llamaUploadFile rt env input w) as [[[fileId|e] w1]|]; reflexivity.
Qed.

(** X7.  [parseResumeWithLlamaExtract] checks its configuration before
    it sends anything: without an API key it throws
    "LLAMA_CLOUD_API_KEY missing", and with a key but without an agent
    identifier "LLAMA_AGENT_ID missing (pre-create an extraction
    agent)", in both cases with no request issued.  The API key is
    LLAMA_CLOUD_API_KEY when that variable is set, even to the empty
    string, and LLAMA_PARSE_API_KEY only when it is unset: an empty
    LLAMA_CLOUD_API_KEY counts as a missing key whatever
    LLAMA_PARSE_API_KEY holds. *)
Theorem parseResumeWithLlamaExtract_configuration :
  forall (fuel : nat) (input : ResumeInput) (w : World),
    (present (llamaApiKey env) = false ->
       parseResumeWithLlamaExtract rt env fuel input w
       = Some (Thrown (Error (lit "LLAMA_CLOUD_API_KEY missing")), w))
    /\ (present (llamaApiKey env) = true ->
        present (llamaAgentId env) = false ->
        parseResumeWithLlamaExtract rt env fuel input w
        = Some (Thrown (Error (lit "LLAMA_AGENT_ID missing (pre-create an extraction agent)")),
                w))
    /\ (Deno_env_get env (lit "LLAMA_CLOUD_API_KEY") = Some [] ->
        present (llamaApiKey env) = false)
    /\ (Deno_env_get env (lit "LLAMA_CLOUD_API_KEY") = None ->
        llamaApiKey env = Deno_env_get env (lit "LLAMA_PARSE_API_KEY")).
Proof.
  intros fuel input w. unfold parseResumeWithLlamaExtract. repeat split.
  - intros Hkey. rewrite Hkey. reflexivity.
  - intros Hkey Hagent. rewrite Hkey. cbn [negb].
    destruct (llamaAgentId env) as [[|c a]|]; try reflexivity. discriminate.
  - intros Hc. unfold llamaApiKey. rewrite Hc. reflexivity.
  - intros Hc. unfold llamaApiKey. rewrite Hc. reflexivity.
Qed.

(** X8.  When [parseResumeWithLlamaExtract] returns, it has issued in
    this order: the upload of the file, the creation of the job for
    the [id] of the JSON body that answered the upload, between 1 and
    20 status polls and one request for the result, all for the [id]
    of the JSON body that answered the creation.  Upload, creation and
    request for the result were answered with a success status.  The
    result carries the [data] of the JSON body that answered the
    request for the result ([null] when it has none), the job [id],
    and the source "llamaextract". *)
Theorem parseResumeWithLlamaExtract_trace :
  forall (fuel : nat) (input : ResumeInput) (w w' : World) (parsed : value),
    parseResumeWithLlamaExtract rt env fuel input w = Some (Normal parsed, w') ->
    exists (agentId : jsstring) (res0 res1 res : Response) (json0 json1 result : value)
           (polls : list (Z * Request)) (t1 t2 : Z),
      llamaAgentId env = Some agentId
      /\ reply (network env (List.length (fetches w))) = Some res0
      /\ ok res0 = true
      /\ JSON_parse rt (body res0) = Some json0
      /\ reply (network env (S (List.length (fetches w)))) = Some res1
      /\ ok res1 = true
      /\ JSON_parse rt (body res1) = Some json1
      /\ fetches w' = fetches w
                      ++ [(now w, PostFile input); (t1, PostJob agentId (json0?."id"))]
                      ++ polls ++ [(t2, GetResult (json1?."id"))]
      /\ (1 <= List.length polls <= 20)%nat
      /\ Forall (fun q => snd q = GetJob (json1?."id")) polls
      /\ reply (network env (List.length (fetches w') - 1)) = Some res
      /\ ok res = true
      /\ JSON_parse rt (body res) = Some result
      /\ parsed = VObj [(lit "structured", coalesce (result?."data") VNull);
                        (lit "jobId", json1?."id");
                        (lit "source", VStr (lit "llamaextract"))].
Proof.
  intros fuel input w w' parsed Hrun.
  destruct (present (llamaApiKey env)) eqn:Hkey.
  2:{ unfold parseResumeWithLlamaExtract in Hrun. rewrite Hkey in Hrun. discriminate. }
  destruct (llamaAgentId env) as [agentId|] eqn:Hagent.
  2:{ unfold parseResumeWithLlamaExtract in Hrun. rewrite Hkey, Hagent in Hrun.
      discriminate. }
  assert (Hne : agentId <> []).
  { intros ->. unfold parseResumeWithLlamaExtract in Hrun. rewrite Hkey, Hagent in Hrun.
    discriminate. }
  rewrite (parseResumeWithLlamaExtract_configured fuel input w Hkey Hagent Hne) in Hrun.
  rewrite llamaUploadFile_cases in Hrun.
  destruct (reply (network env (List.length (fetches w)))) as [res0|] eqn:Hr0; [|discriminate].
  destruct (ok res0) eqn:Hok0; [|discriminate].
  destruct (JSON_parse rt (body res0)) as [json0|] eqn:Hj0; [|discriminate].
  set (fileId := json0?."id") in *.
  set (w1 := after_fetch env (PostFile input) w) in *.
  rewrite llamaCreateJob_cases in Hrun.
  assert (Hlen1 : List.length (fetches w1) = S (List.length (fetches w))).
  { unfold w1, after_fetch; cbn [fetches]. rewrite length_app. simpl. lia. }
  rewrite Hlen1 in Hrun.
  destruct (reply (network env (S (List.length (fetches w))))) as [res1|] eqn:Hr1;
    [|discriminate].
  destruct (ok res1) eqn:Hok1; [|discriminate].
  destruct (JSON_parse rt (body res1)) as [json1|] eqn:Hj1; [|discriminate].
  set (jobId := json1?."id") in *.
  set (w2 := after_fetch env (PostJob agentId fileId) w1) in *.
  destruct (wait_loop rt env fuel jobId (now w2 + 60000) w2) as [[[u|e] w3]|] eqn:Hwait;
    try discriminate.
  rewrite llamaGetResult_cases in Hrun.
  destruct (reply (network env (List.length (fetches w3)))) as [res|] eqn:Hres;
    [|discriminate].
  destruct (ok res) eqn:Hok; [|discriminate].
  destruct (JSON_parse rt (body res)) as [result|] eqn:Hj; [|discriminate].
  inversion Hrun; subst parsed w'. clear Hrun.
  destruct (wait_loop_trace _ _ _ _ Hwait)
    as (polls & k & Hf & Hsp & Hb & Hq & _ & _ & _ & _ & Hnil).
  exists agentId, res0, res1, res, json0, json1, result, polls, (now w1), (now w3).
  split; [reflexivity|].
  do 6 (split; [first [reflexivity|assumption]|]).
  split.
  { unfold after_fetch at 1; cbn [fetches]. rewrite Hf.
    unfold w2, w1, after_fetch; cbn [fetches]. rewrite <- !app_assoc. reflexivity. }
  split.
  { split.
    - destruct polls; [|cbn [List.length]; lia]. specialize (Hnil eq_refl). lia.
    - destruct (@spaced_count 3000 (now w2 + 60000) polls ltac:(lia) _ Hsp Hb)
        as [->|Hcount]; [cbn [List.length]; lia|lia]. }
  split; [exact Hq|].
  unfold after_fetch at 1; cbn [fetches]. rewrite length_app. cbn [List.length].
  replace (List.length (fetches w3) + 1 - 1)%nat with (List.length (fetches w3)) by lia.
  auto.
Qed.

(** While the job is reported neither done nor failed the loop sets
    one timer after every poll. *)
Lemma wait_loop_never_done_timers (fuel : nat) (jobId : value) (deadline : Z) :
  forall (w w' : World) (r : completion unit),
    (forall n, (List.length (fetches w) <= n)%nat ->
       exists res status,
         reply (network env n) = Some res /\ ok res = true
         /\ JSON_parse rt (body res) = Some status
         /\ is_str (status?."status") "SUCCESS" = false
         /\ is_str (status?."status") "FAILED" = false) ->
    wait_loop rt env fuel jobId deadline w = Some (r, w') ->
    timers w' = timers w
                ++ repeat 3000%Z (List.length (fetches w') - List.length (fetches w)).
Proof.
  induction fuel as [|fuel IH]; intros w w' r Hpend Hrun; [discriminate|].
  rewrite wait_loop_step in Hrun.
  destruct (now w <? deadline)%Z eqn:Hdue.
  - destruct (Hpend (List.length (fetches w)) (le_n _))
      as (res & status & Hres & Hok & Hjson & Hs & Hf).
    assert (Hpoll : llamaPollJob rt env jobId w
                    = Some (Normal status, after_fetch env (GetJob jobId) w)).
    { unfold llamaPollJob, bind, fetch, parse_or_throw, ret.
      rewrite Hres, Hok. cbn [negb]. rewrite Hjson. reflexivity. }
    rewrite Hpoll, Hs, Hf in Hrun.
    destruct (wait_loop_trace _ _ _ _ Hrun) as (polls & _ & Hfetch & _).
    apply IH in Hrun.
    + rewrite Hrun, Hfetch.
      unfold after_sleep, after_fetch; cbn [fetches timers].
      rewrite !length_app. cbn [List.length].
      replace (List.length (fetches w) + 1 + List.length polls - List.length (fetches w))%nat
        with (S (List.length polls)) by lia.
      replace (List.length (fetches w) + 1 + List.length polls
               - (List.length (fetches w) + 1))%nat
        with (List.length polls) by lia.
      rewrite <- app_assoc. reflexivity.
    + intros n Hn. apply Hpend.
      unfold after_sleep, after_fetch in Hn; cbn [fetches] in Hn.
      rewrite length_app in Hn. simpl in Hn. lia.
  - inversion Hrun; subst. rewrite Nat.sub_diag. cbn [repeat]. rewrite app_nil_r. reflexivity.
Qed.

(** X9.  The LlamaExtract version has no time-out of its own.  When
    the file is uploaded and the job created, and every later request
    is answered with a success status and a JSON body whose [status]
    is neither "SUCCESS" nor "FAILED", [parseResumeWithLlamaExtract]
    polls the job until its deadline, which is at least 60 seconds
    after the call: between 1 and 20 polls, all begun before the
    deadline and each followed by a timer of 3000 ms.  Then, the
    deadline reached, it requests the result all the same and returns
    normally, with the [data] of the JSON body that answered that
    request. *)
Theorem parseResumeWithLlamaExtract_never_done :
  forall (fuel : nat) (input : ResumeInput) (w : World) (agentId : jsstring)
         (res0 res1 : Response) (json0 json1 : value),
    present (llamaApiKey env) = true ->
    llamaAgentId env = Some agentId ->
    agentId <> [] ->
    reply (network env (List.length (fetches w))) = Some res0 ->
    ok res0 = true -> JSON_parse rt (body res0) = Some json0 ->
    reply (network env (S (List.length (fetches w)))) = Some res1 ->
    ok res1 = true -> JSON_parse rt (body res1) = Some json1 ->
    (forall n, (List.length (fetches w) + 2 <= n)%nat ->
       exists res status,
         reply (network env n) = Some res /\ ok res = true
         /\ JSON_parse rt (body res) = Some status
         /\ is_str (status?."status") "SUCCESS" = false
         /\ is_str (status?."status") "FAILED" = false) ->
    (21 <= fuel)%nat ->
    exists (res : Response) (result : value) (w' : World) (polls : list (Z * Request))
           (t1 deadline t : Z),
      parseResumeWithLlamaExtract rt env fuel input w
      = Some (Normal (VObj [(lit "structured", coalesce (result?."data") VNull);
                            (lit "jobId", json1?."id");
                            (lit "source", VStr (lit "llamaextract"))]), w')
      /\ fetches w' = fetches w
                      ++ [(now w, PostFile input); (t1, PostJob agentId (json0?."id"))]
                      ++ polls ++ [(t, GetResult (json1?."id"))]
      /\ reply (network env (List.length (fetches w') - 1)) = Some res
      /\ ok res = true
      /\ JSON_parse rt (body res) = Some result
      /\ is_str (result?."status") "SUCCESS" = false
      /\ (1 <= List.length polls <= 20)%nat
      /\ Forall (fun q => snd q = GetJob (json1?."id")) polls
      /\ (now w + 60000 <= deadline)%Z
      /\ Forall (fun q => (fst q < deadline)%Z) polls
      /\ (deadline <= t)%Z
      /\ timers w' = timers w ++ repeat 3000%Z (List.length polls).
Proof.
  intros fuel input w agentId res0 res1 json0 json1
         Hkey Hagent Hne Hr0 Hok0 Hj0 Hr1 Hok1 Hj1 Hpend Hfuel.
  rewrite (parseResumeWithLlamaExtract_configured fuel input w Hkey Hagent Hne).
  rewrite llamaUploadFile_cases, Hr0, Hok0, Hj0.
  set (w1 := after_fetch env (PostFile input) w).
  rewrite llamaCreateJob_cases.
  assert (Hlen1 : List.length (fetches w1) = S (List.length (fetches w))).
  { unfold w1, after_fetch; cbn [fetches]. rewrite length_app. simpl. lia. }
  rewrite Hlen1, Hr1, Hok1, Hj1.
  set (w2 := after_fetch env (PostJob agentId (json0?."id")) w1).
  assert (Hlen2 : List.length (fetches w2) = (List.length (fetches w) + 2)%nat).
  { unfold w2, after_fetch; cbn [fetches]. rewrite length_app, Hlen1. simpl. lia. }
  assert (Hnow2 : (now w <= now w2)%Z).
  { unfold w2, w1, after_fetch; cbn [now]. lia. }
  assert (Hpend2 : forall n, (List.length (fetches w2) <= n)%nat ->
             exists res status,
               reply (network env n) = Some res /\ ok res = true
               /\ JSON_parse rt (body res) = Some status
               /\ is_str (status?."status") "SUCCESS" = false
               /\ is_str (status?."status") "FAILED" = false).
  { intros n Hn. apply Hpend. lia. }
  destruct fuel as [|fuel]; [lia|].
  destruct (@wait_loop_never_done rt env fuel (json1?."id") (now w2 + 60000) w2 Hpend2)
    as (w3 & Hwait & Hdue); [lia|].
  rewrite Hwait.
  destruct (wait_loop_trace _ _ _ _ Hwait)
    as (polls & k & Hf & Hsp & Hb & Hq & _ & _ & _ & _ & Hnil).
  pose proof (@wait_loop_never_done_timers _ _ _ _ _ _ Hpend2 Hwait) as Htimers.
  rewrite llamaGetResult_cases.
  destruct (Hpend (List.length (fetches w3))) as (res & status & Hres & Hok & Hj & Hs & _).
  { rewrite Hf, length_app. lia. }
  rewrite Hres, Hok, Hj.
  exists res, status, (after_fetch env (GetResult (json1?."id")) w3), polls,
         (now w1), (now w2 + 60000)%Z, (now w3).
  split; [reflexivity|].
  split.
  { unfold after_fetch at 1; cbn [fetches]. rewrite Hf.
    unfold w2, w1, after_fetch; cbn [fetches]. rewrite <- !app_assoc. reflexivity. }
  split.
  { unfold after_fetch at 1; cbn [fetches]. rewrite length_app. cbn [List.length].
    replace (List.length (fetches w3) + 1 - 1)%nat with (List.length (fetches w3)) by lia.
    exact Hres. }
  split; [exact Hok|]. split; [exact Hj|]. split; [exact Hs|].
  split.
  { split.
    - destruct polls; [|cbn [List.length]; lia]. specialize (Hnil eq_refl). lia.
    - destruct (@spaced_count 3000 (now w2 + 60000) polls ltac:(lia) _ Hsp Hb)
        as [->|Hcount]; [cbn [List.length]; lia|lia]. }
  split; [exact Hq|]. split; [lia|]. split; [exact Hb|]. split; [exact Hdue|].
  unfold after_fetch at 1; cbn [timers]. rewrite Htimers, Hf, length_app.
  replace (List.length (fetches w2) + List.length polls - List.length (fetches w2))%nat
    with (List.length polls) by lia.
  reflexivity.
Qed.

Lemma llamaUploadFile_one_query (input : ResumeInput) (w : World) :
  exists r : completion value,
    llamaUploadFile rt env input w = Some (r, after_fetch env (PostFile input) w).
Proof. rewrite llamaUploadFile_cases. eauto. Qed.

Lemma llamaCreateJob_one_query (agentId : jsstring) (fileId : value) (w : World) :
  exists r : completion value,
    llamaCreateJob rt env agentId fileId w
    = Some (r, after_fetch env (PostJob agentId fileId) w).
Proof. rewrite llamaCreateJob_cases. eauto. Qed.

Lemma llamaGetResult_one_query (jobId : value) (w : World) :
  exists r : completion value,
    llamaGetResult rt env jobId w = Some (r, after_fetch env (GetResult jobId) w).
Proof. rewrite llamaGetResult_cases. eauto. Qed.

(** [parseResumeWithLlamaExtract] always ends. *)
Lemma parseResumeWithLlamaExtract_returns (fuel : nat) (input : ResumeInput) (w : World) :
  (21 <= fuel)%nat ->
  exists (r : completion value) (w' : World),
    parseResumeWithLlamaExtract rt env fuel input w = Some (r, w').
Proof.
  intros Hfuel.
  destruct (present (llamaApiKey env)) eqn:Hkey.
  2:{ unfold parseResumeWithLlamaExtract. rewrite Hkey. cbn [negb]. unfold throw. eauto. }
  destruct (llamaAgentId env) as [[|c a]|] eqn:Hagent.
  1,3: unfold parseResumeWithLlamaExtract; rewrite Hkey, Hagent; cbn [negb];
    unfold throw; eauto.
  rewrite (@parseResumeWithLlamaExtract_configured fuel input (c :: a) w Hkey Hagent
             ltac:(discriminate)).
  destruct (llamaUploadFile_one_query input w) as [r0 H0]. rewrite H0.
  destruct r0 as [fileId|e]; [|eauto].
  destruct (llamaCreateJob_one_query (c :: a) fileId (after_fetch env (PostFile input) w))
    as [r1 H1]. rewrite H1.
  destruct r1 as [jobId|e]; [|eauto].
  destruct fuel as [|fuel]; [lia|].
  match goal with
  | |- context [wait_loop rt env (S fuel) jobId ?d ?w2] =>
      destruct (@wait_loop_returns fuel jobId d w2 ltac:(lia)) as (r & w3 & Hwait)
  end.
  rewrite Hwait. destruct r as [u|e]; [|eauto].
  destruct (llamaGetResult_one_query jobId w3) as [r3 H3]. rewrite H3.
  destruct r3 as [result|e]; eauto.
Qed.

(** [loadResumeInput] always ends, and leaves the world as it was. *)
Lemma loadResumeInput_returns (body : ResumeRequest) (w : World) :
  exists r : completion ResumeInput, loadResumeInput rt env body w = Some (r, w).
Proof.
  assert (Hfile : exists r : completion ResumeInput,
             loadStoredFile rt env body w = Some (r, w)).
  { unfold loadStoredFile, throw, ret.
    destruct (supabase env) as [client|]; [|eauto].
    destruct (bucket body) as [[|? ?]|]; eauto.
    destruct (filePath body) as [[|? ?]|]; eauto.
    match goal with
    | |- context [download_error ?d] => destruct (download_error d); eauto
    end.
    match goal with
    | |- context [download_data ?d] => destruct (download_data d); eauto
    end. }
  unfold loadResumeInput, ret.
  destruct (text body) as [[|c t]|]; auto.
  destruct (0 <? List.length (trim (c :: t)))%nat; eauto.
Qed.

(** What the handler does with the body once it is read. *)
Lemma serve_typed (fuel : nat) (req : HttpRequest) (json : value) (body : ResumeRequest)
    (w : World) :
  str_eqb (method req) (lit "OPTIONS") = false ->
  JSON_parse rt (match safeBody (req_text req) with [] => lit "{}" | safe => safe end)
  = Some json ->
  asResumeRequest json = Some body ->
  serve rt env fuel req w =
  match loadResumeInput rt env body w with
  | None => None
  | Some (Thrown e, w1) =>
      Some (Normal (respond 400
                      (VObj [(lit "error",
                              VStr (if includes (message_of rt e)
                                         (lit "unsupported Unicode escape sequence")
                                    then lit "Invalid JSON body (bad escape sequences/backslashes). Remove stray backslashes or ensure valid \uXXXX."
                                    else message_of rt e))])),
            after_log [LogText (message_of rt e)] w1)
  | Some (Normal input, w1) =>
      match parseResumeWithLlamaExtract rt env fuel input w1 with
      | None => None
      | Some (Thrown e, w2) =>
          Some (Normal (respond 400
                          (VObj [(lit "error",
                                  VStr (if includes (message_of rt e)
                                             (lit "unsupported Unicode escape sequence")
                                        then lit "Invalid JSON body (bad escape sequences/backslashes). Remove stray backslashes or ensure valid \uXXXX."
                                        else message_of rt e))])),
                after_log [LogText (message_of rt e)] w2)
      | Some (Normal parsed, w2) =>
          match supabase env with
          | None => Some (Normal (respond 200 (success_body body parsed VNull)), w2)
          | Some client =>
              match insert_error (insert client (resume_row body parsed)) with
              | Some error =>
                  Some (Normal (respond 200 (success_body body parsed VNull)),
                        after_log [LogText (lit "Supabase insert error:"); LogValue error] w2)
              | None =>
                  Some (Normal (respond 200
                                  (success_body body parsed
                                     (coalesce ((insert_data
                                                   (insert client (resume_row body parsed)))?."id")
                                               VNull))), w2)
              end
          end
      end
  end.
Proof.
  intros Hmethod Hjson Hbody. unfold serve. rewrite Hmethod, Hjson, Hbody.
  unfold try_catch. unfold bind at 1.
  destruct (loadResumeInput rt env body w) as [[[input|e] w1]|]; [| |reflexivity].
  - unfold bind at 1.
    destruct (parseResumeWithLlamaExtract rt env fuel input w1) as [[[parsed|e] w2]|];
      [| |reflexivity].
    + destruct (supabase env) as [client|]; [|reflexivity]. cbv zeta.
      destruct (insert_error (insert client (resume_row body parsed))); reflexivity.
    + unfold bind, console_error, ret.
      destruct (includes (message_of rt e) (lit "unsupported Unicode escape sequence"));
        reflexivity.
  - unfold bind, console_error, ret.
    destruct (includes (message_of rt e) (lit "unsupported Unicode escape sequence"));
      reflexivity.
Qed.

(** X10.  The LlamaExtract handler always answers and never lets an
    exception out: for a preflight request, for a body that is not
    JSON, and for every body of the declared type, it returns a
    reply, which is the preflight "ok", a 200 or a 400. *)
Theorem serve_always_answers :
  forall (fuel : nat) (req : HttpRequest) (w : World),
    (21 <= fuel)%nat ->
    (str_eqb (method req) (lit "OPTIONS") = true
     \/ JSON_parse rt (match safeBody (req_text req) with [] => lit "{}" | safe => safe end)
        = None
     \/ exists json body,
          JSON_parse rt (match safeBody (req_text req) with [] => lit "{}" | safe => safe end)
          = Some json
          /\ asResumeRequest json = Some body) ->
    exists (reply : HttpReply) (w' : World),
      serve rt env fuel req w = Some (Normal reply, w')
      /\ (reply = preflight_ok
          \/ exists b, reply = respond 200 b \/ reply = respond 400 b).
Proof.
  intros fuel req w Hfuel Hreq.
  destruct (str_eqb (method req) (lit "OPTIONS")) eqn:Hmethod.
  { unfold serve. rewrite Hmethod. unfold ret. eauto. }
  destruct Hreq as [H|[Hbad|(json & body & Hjson & Hbody)]]; [discriminate| |].
  { unfold serve. rewrite Hmethod, Hbad. unfold try_catch, ret. eauto 7. }
  rewrite (serve_typed fuel req w Hmethod Hjson Hbody).
  destruct (loadResumeInput_returns body w) as [r Hload]. rewrite Hload.
  destruct r as [input|e]; [|eauto 7].
  destruct (parseResumeWithLlamaExtract_returns input w Hfuel) as (r & w2 & Hparse).
  rewrite Hparse. destruct r as [parsed|e]; [|eauto 7].
  destruct (supabase env) as [client|]; [|eauto 7].
  destruct (insert_error (insert client (resume_row body parsed))); eauto 7.
Qed.

(** X11.  In the LlamaExtract handler every exception of
    [loadResumeInput] or of [parseResumeWithLlamaExtract] becomes a
    400 whose [error] is the message of the exception, which is also
    written to the console; a message that contains "unsupported
    Unicode escape sequence" is replaced in the reply by the advice on
    escape sequences.  A body that is not JSON (after the two
    replacements) is answered 400 "Invalid JSON body (escape
    sequences/backslashes)" with nothing requested and nothing
    logged. *)
Theorem serve_failures_are_400 :
  forall (fuel : nat) (req : HttpRequest) (w : World),
    str_eqb (method req) (lit "OPTIONS") = false ->
    (JSON_parse rt (match safeBody (req_text req) with [] => lit "{}" | safe => safe end)
     = None ->
     serve rt env fuel req w
     = Some (Normal (respond 400
                       (VObj [(lit "error",
                               VStr (lit "Invalid JSON body (escape sequences/backslashes)"))])),
             w))
    /\ (forall json body e w1,
          JSON_parse rt (match safeBody (req_text req) with [] => lit "{}" | safe => safe end)
          = Some json ->
          asResumeRequest json = Some body ->
          (loadResumeInput rt env body w = Some (Thrown e, w1)
           \/ exists input,
                loadResumeInput rt env body w = Some (Normal input, w)
                /\ parseResumeWithLlamaExtract rt env fuel input w = Some (Thrown e, w1)) ->
          serve rt env fuel req w
          = Some (Normal (respond 400
                            (VObj [(lit "error",
                                    VStr (if includes (message_of rt e)
                                               (lit "unsupported Unicode escape sequence")
                                          then lit "Invalid JSON body (bad escape sequences/backslashes). Remove stray backslashes or ensure valid \uXXXX."
                                          else message_of rt e))])),
                  after_log [LogText (message_of rt e)] w1)).
Proof.
  intros fuel req w Hmethod. split.
  - intros Hbad. unfold serve. rewrite Hmethod, Hbad. reflexivity.
  - intros json body e w1 Hjson Hbody Hfail.
    rewrite (serve_typed fuel req w Hmethod Hjson Hbody).
    destruct Hfail as [Hload|(input & Hload & Hparse)]; rewrite Hload; [reflexivity|].
    rewrite Hparse. reflexivity.
Qed.

End LlamaExtractPipeline.

(* ================================================================== *)
(** * The two replacements applied to the request body *)
(* ================================================================== *)

Section Sanitizer.

Import LlamaExtract.

Lemma replace_bad_unicode_eq (c u : code_unit) (rest : jsstring) :
  replace_bad_unicode (c :: u :: rest) =
  if (c =? 92)%N && (u =? 117)%N && negb (four_hex rest)
  then [92; 117; 70; 70; 70; 68]%N ++ replace_bad_unicode rest
  else c :: replace_bad_unicode (u :: rest).
Proof. reflexivity. Qed.

Lemma double_stray_backslashes_eq (c : code_unit) (rest : jsstring) :
  double_stray_backslashes (c :: rest) =
  if (c =? 92)%N && negb (match rest with n :: _ => starts_escape n | [] => false end)
  then 92%N :: 92%N :: double_stray_backslashes rest
  else c :: double_stray_backslashes rest.
Proof. reflexivity. Qed.

Lemma replace_bad_unicode_cons (c : code_unit) (rest : jsstring) :
  c <> 92%N -> replace_bad_unicode (c :: rest) = c :: replace_bad_unicode rest.
Proof.
  intros Hc. destruct rest as [|u rest']; [reflexivity|].
  cbn [replace_bad_unicode]. apply N.eqb_neq in Hc. rewrite Hc. reflexivity.
Qed.

Lemma double_stray_backslashes_cons (c : code_unit) (rest : jsstring) :
  c <> 92%N -> double_stray_backslashes (c :: rest) = c :: double_stray_backslashes rest.
Proof.
  intros Hc. cbn [double_stray_backslashes]. apply N.eqb_neq in Hc. rewrite Hc. reflexivity.
Qed.

Lemma is_hex_not_backslash (c : code_unit) : is_hex c = true -> c <> 92%N.
Proof. intros H ->. discriminate. Qed.

(** Four hexadecimal digits pass through both replacements. *)
Lemma four_hex_replace_bad_unicode (s : jsstring) :
  four_hex s = true -> four_hex (replace_bad_unicode s) = true.
Proof.
  destruct s as [|a [|b [|c [|d r]]]]; try discriminate.
  intros H. cbn [four_hex] in H.
  apply andb_true_iff in H. destruct H as [H Hd].
  apply andb_true_iff in H. destruct H as [H Hc].
  apply andb_true_iff in H. destruct H as [Ha Hb].
  rewrite !replace_bad_unicode_cons by (apply is_hex_not_backslash; assumption).
  cbn [four_hex]. rewrite Ha, Hb, Hc, Hd. reflexivity.
Qed.

Lemma four_hex_double_stray_backslashes (s : jsstring) :
  four_hex s = true -> four_hex (double_stray_backslashes s) = true.
Proof.
  destruct s as [|a [|b [|c [|d r]]]]; try discriminate.
  intros H. cbn [four_hex] in H.
  apply andb_true_iff in H. destruct H as [H Hd].
  apply andb_true_iff in H. destruct H as [H Hc].
  apply andb_true_iff in H. destruct H as [Ha Hb].
  rewrite !double_stray_backslashes_cons by (apply is_hex_not_backslash; assumption).
  cbn [four_hex]. rewrite Ha, Hb, Hc, Hd. reflexivity.
Qed.

(** After the first replacement every backslash-u is followed by four
    hexadecimal digits. *)
Lemma replace_bad_unicode_escapes (s : jsstring) :
  (forall p q, replace_bad_unicode s = p ++ 92%N :: 117%N :: q -> four_hex q = true)
  /\ (forall c p q,
        replace_bad_unicode (c :: s) = p ++ 92%N :: 117%N :: q -> four_hex q = true).
Proof.
  induction s as [|u rest IH].
  - split.
    + intros [|? p] q H; discriminate.
    + intros c [|? [|? p]] q H; discriminate.
  - destruct IH as [IHrest IHcons]. split; [apply IHcons|].
    intros c p q H. rewrite replace_bad_unicode_eq in H.
    destruct ((c =? 92)%N && (u =? 117)%N && negb (four_hex rest)) eqn:Hbad.
    + (* the escape is replaced *)
      destruct p as [|x1 p]; [inversion H; subst; reflexivity|].
      destruct p as [|x2 p]; [discriminate|].
      destruct p as [|x3 p]; [discriminate|].
      destruct p as [|x4 p]; [discriminate|].
      destruct p as [|x5 p]; [discriminate|].
      destruct p as [|x6 p]; [discriminate|].
      inversion H; subst. eapply IHrest. eassumption.
    + destruct p as [|x1 p].
      * cbn [app] in H.
        assert (Hc : c = 92%N) by congruence.
        assert (Hrest : replace_bad_unicode (u :: rest) = 117%N :: q) by congruence.
        clear H. subst c.
        destruct (N.eq_dec u 92) as [->|Hu].
        { destruct rest as [|u' rest']; [discriminate|].
          rewrite replace_bad_unicode_eq in Hrest.
          destruct ((92 =? 92)%N && (u' =? 117)%N && negb (four_hex rest'));
            discriminate. }
        rewrite (replace_bad_unicode_cons rest Hu) in Hrest.
        assert (Hu' : u = 117%N) by congruence.
        assert (Hq : q = replace_bad_unicode rest) by congruence.
        subst u q.
        cbn [N.eqb Pos.eqb andb] in Hbad.
        apply negb_false_iff in Hbad. apply four_hex_replace_bad_unicode. exact Hbad.
      * inversion H; subst. eapply IHcons. eassumption.
Qed.

(** The second replacement keeps that property. *)
Lemma double_stray_backslashes_escapes (s : jsstring) :
  (forall p q, s = p ++ 92%N :: 117%N :: q -> four_hex q = true) ->
  forall p q, double_stray_backslashes s = p ++ 92%N :: 117%N :: q -> four_hex q = true.
Proof.
  induction s as [|c rest IH]; intros Hs p q H.
  - destruct p; discriminate.
  - assert (Hrest : forall p q, rest = p ++ 92%N :: 117%N :: q -> four_hex q = true).
    { intros p' q' ->. apply (Hs (c :: p') q'). reflexivity. }
    specialize (IH Hrest).
    rewrite double_stray_backslashes_eq in H.
    destruct ((c =? 92)%N
              && negb (match rest with n :: _ => starts_escape n | [] => false end))
      eqn:Hstray.
    + (* a doubled backslash *)
      destruct p as [|x1 p]; [cbn [app] in H; congruence|].
      destruct p as [|x2 p].
      * cbn [app] in H.
        assert (Hd : double_stray_backslashes rest = 117%N :: q) by congruence.
        apply andb_true_iff in Hstray. destruct Hstray as [_ Hn].
        destruct rest as [|n rest1]; [discriminate|].
        destruct (N.eq_dec n 92) as [->|Hn92].
        { rewrite double_stray_backslashes_eq in Hd.
          destruct ((92 =? 92)%N
                    && negb (match rest1 with n :: _ => starts_escape n | [] => false end));
            discriminate. }
        rewrite (double_stray_backslashes_cons rest1 Hn92) in Hd.
        assert (n = 117%N) by congruence. subst n. discriminate.
      * cbn [app] in H. eapply IH. 
        assert (Hd : double_stray_backslashes rest = p ++ 92%N :: 117%N :: q) by congruence.
        exact Hd.
    + destruct p as [|x1 p].
      * cbn [app] in H.
        assert (Hc : c = 92%N) by congruence.
        assert (Hd : double_stray_backslashes rest = 117%N :: q) by congruence.
        subst c. destruct rest as [|n rest1]; [discriminate|].
        destruct (N.eq_dec n 92) as [->|Hn92].
        { rewrite double_stray_backslashes_eq in Hd.
          destruct ((92 =? 92)%N
                    && negb (match rest1 with n :: _ => starts_escape n | [] => false end));
            discriminate. }
        rewrite (double_stray_backslashes_cons rest1 Hn92) in Hd.
        assert (n = 117%N) by congruence.
        assert (Hq : q = double_stray_backslashes rest1) by congruence.
        subst n q. apply four_hex_double_stray_backslashes.
        apply (Hs [] rest1). reflexivity.
      * cbn [app] in H. eapply IH.
        assert (Hd : double_stray_backslashes rest = p ++ 92%N :: 117%N :: q) by congruence.
        exact Hd.
Qed.

(** X12.  Whatever the request body, in the sanitised body that the
    LlamaExtract handler gives to [JSON.parse] every backslash
    followed by [u] is followed by four hexadecimal digits. *)
Theorem safeBody_unicode_escapes_are_complete :
  forall (rawBody p q : jsstring),
    safeBody rawBody = p ++ 92%N :: 117%N :: q ->
    four_hex q = true.
Proof.
  intros rawBody p q H. unfold safeBody in H.
  eapply double_stray_backslashes_escapes; [|exact H].
  intros p' q' H'. eapply (proj1 (replace_bad_unicode_escapes _)). exact H'.
Qed.

Lemma replace_bad_unicode_length (s : jsstring) :
  (List.length s <= List.length (replace_bad_unicode s))%nat
  /\ (forall c, (List.length (c :: s) <= List.length (replace_bad_unicode (c :: s)))%nat).
Proof.
  induction s as [|u rest [IH1 IH2]]; [split; intros; cbn; lia|].
  split; [apply IH2|]. intros c. rewrite replace_bad_unicode_eq.
  destruct ((c =? 92)%N && (u =? 117)%N && negb (four_hex rest)).
  - rewrite length_app. change (List.length (c :: u :: rest)) with (S (S (List.length rest))).
    change (List.length [92; 117; 70; 70; 70; 68]%N) with 6%nat.
    unfold code_unit in *. lia.
  - specialize (IH2 u). cbn [List.length] in *. unfold code_unit in *. lia.
Qed.

Lemma double_stray_backslashes_length (s : jsstring) :
  (List.length s <= List.length (double_stray_backslashes s))%nat.
Proof.
  induction s as [|c rest IH]; [cbn; lia|]. rewrite double_stray_backslashes_eq.
  destruct ((c =? 92)%N
            && negb (match rest with n :: _ => starts_escape n | [] => false end));
    cbn [List.length]; unfold code_unit in *; lia.
Qed.

(** The first replacement leaves a body as it is exactly when no
    backslash-u lacks its four hexadecimal digits. *)
Lemma replace_bad_unicode_fixed (s : jsstring) :
  (List.length (replace_bad_unicode s) = List.length s <->
   forall p q, s = p ++ 92%N :: 117%N :: q -> four_hex q = true)
  /\ ((forall p q, s = p ++ 92%N :: 117%N :: q -> four_hex q = true) ->
      replace_bad_unicode s = s).
Proof.
  induction s as [|c rest [[IHl IHr] IHeq]].
  - split; [split|]; try reflexivity. intros _ [|? p] q H; discriminate.
  - destruct rest as [|u rest'].
    + split; [split|]; try reflexivity. intros _ [|? [|? p]] q H; discriminate.
    + rewrite replace_bad_unicode_eq.
      pose proof (proj1 (replace_bad_unicode_length rest') ) as Hlen.
      pose proof (proj1 (replace_bad_unicode_length (u :: rest'))) as Hlen'.
      destruct ((c =? 92)%N && (u =? 117)%N && negb (four_hex rest')) eqn:Hbad.
      * apply andb_true_iff in Hbad. destruct Hbad as [Hcu Hhex].
        apply andb_true_iff in Hcu. destruct Hcu as [Hc Hu].
        apply N.eqb_eq in Hc, Hu. subst c u. apply negb_true_iff in Hhex.
        split; [split|].
        -- rewrite length_app.
           change (List.length [92; 117; 70; 70; 70; 68]%N) with 6%nat.
           cbn [List.length]. intros H. unfold code_unit in *. lia.
        -- intros H. specialize (H [] rest' eq_refl). congruence.
        -- intros H. specialize (H [] rest' eq_refl). congruence.
      * assert (Hshift : (forall p q, c :: u :: rest' = p ++ 92%N :: 117%N :: q ->
                                      four_hex q = true) <->
                         (forall p q, u :: rest' = p ++ 92%N :: 117%N :: q ->
                                      four_hex q = true)).
        { split.
          - intros H p q Hpq. apply (H (c :: p) q). cbn [app]. rewrite Hpq. reflexivity.
          - intros H [|x p] q Hpq.
            + cbn [app] in Hpq.
              assert (c = 92%N) by congruence. assert (u = 117%N) by congruence.
              assert (q = rest') by congruence. subst.
              cbn [N.eqb Pos.eqb andb] in Hbad. apply negb_false_iff in Hbad. exact Hbad.
            + cbn [app] in Hpq. apply (H p q). congruence. }
        split; [split|].
        -- intros H. apply (proj2 Hshift). apply IHl.
           cbn [List.length] in *. unfold code_unit in *. lia.
        -- intros H. pose proof (IHr (proj1 Hshift H)) as H'.
           cbn [List.length] in *. unfold code_unit in *. lia.
        -- intros H. rewrite (IHeq (proj1 Hshift H)). reflexivity.
Qed.

(** The second replacement leaves a body as it is exactly when every
    backslash is followed by a character that starts an escape. *)
Lemma double_stray_backslashes_fixed (s : jsstring) :
  (List.length (double_stray_backslashes s) = List.length s <->
   forall p q, s = p ++ 92%N :: q -> exists n q', q = n :: q' /\ starts_escape n = true)
  /\ ((forall p q, s = p ++ 92%N :: q -> exists n q', q = n :: q' /\ starts_escape n = true) ->
      double_stray_backslashes s = s).
Proof.
  induction s as [|c rest [[IHl IHr] IHeq]].
  - split; [split|]; try reflexivity. intros _ [|? p] q H; discriminate.
  - rewrite double_stray_backslashes_eq.
    pose proof (double_stray_backslashes_length rest) as Hlen.
    destruct ((c =? 92)%N
              && negb (match rest with n :: _ => starts_escape n | [] => false end))
      eqn:Hstray.
    + apply andb_true_iff in Hstray. destruct Hstray as [Hc Hn].
      apply N.eqb_eq in Hc. subst c. apply negb_true_iff in Hn.
      assert (Hno : ~ (forall p q, 92%N :: rest = p ++ 92%N :: q ->
                                   exists n q', q = n :: q' /\ starts_escape n = true)).
      { intros H. destruct (H [] rest eq_refl) as (n & q' & -> & Hs). congruence. }
      split; [split|].
      * cbn [List.length]. intros H. unfold code_unit in *. lia.
      * intros H. contradiction.
      * intros H. contradiction.
    + assert (Hshift : (forall p q, c :: rest = p ++ 92%N :: q ->
                                    exists n q', q = n :: q' /\ starts_escape n = true) <->
                       (forall p q, rest = p ++ 92%N :: q ->
                                    exists n q', q = n :: q' /\ starts_escape n = true)).
      { split.
        - intros H p q ->. apply (H (c :: p) q). reflexivity.
        - intros H [|x p] q Hpq.
          + cbn [app] in Hpq.
            assert (c = 92%N) by congruence. assert (q = rest) by congruence. subst.
            cbn [N.eqb Pos.eqb andb] in Hstray. apply negb_false_iff in Hstray.
            destruct rest as [|n q']; [discriminate|]. eauto.
          + cbn [app] in Hpq. apply (H p q). congruence. }
      split; [split|].
      * intros H. apply (proj2 Hshift). apply IHl.
        cbn [List.length] in *. unfold code_unit in *. lia.
      * intros H. pose proof (IHr (proj1 Hshift H)) as H'.
        cbn [List.length] in *. unfold code_unit in *. lia.
      * intros H. rewrite (IHeq (proj1 Hshift H)). reflexivity.
Qed.

(** X13.  The two replacements leave a request body exactly as it is
    if and only if it has nothing for them to repair: every backslash
    is followed by one of the characters that start a JSON escape, and
    every backslash-u by four hexadecimal digits.  In particular a
    body without any backslash reaches [JSON.parse] unchanged. *)
Theorem safeBody_unchanged_iff_clean :
  forall rawBody : jsstring,
    (safeBody rawBody = rawBody <->
     (forall p q, rawBody = p ++ 92%N :: q ->
                  exists n q', q = n :: q' /\ starts_escape n = true)
     /\ (forall p q, rawBody = p ++ 92%N :: 117%N :: q -> four_hex q = true))
    /\ (~ In 92%N rawBody -> safeBody rawBody = rawBody).
Proof.
  intros rawBody.
  assert (Hiff : safeBody rawBody = rawBody <->
     (forall p q, rawBody = p ++ 92%N :: q ->
                  exists n q', q = n :: q' /\ starts_escape n = true)
     /\ (forall p q, rawBody = p ++ 92%N :: 117%N :: q -> four_hex q = true)).
  { unfold safeBody. split.
    - intros H.
      pose proof (proj1 (replace_bad_unicode_length rawBody)) as H1.
      pose proof (double_stray_backslashes_length (replace_bad_unicode rawBody)) as H2.
      assert (Hl : List.length (double_stray_backslashes (replace_bad_unicode rawBody))
                   = List.length rawBody) by (rewrite H; reflexivity).
      assert (Hu : forall p q, rawBody = p ++ 92%N :: 117%N :: q -> four_hex q = true).
      { apply (proj1 (replace_bad_unicode_fixed rawBody)). unfold code_unit, jsstring in *. lia. }
      pose proof (proj2 (replace_bad_unicode_fixed rawBody) Hu) as Heq.
      rewrite Heq in H, Hl. split; [|exact Hu].
      apply (proj1 (double_stray_backslashes_fixed rawBody)). exact Hl.
    - intros [Hb Hu].
      rewrite (proj2 (replace_bad_unicode_fixed rawBody) Hu).
      apply (proj2 (double_stray_backslashes_fixed rawBody) Hb). }
  split; [exact Hiff|].
  intros Hno. apply Hiff. split.
  - intros p q ->. exfalso. apply Hno. apply in_or_app. right. left. reflexivity.
  - intros p q ->. exfalso. apply Hno. apply in_or_app. right. left. reflexivity.
Qed.

End Sanitizer.

(* ================================================================== *)
(** * The file taken from storage *)
(* ================================================================== *)

Section StoredFile.

Import Shared.

Context (rt : Runtime) (env : Env).

Lemma split_dot_not_nil (s : jsstring) : split_dot s <> [].
Proof.
  destruct s as [|c s]; [discriminate|]. cbn [split_dot].
  destruct (split_dot s); [discriminate|]. destruct (c =? 46)%N; discriminate.
Qed.

(** A string without a dot is its own single part. *)
Lemma split_dot_no_dot (s : jsstring) : ~ In 46%N s -> split_dot s = [s].
Proof.
  induction s as [|c s IH]; intros Hno; [reflexivity|].
  cbn [split_dot]. rewrite IH by (intros H; apply Hno; right; exact H).
  destruct (c =? 46)%N eqn:Hc; [|reflexivity].
  apply N.eqb_eq in Hc. exfalso. apply Hno. left. exact Hc.
Qed.

(** A dot separates the parts before it from the parts after it. *)
Lemma split_dot_app (stem ext : jsstring) :
  split_dot (stem ++ 46%N :: ext) = split_dot stem ++ split_dot ext.
Proof.
  induction stem as [|c stem IH].
  - cbn [app split_dot]. destruct (split_dot ext) eqn:He; [|reflexivity].
    exfalso. exact (split_dot_not_nil ext He).
  - cbn [app split_dot]. rewrite IH.
    destruct (split_dot stem) as [|part parts] eqn:Hs;
      [exfalso; exact (split_dot_not_nil stem Hs)|].
    cbn [app]. destruct (c =? 46)%N; reflexivity.
Qed.

Lemma inferExt_no_dot (path : jsstring) :
  ~ In 46%N path -> inferExt rt (Some path) = None.
Proof.
  intros Hno. unfold inferExt. destruct path as [|c path]; [reflexivity|].
  rewrite (split_dot_no_dot _ Hno). reflexivity.
Qed.

Lemma inferExt_last_dot (stem ext : jsstring) :
  ~ In 46%N ext ->
  inferExt rt (Some (stem ++ 46%N :: ext)) = Some (toLowerCase rt ext).
Proof.
  intros Hno. unfold inferExt.
  destruct (stem ++ 46%N :: ext) as [|c path] eqn:Hpath;
    [destruct stem; discriminate|].
  rewrite <- Hpath, split_dot_app, (split_dot_no_dot _ Hno).
  destruct (split_dot stem) as [|part parts] eqn:Hs;
    [exfalso; exact (split_dot_not_nil stem Hs)|].
  rewrite last_last. rewrite length_app. cbn [List.length app].
  replace (1 <? S (List.length parts) + 1)%nat with true
    by (symmetry; apply Nat.ltb_lt; lia).
  reflexivity.
Qed.

(** X14.  [inferExt] gives no extension for a missing or empty path
    and for a path without a dot; for every other path it gives the
    text after the last dot, in lower case, whatever comes before the
    dot.  So a path that ends in a dot has the empty extension, and a
    dot in a directory name counts like any other. *)
Theorem inferExt_is_text_after_last_dot :
  inferExt rt None = None
  /\ inferExt rt (Some []) = None
  /\ (forall path, ~ In 46%N path -> inferExt rt (Some path) = None)
  /\ (forall stem ext,
        ~ In 46%N ext ->
        inferExt rt (Some (stem ++ 46%N :: ext)) = Some (toLowerCase rt ext))
  /\ (forall stem, inferExt rt (Some (stem ++ [46%N])) = Some (toLowerCase rt [])).
Proof.
  split; [reflexivity|]. split; [reflexivity|].
  split; [exact inferExt_no_dot|]. split; [exact inferExt_last_dot|].
  intros stem. apply inferExt_last_dot. intros H; exact H.
Qed.

(** X15.  A request without a usable [text], with a Supabase client, a
    bucket and a file path: [loadResumeInput] asks the storage for that
    file and for nothing else, and sends no HTTP request.  An error of
    the storage, or an answer without data, becomes "Unable to download
    file: " followed by the message of the error ("unknown" if it has
    none).  Otherwise the input is the bytes of the file, named
    "resume." and the extension of the path in lower case
    ("resume.bin" for a path without a dot), with the type of the blob,
    or "application/octet-stream" when the blob has none. *)
Theorem loadResumeInput_from_storage :
  forall (body : ResumeRequest) (client : Client) (b path : jsstring) (w : World),
    (text body = None
     \/ exists t, text body = Some t /\ forallb is_white_space t = true) ->
    supabase env = Some client ->
    bucket body = Some b -> b <> [] ->
    filePath body = Some path -> path <> [] ->
    (forall error,
        download_error (download client b path) = Some error ->
        loadResumeInput rt env body w
        = Some (Thrown (Error (lit "Unable to download file: "
                               ++ match error with Some m => m | None => lit "unknown" end)),
                w))
    /\ (download_error (download client b path) = None ->
        download_data (download client b path) = None ->
        loadResumeInput rt env body w
        = Some (Thrown (Error (lit "Unable to download file: unknown")), w))
    /\ (forall data,
          download_error (download client b path) = None ->
          download_data (download client b path) = Some data ->
          exists input,
            loadResumeInput rt env body w = Some (Normal input, w)
            /\ buffer input = blob_bytes data
            /\ (~ In 46%N path -> filename input = lit "resume.bin")
            /\ (forall stem ext,
                  path = stem ++ 46%N :: ext -> ~ In 46%N ext ->
                  filename input = lit "resume." ++ toLowerCase rt ext)
            /\ (blob_type data = [] -> contentType input = lit "application/octet-stream")
            /\ (blob_type data <> [] -> contentType input = blob_type data)).
Proof.
  intros body client b path w Htext Hclient Hb Hbne Hp Hpne.
  rewrite (text_not_provided rt env body Htext).
  unfold loadStoredFile. rewrite Hclient, Hb, Hp.
  destruct b as [|b0 b]; [congruence|]. destruct path as [|p0 path]; [congruence|].
  split; [|split].
  - intros error He. rewrite He. reflexivity.
  - intros He Hd. rewrite He, Hd. reflexivity.
  - intros data He Hd. rewrite He, Hd. unfold ret. eexists. split; [reflexivity|].
    cbn [buffer filename contentType].
    split; [reflexivity|]. split; [|split; [|split]].
    + intros Hno. rewrite (inferExt_no_dot _ Hno). reflexivity.
    + intros stem ext Hpath Hno. pose proof (inferExt_last_dot stem ext Hno) as Hext.
      unfold jsstring, code_unit in *. rewrite Hpath, Hext. reflexivity.
    + intros ->. reflexivity.
    + intros Hne. destruct (blob_type data); [congruence|reflexivity].
Qed.

End StoredFile.

(* ================================================================== *)
(** * The row that is stored *)
(* ================================================================== *)

Section StoredRow.

Context (rt : Runtime).

(** X16.  Both versions bound the raw text they store.  The
    LlamaExtract version stores the first 50000 code units of the
    [text] of the request, or null when the request has no [text] or an
    empty one, whether or not that text was the input that was parsed;
    the answer to the client carries the [text] in full.  The
    LlamaParse version decodes the first 50000 bytes of the input at
    most. *)
Theorem stored_raw_text_is_bounded :
  forall (body : ResumeRequest) (parsed resumeId : value),
    (forall t,
        text body = Some t -> t <> [] ->
        raw_text (LlamaExtract.resume_row body parsed)
        = VStr (firstn LlamaExtract.MAX_TEXT_STORE t)
        /\ (List.length (firstn LlamaExtract.MAX_TEXT_STORE t)
            <= LlamaExtract.MAX_TEXT_STORE)%nat
        /\ (LlamaExtract.success_body body parsed resumeId)?."rawText" = VStr t)
    /\ (text body = None \/ text body = Some [] ->
        raw_text (LlamaExtract.resume_row body parsed) = VNull
        /\ (LlamaExtract.success_body body parsed resumeId)?."rawText" = VUndefined)
    /\ (forall (TextDecoder_decode : list N -> jsstring) (input : ResumeInput),
          raw_text (LlamaParseHandler.resume_row TextDecoder_decode body input parsed)
          = VStr (TextDecoder_decode (firstn LlamaParseHandler.MAX_TEXT_STORE (buffer input)))
          /\ (List.length (firstn LlamaParseHandler.MAX_TEXT_STORE (buffer input))
              <= LlamaParseHandler.MAX_TEXT_STORE)%nat).
Proof.
  intros body parsed resumeId. split; [|split].
  - intros t Ht Hne. destruct t as [|c t]; [congruence|].
    split; [|split].
    + unfold LlamaExtract.resume_row, LlamaExtract.rawText. rewrite Ht.
      cbn [raw_text present opt truthy andb]. unfold slice0.
      destruct (Nat.ltb_spec LlamaExtract.MAX_TEXT_STORE (List.length (c :: t))) as [H|H];
        [reflexivity|].
      rewrite firstn_all2 by exact H. reflexivity.
    + apply firstn_le_length.
    + unfold LlamaExtract.success_body, LlamaExtract.rawText. rewrite Ht. reflexivity.
  - intros [Ht|Ht]; (split;
      [unfold LlamaExtract.resume_row, LlamaExtract.rawText; rewrite Ht; reflexivity
      |unfold LlamaExtract.success_body, LlamaExtract.rawText; rewrite Ht; reflexivity]).
  - intros decode input. split; [|apply firstn_le_length].
    unfold LlamaParseHandler.resume_row. cbn [raw_text].
    destruct (Nat.ltb_spec LlamaParseHandler.MAX_TEXT_STORE (List.length (buffer input)))
      as [H|H]; [reflexivity|].
    rewrite firstn_all2 by exact H. reflexivity.
Qed.

End StoredRow.

(* ================================================================== *)
(** * The handler of the LlamaParse version *)
(* ================================================================== *)

Section LlamaParseService.

Import Shared LlamaParse LlamaParseHandler.

Context (rt : Runtime) (env : Env).
Context (TextDecoder_decode : list N -> jsstring) (ToString : value -> jsstring).

Lemma uploadToLlamaParse_returns (input : ResumeInput) (w : World) :
  exists (r : completion value) (w' : World),
    uploadToLlamaParse rt env input w = Some (r, w').
Proof.
  unfold uploadToLlamaParse.
  destruct (present (llamaKey env)); cbn [negb]; [|unfold throw; eauto].
  unfold bind, fetch, parse_or_throw, get, ret, throw.
  destruct (reply (network env (List.length (fetches w)))) as [res|]; [|eauto].
  destruct (ok res); cbn [negb]; [|eauto].
  destruct (JSON_parse rt (body res)) as [json|]; [|eauto].
  destruct (nullish json); eauto.
Qed.

Lemma parseResumeWithLlamaParse_returns (fuel : nat) (input : ResumeInput) (w : World) :
  (21 <= fuel)%nat ->
  exists (r : completion value) (w' : World),
    parseResumeWithLlamaParse rt env fuel input w = Some (r, w').
Proof.
  intros Hfuel. unfold parseResumeWithLlamaParse. unfold bind at 1.
  destruct (uploadToLlamaParse_returns input w) as (r & w1 & Hup). rewrite Hup.
  destruct r as [id|e]; [|eauto].
  destruct fuel as [|fuel]; [lia|].
  assert (Hpoll : exists (r : completion jsstring) (w2 : World),
             pollLlamaParseMarkdown rt env (S fuel) id w1 = Some (r, w2)).
  { unfold pollLlamaParseMarkdown, bind, Date_now.
    apply poll_loop_returns. unfold POLL_MAX_MS, POLL_INTERVAL_MS. lia. }
  destruct Hpoll as (r & w2 & Hpoll). unfold bind. rewrite Hpoll.
  destruct r; unfold ret; eauto.
Qed.

(** What the handler does with a body of the declared type. *)
Lemma llamaparse_serve_typed (fuel : nat) (req : HttpRequest) (json : value)
    (body : ResumeRequest) (w : World) :
  str_eqb (method req) (lit "OPTIONS") = false ->
  JSON_parse rt (req_text req) = Some json ->
  LlamaExtract.asResumeRequest json = Some body ->
  serve rt env TextDecoder_decode ToString fuel req w =
  match loadResumeInput rt env body w with
  | None => None
  | Some (Thrown e, w1) =>
      Some (Normal (respond 400 (VObj [(lit "error", VStr (message_of rt e))])),
            after_log [LogText (message_of rt e)] w1)
  | Some (Normal input, w1) =>
      match parseResumeWithLlamaParse rt env fuel input w1 with
      | None => None
      | Some (Thrown e, w2) =>
          Some (Normal (respond 400 (VObj [(lit "error", VStr (message_of rt e))])),
                after_log [LogText (message_of rt e)] w2)
      | Some (Normal parsed, w2) =>
          match supabase env with
          | None =>
              Some (Normal (respond 400
                              (VObj [(lit "error",
                                      VStr (lit "Supabase client not initialized"))])),
                    after_log [LogText (lit "Supabase client not initialized")] w2)
          | Some client =>
              let r := insert client (resume_row TextDecoder_decode body input parsed) in
              match insert_error r with
              | Some error =>
                  Some (Normal (respond 400
                                  (VObj [(lit "error",
                                          VStr (error_text ToString (error?."message")))])),
                        after_log [LogText (error_text ToString (error?."message"))] w2)
              | None =>
                  Some (Normal (respond 200
                                  (VObj [(lit "resumeId", (insert_data r)?."id");
                                         (lit "parsed", parsed);
                                         (lit "parserVersion", VStr PARSER_VERSION)])),
                        w2)
              end
          end
      end
  end.
Proof.
  intros Hmethod Hjson Hbody. unfold serve. rewrite Hmethod.
  unfold try_catch. unfold bind at 1. unfold parse_or_throw. rewrite Hjson.
  unfold ret at 1. rewrite Hbody. unfold bind at 1.
  destruct (loadResumeInput rt env body w) as [[[input|e] w1]|]; [| |reflexivity].
  - unfold bind at 1.
    destruct (parseResumeWithLlamaParse rt env fuel input w1) as [[[parsed|e] w2]|];
      [| |reflexivity].
    + destruct (supabase env) as [client|]; [|reflexivity]. cbv zeta.
      destruct (insert_error (insert client (resume_row TextDecoder_decode body input parsed)));
        reflexivity.
    + reflexivity.
  - reflexivity.
Qed.

(** X17.  The LlamaParse handler always answers and never lets an
    exception out: the reply is the preflight "ok", a 200 or a 400.
    It answers 200 only when the Supabase client exists and the insert
    of the row reported no error, and the [resumeId] of the answer is
    then the [id] of the inserted row. *)
Theorem llamaparse_handler_always_answers :
  forall (fuel : nat) (req : HttpRequest) (w : World),
    (21 <= fuel)%nat ->
    (str_eqb (method req) (lit "OPTIONS") = true
     \/ JSON_parse rt (req_text req) = None
     \/ exists json body,
          JSON_parse rt (req_text req) = Some json
          /\ LlamaExtract.asResumeRequest json = Some body) ->
    exists (reply : HttpReply) (w' : World),
      serve rt env TextDecoder_decode ToString fuel req w = Some (Normal reply, w')
      /\ (reply = preflight_ok
          \/ (exists b, reply = respond 400 b)
          \/ (exists (client : Client) (row : Row) (parsed : value),
                supabase env = Some client
                /\ insert_error (insert client row) = None
                /\ reply = respond 200
                             (VObj [(lit "resumeId", (insert_data (insert client row))?."id");
                                    (lit "parsed", parsed);
                                    (lit "parserVersion", VStr PARSER_VERSION)]))).
Proof.
  intros fuel req w Hfuel Hreq.
  destruct (str_eqb (method req) (lit "OPTIONS")) eqn:Hmethod.
  { unfold serve. rewrite Hmethod. unfold ret. eauto. }
  destruct Hreq as [H|[Hbad|(json & body & Hjson & Hbody)]]; [discriminate| |].
  { unfold serve. rewrite Hmethod. unfold try_catch, bind, parse_or_throw.
    rewrite Hbad. unfold throw, console_error, ret. eauto 8. }
  rewrite (llamaparse_serve_typed fuel req w Hmethod Hjson Hbody).
  destruct (loadResumeInput_returns rt env body w) as [r Hload]. rewrite Hload.
  destruct r as [input|e]; [|eauto 8].
  destruct (parseResumeWithLlamaParse_returns input w Hfuel) as (r & w2 & Hparse).
  rewrite Hparse. destruct r as [parsed|e]; [|eauto 8].
  destruct (supabase env) as [client|] eqn:Hclient; [|eauto 8]. cbv zeta.
  destruct (insert_error (insert client (resume_row TextDecoder_decode body input parsed)))
    eqn:Hinsert; [eauto 8|].
  do 2 eexists. split; [reflexivity|]. right. right.
  exists client, (resume_row TextDecoder_decode body input parsed), parsed. auto.
Qed.

(** X18.  Once the resume is parsed, the LlamaParse handler makes the
    answer depend on the table.  Without a Supabase client it answers
    400 "Supabase client not initialized", after the upload and the
    polls have been made; when the insert reports an error it answers
    400 with the message of that error; in both cases the message is
    written to the console and [parsed] is not returned.  Only a
    successful insert gives a 200. *)
Theorem llamaparse_handler_needs_the_table :
  forall (fuel : nat) (req : HttpRequest) (json : value) (body : ResumeRequest)
         (input : ResumeInput) (parsed : value) (w w2 : World),
    str_eqb (method req) (lit "OPTIONS") = false ->
    JSON_parse rt (req_text req) = Some json ->
    LlamaExtract.asResumeRequest json = Some body ->
    loadResumeInput rt env body w = Some (Normal input, w) ->
    parseResumeWithLlamaParse rt env fuel input w = Some (Normal parsed, w2) ->
    (supabase env = None ->
     serve rt env TextDecoder_decode ToString fuel req w
     = Some (Normal (respond 400
                       (VObj [(lit "error", VStr (lit "Supabase client not initialized"))])),
             after_log [LogText (lit "Supabase client not initialized")] w2))
    /\ (forall client error,
          supabase env = Some client ->
          insert_error (insert client (resume_row TextDecoder_decode body input parsed))
          = Some error ->
          serve rt env TextDecoder_decode ToString fuel req w
          = Some (Normal (respond 400
                            (VObj [(lit "error",
                                    VStr (error_text ToString (error?."message")))])),
                  after_log [LogText (error_text ToString (error?."message"))] w2))
    /\ (forall client,
          supabase env = Some client ->
          insert_error (insert client (resume_row TextDecoder_decode body input parsed))
          = None ->
          serve rt env TextDecoder_decode ToString fuel req w
          = Some (Normal (respond 200
                            (VObj [(lit "resumeId",
                                    (insert_data
                                       (insert client
                                          (resume_row TextDecoder_decode body input parsed)))?."id");
                                   (lit "parsed", parsed);
                                   (lit "parserVersion", VStr PARSER_VERSION)])),
                  w2)).
Proof.
  intros fuel req json body input parsed w w2 Hmethod Hjson Hbody Hload Hparse.
  rewrite (llamaparse_serve_typed fuel req w Hmethod Hjson Hbody), Hload, Hparse.
  split; [|split].
  - intros ->. reflexivity.
  - intros client error -> Herr. cbv zeta. rewrite Herr. reflexivity.
  - intros client -> Herr. cbv zeta. rewrite Herr. reflexivity.
Qed.

(** X5.  Without a LLAMA_PARSE_API_KEY (unset or empty) the
    LlamaParse handler answers a request whose input could be loaded
    with 400 "LLAMA_PARSE_API_KEY is missing": it writes that message
    to the console, sends nothing to the service and sets no timer. *)
Theorem llamaparse_handler_without_key :
  forall (fuel : nat) (req : HttpRequest) (json : value) (body : ResumeRequest)
         (input : ResumeInput) (w : World),
    str_eqb (method req) (lit "OPTIONS") = false ->
    JSON_parse rt (req_text req) = Some json ->
    LlamaExtract.asResumeRequest json = Some body ->
    loadResumeInput rt env body w = Some (Normal input, w) ->
    (Deno_env_get env (lit "LLAMA_PARSE_API_KEY") = None
     \/ Deno_env_get env (lit "LLAMA_PARSE_API_KEY") = Some []) ->
    exists w' : World,
      serve rt env TextDecoder_decode ToString fuel req w
      = Some (Normal (respond 400
                        (VObj [(lit "error", VStr (lit "LLAMA_PARSE_API_KEY is missing"))])),
              w')
      /\ fetches w' = fetches w
      /\ timers w' = timers w
      /\ console w' = console w ++ [[LogText (lit "LLAMA_PARSE_API_KEY is missing")]].
Proof.
  intros fuel req json body input w Hmethod Hjson Hbody Hload Hkey.
  rewrite (llamaparse_serve_typed fuel req w Hmethod Hjson Hbody), Hload.
  rewrite (parseResumeWithLlamaParse_without_key rt env fuel input w Hkey).
  eexists. split; [reflexivity|]. repeat split.
Qed.

End LlamaParseService.

(* ================================================================== *)
(** * The web client *)
(* ================================================================== *)

Section WebClientProperties.

Import WebClient.

Context (rt : Runtime).
Context (ToString : value -> jsstring) (normalize_NFKD : jsstring -> jsstring).

(** A replacement by dashes keeps every property that the dash has. *)
Lemma replace_runs_Forall (P : code_unit -> Prop) (bad : code_unit -> bool) (s : jsstring) :
  P 45%N ->
  (forall c, In c s -> bad c = false -> P c) ->
  forall in_run, Forall P (replace_runs bad in_run s).
Proof.
  intros Hdash. induction s as [|c rest IH]; intros Hs in_run; [constructor|].
  cbn [replace_runs].
  assert (Hrest : forall c', In c' rest -> bad c' = false -> P c')
    by (intros c' Hin; apply Hs; right; exact Hin).
  destruct (bad c) eqn:Hc.
  - destruct in_run; [apply IH; exact Hrest|].
    constructor; [exact Hdash|apply IH; exact Hrest].
  - constructor; [apply Hs; [left; reflexivity|exact Hc]|apply IH; exact Hrest].
Qed.

(** After the second replacement no dash follows a dash. *)
Lemma replace_runs_dash_single (s : jsstring) :
  forall in_run,
    (forall p q, replace_runs is_dash in_run s <> p ++ 45%N :: 45%N :: q)
    /\ (in_run = true -> forall q, replace_runs is_dash in_run s <> 45%N :: q).
Proof.
  induction s as [|c rest IH]; intros in_run.
  - split; [intros [|? p] q H; discriminate|intros _ q H; discriminate].
  - cbn [replace_runs]. destruct (is_dash c) eqn:Hc.
    + destruct in_run.
      * exact (IH true).
      * split; [|discriminate]. intros [|x p] q H; cbn [app] in H.
        -- apply (proj2 (IH true) eq_refl q). congruence.
        -- apply (proj1 (IH true) p q). congruence.
    + assert (Hne : c <> 45%N).
      { intros ->. discriminate. }
      split.
      * intros [|x p] q H; cbn [app] in H; [congruence|].
        apply (proj1 (IH false) p q). congruence.
      * intros _ q H. congruence.
Qed.

(** A replacement leaves a string without characters of the class as
    it is. *)
Lemma replace_runs_none (bad : code_unit -> bool) (s : jsstring) :
  forallb (fun c => negb (bad c)) s = true ->
  forall in_run, replace_runs bad in_run s = s.
Proof.
  induction s as [|c rest IH]; intros Hs in_run; [reflexivity|].
  cbn [forallb] in Hs. apply andb_true_iff in Hs. destruct Hs as [Hc Hrest].
  cbn [replace_runs]. apply negb_true_iff in Hc. rewrite Hc, (IH Hrest). reflexivity.
Qed.

(** The second replacement leaves single dashes as they are. *)
Lemma replace_runs_dash_fixed (s : jsstring) :
  (forall p q, s <> p ++ 45%N :: 45%N :: q) ->
  forall in_run,
    (in_run = true -> forall q, s <> 45%N :: q) ->
    replace_runs is_dash in_run s = s.
Proof.
  induction s as [|c rest IH]; intros Hs in_run Hrun; [reflexivity|].
  assert (Hrest : forall p q, rest <> p ++ 45%N :: 45%N :: q).
  { intros p q H. apply (Hs (c :: p) q). rewrite H. reflexivity. }
  cbn [replace_runs]. destruct (is_dash c) eqn:Hc.
  - apply N.eqb_eq in Hc. subst c. destruct in_run.
    + exfalso. exact (Hrun eq_refl rest eq_refl).
    + rewrite (IH Hrest true); [reflexivity|].
      intros _ q H. apply (Hs [] q). rewrite H. reflexivity.
  - rewrite (IH Hrest false); [reflexivity|discriminate].
Qed.

(** X19.  Whatever the name of the file, the name under which the web
    client uploads it is made of ASCII letters, digits, underscores,
    dots and dashes only, and has no two dashes in a row.  A name that
    already has this form, and that the normalisation does not change,
    is kept as it is. *)
Theorem safeName_is_safe :
  forall name : jsstring,
    Forall (fun c => is_safe c = true) (safeName normalize_NFKD name)
    /\ (forall p q, safeName normalize_NFKD name <> p ++ 45%N :: 45%N :: q)
    /\ (normalize_NFKD name = name ->
        forallb is_safe name = true ->
        (forall p q, name <> p ++ 45%N :: 45%N :: q) ->
        safeName normalize_NFKD name = name).
Proof.
  intros name. unfold safeName. split; [|split].
  - apply replace_runs_Forall; [reflexivity|]. intros c Hin _.
    assert (Hall : Forall (fun c => is_safe c = true)
                     (replace_runs (fun c => negb (is_safe c)) false (normalize_NFKD name))).
    { apply replace_runs_Forall; [reflexivity|].
      intros c' _ Hc'. apply negb_false_iff in Hc'. exact Hc'. }
    rewrite Forall_forall in Hall. apply Hall. exact Hin.
  - apply (proj1 (replace_runs_dash_single _ false)).
  - intros Hnorm Hsafe Hsingle. rewrite Hnorm.
    rewrite (replace_runs_none (fun c => negb (is_safe c)) name).
    + apply replace_runs_dash_fixed; [exact Hsingle|discriminate].
    + clear Hnorm Hsingle. induction name as [|c rest IH]; [reflexivity|].
      cbn [forallb] in *. apply andb_true_iff in Hsafe. destruct Hsafe as [Hc Hrest].
      rewrite negb_involutive, Hc, (IH Hrest). reflexivity.
Qed.

(** X20.  [extractStructured] returns null or a truthy value, never
    another falsy one.  It returns [result.parsed.structured] when that
    is truthy, and when [result.parsed] is a non-empty string holding
    JSON with a truthy [structured] it returns that inner value (one
    level deep). *)
Theorem extractStructured_cases :
  forall result : value,
    let payload := result?."parsed" in
    (extractStructured rt result = VNull \/ truthy (extractStructured rt result) = true)
    /\ (truthy (payload?."structured") = true ->
        extractStructured rt result = payload?."structured")
    /\ (forall s inner,
          payload = VStr s -> s <> [] ->
          JSON_parse rt s = Some inner ->
          truthy (inner?."structured") = true ->
          extractStructured rt result = inner?."structured")
    /\ (forall s,
          payload = VStr s ->
          JSON_parse rt s = None ->
          extractStructured rt result = VNull).
Proof.
  intros result payload. unfold extractStructured. fold payload.
  split; [|split; [|split]].
  - destruct (truthy payload) eqn:Hp; cbn [negb]; [|left; reflexivity].
    destruct (truthy (payload?."structured")) eqn:Hs; [right; exact Hs|].
    destruct payload; try (left; reflexivity).
    destruct (JSON_parse rt s) as [inner|]; [|left; reflexivity].
    destruct (truthy (inner?."structured")) eqn:Hi; [right; exact Hi|left; reflexivity].
  - intros Hs. destruct payload; try discriminate. cbn [truthy negb]. rewrite Hs. reflexivity.
  - intros s inner Hp Hne Hj Hi. rewrite Hp. destruct s as [|c s]; [congruence|].
    cbn [truthy negb prop]. rewrite Hj, Hi. reflexivity.
  - intros s Hp Hj. rewrite Hp. destruct s as [|c s]; [reflexivity|].
    cbn [truthy negb prop]. rewrite Hj. reflexivity.
Qed.

(** X21.  How an answer of the edge function reaches the caller of
    [callFunction].  An answer with a failure status whose body
    survives the trip with a non-empty string [error] makes
    [callFunction] throw an error with exactly that message; an answer
    with a success status is returned as the parsed body; a failure
    whose body is not JSON gives "Request failed with " and the
    status; and the "ok" of a preflight answer, not being JSON, is
    returned as the empty object. *)
Theorem handler_answer_reaches_client :
  forall (st : Z) (b : value),
    (forall b' msg,
        (st < 200 \/ 299 < st)%Z ->
        JSON_parse rt (JSON_stringify rt b) = Some b' ->
        b'?."error" = VStr msg -> msg <> [] ->
        callFunction rt ToString (Some (on_the_wire rt (respond st b)))
        = Thrown (Error msg))
    /\ (forall b',
          (200 <= st <= 299)%Z ->
          JSON_parse rt (JSON_stringify rt b) = Some b' ->
          callFunction rt ToString (Some (on_the_wire rt (respond st b))) = Normal b')
    /\ ((st < 200 \/ 299 < st)%Z ->
        JSON_parse rt (JSON_stringify rt b) = None ->
        callFunction rt ToString (Some (on_the_wire rt (respond st b)))
        = Thrown (Error (lit "Request failed with " ++ decimal_text st)))
    /\ (JSON_parse rt (lit "ok") = None ->
        callFunction rt ToString (Some (on_the_wire rt preflight_ok)) = Normal (VObj [])).
Proof.
  intros st b.
  assert (Hfail : (st < 200 \/ 299 < st)%Z ->
                  ok {| status := st; body := JSON_stringify rt b |} = false).
  { intros H. unfold ok. cbn [status]. apply andb_false_iff.
    destruct H; [left; apply Z.leb_gt; lia|right; apply Z.leb_gt; lia]. }
  split; [|split; [|split]].
  - intros b' msg Hst Hj He Hne. unfold callFunction, on_the_wire.
    rewrite (Hfail Hst). cbn [body negb]. rewrite Hj, He.
    destruct msg as [|c msg]; [congruence|]. reflexivity.
  - intros b' Hst Hj. unfold callFunction, on_the_wire.
    assert (Hok : ok {| status := st; body := JSON_stringify rt b |} = true).
    { unfold ok. cbn [status]. apply andb_true_iff. split; apply Z.leb_le; lia. }
    rewrite Hok. cbn [body negb]. rewrite Hj. reflexivity.
  - intros Hst Hj. unfold callFunction, on_the_wire.
    rewrite (Hfail Hst). cbn [body negb status]. rewrite Hj. reflexivity.
  - intros Hj. unfold callFunction, on_the_wire. cbn [body]. rewrite Hj. reflexivity.
Qed.


(** X23.  The object path under which the web client uploads a file
    and [inferExt] of the edge function fit together: the extension
    the edge function infers from that path is the text after the last
    dot of the sanitised file name, in lower case, whatever the random
    identifier is; and when neither the identifier nor the sanitised
    name has a dot, it infers none (the file is then named
    "resume.bin"). *)
Theorem uploaded_path_extension :
  forall (uuid name : jsstring),
    (forall stem ext,
        safeName normalize_NFKD name = stem ++ 46%N :: ext ->
        ~ In 46%N ext ->
        Shared.inferExt rt (Some (objectPath normalize_NFKD uuid name))
        = Some (toLowerCase rt ext))
    /\ (~ In 46%N uuid ->
        ~ In 46%N (safeName normalize_NFKD name) ->
        Shared.inferExt rt (Some (objectPath normalize_NFKD uuid name)) = None).
Proof.
  intros uuid name. unfold objectPath. split.
  - intros stem ext Hname Hno. rewrite Hname.
    replace (lit "uploads/" ++ uuid ++ lit "-" ++ stem ++ 46%N :: ext)
      with ((lit "uploads/" ++ uuid ++ lit "-" ++ stem) ++ 46%N :: ext)
      by (rewrite <- !app_assoc; reflexivity).
    apply inferExt_last_dot. exact Hno.
  - intros Huuid Hname. apply inferExt_no_dot. intros Hin.
    apply in_app_or in Hin. destruct Hin as [Hin|Hin].
    { vm_compute in Hin. repeat (destruct Hin as [Hin|Hin]; [discriminate|]). exact Hin. }
    apply in_app_or in Hin. destruct Hin as [Hin|Hin]; [exact (Huuid Hin)|].
    apply in_app_or in Hin. destruct Hin as [Hin|Hin]; [|exact (Hname Hin)].
    vm_compute in Hin. destruct Hin as [Hin|Hin]; [discriminate|exact Hin].
Qed.

End WebClientProperties.

(* ================================================================== *)
(** * A text from the web client to the service *)
(* ================================================================== *)

Section SubmittedText.

Import Shared WebClient.

Context (rt : Runtime) (env : Env).
Context (TextDecoder_decode : list N -> jsstring) (ToString : value -> jsstring).




End SubmittedText.

(* ================================================================== *)
(** * The further properties on scripted worlds *)
(* ================================================================== *)

Section MoreExamples.

Import Shared LlamaParse LlamaExtract WebClient Reference Scenarios.

Lemma pollLlamaParseMarkdown_trace_witness :
  pollLlamaParseMarkdown runtime two_pending_then_hello 21 J1 start
  = Some (Normal (lit "Hello"), polled_world)
  /\ exists (polls : list (Z * Request)) (k : nat),
      fetches polled_world = fetches start ++ polls
      /\ (List.length polls <= 20)%nat
      /\ spaced POLL_INTERVAL_MS (now start) polls
      /\ Forall (fun q => (fst q < now start + POLL_MAX_MS)%Z) polls
      /\ Forall (fun q => snd q = GetMarkdown J1) polls
      /\ timers polled_world = timers start ++ repeat POLL_INTERVAL_MS k
      /\ (k = List.length polls \/ S k = List.length polls)
      /\ console polled_world = console start.
Proof.
  assert (H1 : pollLlamaParseMarkdown runtime two_pending_then_hello 21 J1 start
               = Some (Normal (lit "Hello"), polled_world)) by (vm_compute; reflexivity).
  exact (conj H1 (@pollLlamaParseMarkdown_trace runtime two_pending_then_hello 21 J1 start
                    polled_world (Normal (lit "Hello")) H1)).
Defined.

Lemma pollLlamaParseMarkdown_outcomes_witness :
  (21 <= 21)%nat
  /\ exists (r : completion jsstring) (w' : World),
      pollLlamaParseMarkdown runtime rejects_bad_input 21 J1 start = Some (r, w')
      /\ ((r = Thrown (Error (lit "LlamaParse job timed out"))
           /\ (now start + POLL_MAX_MS <= now w')%Z)
          \/ r = Thrown FetchRejected
          \/ exists (n : nat) (res : Response),
               reply (network rejects_bad_input n) = Some res
               /\ S n = List.length (fetches w')
               /\ ((exists payload,
                      r = Normal payload /\ ok res = true
                      /\ (payload = body res
                          \/ exists json, JSON_parse runtime (body res) = Some json
                                          /\ json?."markdown" = VStr payload))
                   \/ (r = Thrown (Error (lit "LlamaParse job error: "
                                          ++ JSON_stringify runtime
                                               (coalesce (detail_of runtime res)
                                                         (VStr (lit "unknown")))))
                       /\ (status res = 400 \/ status res = 404)%Z
                       /\ still_processing (message_in (detail_of runtime res)) = false)
                   \/ (r = Thrown (Error (lit "LlamaParse poll failed: " ++ body res))
                       /\ ok res = false
                       /\ (status res <> 400 /\ status res <> 404)%Z))).
Proof.
  assert (H1 : (21 <= 21)%nat) by lia.
  exact (conj H1 (@pollLlamaParseMarkdown_outcomes runtime rejects_bad_input 21 J1 start H1)).
Defined.

Lemma pollLlamaParseMarkdown_duration_witness :
  (forall n, (latency (network two_pending_then_hello n) <= 100)%N)
  /\ (forall n, (timer_lag two_pending_then_hello n <= 0)%N)
  /\ pollLlamaParseMarkdown runtime two_pending_then_hello 21 J1 start
     = Some (Normal (lit "Hello"), polled_world)
  /\ (now start <= now polled_world
      < now start + POLL_MAX_MS + Z.of_N 100 + POLL_INTERVAL_MS + Z.of_N 0)%Z.
Proof.
  assert (H1 : forall n, (latency (network two_pending_then_hello n) <= 100)%N)
    by (intros n; simpl; lia).
  assert (H2 : forall n, (timer_lag two_pending_then_hello n <= 0)%N)
    by (intros n; simpl; lia).
  assert (H3 : pollLlamaParseMarkdown runtime two_pending_then_hello 21 J1 start
               = Some (Normal (lit "Hello"), polled_world)) by (vm_compute; reflexivity).
  exact (conj H1 (conj H2 (conj H3
           (@pollLlamaParseMarkdown_duration runtime two_pending_then_hello 100 0 21 J1 start
              polled_world (Normal (lit "Hello")) H1 H2 H3)))).
Defined.


Lemma llamaextract_failures_are_bounded_witness :
  reply (network answers_long_failure (List.length (fetches start))) = Some long_failure
  /\ ok long_failure = false
  /\ exists detail : jsstring,
      detail = slice0 400 (body long_failure)
      /\ (List.length detail <= 400)%nat
      /\ llamaUploadFile runtime answers_long_failure jane_input start
         = Some (Thrown (Error (lit "LlamaExtract upload failed: " ++ detail)),
                 after_fetch answers_long_failure (PostFile jane_input) start)
      /\ llamaCreateJob runtime answers_long_failure (lit "agent") J1 start
         = Some (Thrown (Error (lit "LlamaExtract job create failed: " ++ detail)),
                 after_fetch answers_long_failure (PostJob (lit "agent") J1) start)
      /\ llamaPollJob runtime answers_long_failure J1 start
         = Some (Thrown (Error (lit "LlamaExtract job status failed: " ++ detail)),
                 after_fetch answers_long_failure (GetJob J1) start)
      /\ llamaGetResult runtime answers_long_failure J1 start
         = Some (Thrown (Error (lit "LlamaExtract result failed: " ++ detail)),
                 after_fetch answers_long_failure (GetResult J1) start)
      /\ (List.length (lit "LlamaExtract upload failed: " ++ detail) <= 432)%nat
      /\ (List.length (lit "LlamaExtract job create failed: " ++ detail) <= 432)%nat
      /\ (List.length (lit "LlamaExtract job status failed: " ++ detail) <= 432)%nat
      /\ (List.length (lit "LlamaExtract result failed: " ++ detail) <= 432)%nat.
Proof.
  assert (H1 : reply (network answers_long_failure (List.length (fetches start)))
               = Some long_failure) by reflexivity.
  assert (H2 : ok long_failure = false) by reflexivity.
  exact (conj H1 (conj H2
           (@llamaextract_failures_are_bounded runtime answers_long_failure jane_input
              (lit "agent") J1 start long_failure H1 H2))).
Defined.

Lemma parseResumeWithLlamaExtract_configuration_witness :
  present (llamaApiKey unconfigured) = false
  /\ parseResumeWithLlamaExtract runtime unconfigured 21 jane_input start
     = Some (Thrown (Error (lit "LLAMA_CLOUD_API_KEY missing")), start).
Proof.
  assert (H1 : present (llamaApiKey unconfigured) = false) by reflexivity.
  exact (conj H1
           (proj1 (@parseResumeWithLlamaExtract_configuration runtime unconfigured 21
                     jane_input start) H1)).
Defined.

Lemma parseResumeWithLlamaExtract_trace_witness :
  parseResumeWithLlamaExtract runtime extract_then_insert_fails 2 jane_input start
  = Some (Normal jane_parsed, jane_parsed_world)
  /\ exists (agentId : jsstring) (res0 res1 res : Response) (json0 json1 result : value)
            (polls : list (Z * Request)) (t1 t2 : Z),
      llamaAgentId extract_then_insert_fails = Some agentId
      /\ reply (network extract_then_insert_fails (List.length (fetches start))) = Some res0
      /\ ok res0 = true
      /\ JSON_parse runtime (body res0) = Some json0
      /\ reply (network extract_then_insert_fails (S (List.length (fetches start))))
         = Some res1
      /\ ok res1 = true
      /\ JSON_parse runtime (body res1) = Some json1
      /\ fetches jane_parsed_world
         = fetches start
           ++ [(now start, PostFile jane_input); (t1, PostJob agentId (json0?."id"))]
           ++ polls ++ [(t2, GetResult (json1?."id"))]
      /\ (1 <= List.length polls <= 20)%nat
      /\ Forall (fun q => snd q = GetJob (json1?."id")) polls
      /\ reply (network extract_then_insert_fails
                  (List.length (fetches jane_parsed_world) - 1)) = Some res
      /\ ok res = true
      /\ JSON_parse runtime (body res) = Some result
      /\ jane_parsed = VObj [(lit "structured", coalesce (result?."data") VNull);
                             (lit "jobId", json1?."id");
                             (lit "source", VStr (lit "llamaextract"))].
Proof.
  assert (H1 : parseResumeWithLlamaExtract runtime extract_then_insert_fails 2 jane_input start
               = Some (Normal jane_parsed, jane_parsed_world)) by (vm_compute; reflexivity).
  exact (conj H1 (@parseResumeWithLlamaExtract_trace runtime extract_then_insert_fails 2
                    jane_input start jane_parsed_world jane_parsed H1)).
Defined.

Lemma parseResumeWithLlamaExtract_never_done_witness :
  present (llamaApiKey never_done) = true
  /\ llamaAgentId never_done = Some (lit "agent")
  /\ lit "agent" <> []
  /\ reply (network never_done (List.length (fetches start)))
     = Some {| status := 200; body := JSON.text "{'id':'F1'}" |}
  /\ JSON_parse runtime (JSON.text "{'id':'F1'}") = Some (VObj [(lit "id", VStr (lit "F1"))])
  /\ reply (network never_done (S (List.length (fetches start))))
     = Some {| status := 200; body := JSON.text "{'id':'J1'}" |}
  /\ JSON_parse runtime (JSON.text "{'id':'J1'}") = Some (VObj [(lit "id", J1)])
  /\ (forall n, (List.length (fetches start) + 2 <= n)%nat ->
        exists res status,
          reply (network never_done n) = Some res /\ ok res = true
          /\ JSON_parse runtime (body res) = Some status
          /\ is_str (status?."status") "SUCCESS" = false
          /\ is_str (status?."status") "FAILED" = false)
  /\ (21 <= 21)%nat
  /\ exists (res : Response) (result : value) (w' : World) (polls : list (Z * Request))
            (t1 deadline t : Z),
      parseResumeWithLlamaExtract runtime never_done 21 jane_input start
      = Some (Normal (VObj [(lit "structured", coalesce (result?."data") VNull);
                            (lit "jobId", (VObj [(lit "id", J1)])?."id");
                            (lit "source", VStr (lit "llamaextract"))]), w')
      /\ fetches w' = fetches start
                      ++ [(now start, PostFile jane_input);
                          (t1, PostJob (lit "agent")
                                 ((VObj [(lit "id", VStr (lit "F1"))])?."id"))]
                      ++ polls ++ [(t, GetResult ((VObj [(lit "id", J1)])?."id"))]
      /\ reply (network never_done (List.length (fetches w') - 1)) = Some res
      /\ ok res = true
      /\ JSON_parse runtime (body res) = Some result
      /\ is_str (result?."status") "SUCCESS" = false
      /\ (1 <= List.length polls <= 20)%nat
      /\ Forall (fun q => snd q = GetJob ((VObj [(lit "id", J1)])?."id")) polls
      /\ (now start + 60000 <= deadline)%Z
      /\ Forall (fun q => (fst q < deadline)%Z) polls
      /\ (deadline <= t)%Z
      /\ timers w' = timers start ++ repeat 3000%Z (List.length polls).
Proof.
  assert (H1 : present (llamaApiKey never_done) = true) by reflexivity.
  assert (H2 : llamaAgentId never_done = Some (lit "agent")) by reflexivity.
  assert (H3 : lit "agent" <> []) by discriminate.
  assert (H4 : reply (network never_done (List.length (fetches start)))
               = Some {| status := 200; body := JSON.text "{'id':'F1'}" |}) by reflexivity.
  assert (H5 : ok {| status := 200; body := JSON.text "{'id':'F1'}" |} = true) by reflexivity.
  assert (H6 : JSON_parse runtime (JSON.text "{'id':'F1'}")
               = Some (VObj [(lit "id", VStr (lit "F1"))])) by (vm_compute; reflexivity).
  assert (H7 : reply (network never_done (S (List.length (fetches start))))
               = Some {| status := 200; body := JSON.text "{'id':'J1'}" |}) by reflexivity.
  assert (H8 : ok {| status := 200; body := JSON.text "{'id':'J1'}" |} = true) by reflexivity.
  assert (H9 : JSON_parse runtime (JSON.text "{'id':'J1'}") = Some (VObj [(lit "id", J1)]))
    by (vm_compute; reflexivity).
  assert (H10 : forall n, (List.length (fetches start) + 2 <= n)%nat ->
             exists res status,
               reply (network never_done n) = Some res /\ ok res = true
               /\ JSON_parse runtime (body res) = Some status
               /\ is_str (status?."status") "SUCCESS" = false
               /\ is_str (status?."status") "FAILED" = false).
  { intros n Hn. destruct n as [|[|n]]; [simpl in Hn; lia|simpl in Hn; lia|].
    exists {| status := 200; body := JSON.text "{'status':'PENDING'}" |},
           (VObj [(lit "status", VStr (lit "PENDING"))]).
    split; [destruct n; reflexivity|]. repeat split; vm_compute; reflexivity. }
  assert (H11 : (21 <= 21)%nat) by lia.
  exact (conj H1 (conj H2 (conj H3 (conj H4 (conj H6 (conj H7 (conj H9 (conj H10 (conj H11
           (@parseResumeWithLlamaExtract_never_done runtime never_done 21 jane_input start
              (lit "agent") _ _ _ _ H1 H2 H3 H4 H5 H6 H7 H8 H9 H10 H11)))))))))).
Defined.

Lemma serve_always_answers_witness :
  (21 <= 21)%nat
  /\ JSON_parse runtime
       (match safeBody (req_text jane_request) with [] => lit "{}" | safe => safe end)
     = Some (VObj [(lit "text", VStr jane_text)])
  /\ asResumeRequest (VObj [(lit "text", VStr jane_text)]) = Some jane_body
  /\ exists (reply : HttpReply) (w' : World),
      LlamaExtract.serve runtime never_done 21 jane_request start = Some (Normal reply, w')
      /\ (reply = preflight_ok
          \/ exists b, reply = respond 200 b \/ reply = respond 400 b).
Proof.
  assert (H1 : (21 <= 21)%nat) by lia.
  assert (H2 : JSON_parse runtime
                 (match safeBody (req_text jane_request) with [] => lit "{}" | safe => safe end)
               = Some (VObj [(lit "text", VStr jane_text)])) by (vm_compute; reflexivity).
  assert (H3 : asResumeRequest (VObj [(lit "text", VStr jane_text)]) = Some jane_body)
    by (vm_compute; reflexivity).
  exact (conj H1 (conj H2 (conj H3
           (@serve_always_answers runtime never_done 21 jane_request start H1
              (or_intror (or_intror
                 (ex_intro _ (VObj [(lit "text", VStr jane_text)])
                    (ex_intro _ jane_body (conj H2 H3))))))))).
Defined.

Lemma serve_failures_are_400_witness :
  str_eqb (method jane_request) (lit "OPTIONS") = false
  /\ JSON_parse runtime
       (match safeBody (req_text jane_request) with [] => lit "{}" | safe => safe end)
     = Some (VObj [(lit "text", VStr jane_text)])
  /\ asResumeRequest (VObj [(lit "text", VStr jane_text)]) = Some jane_body
  /\ loadResumeInput runtime unconfigured jane_body start = Some (Normal jane_input, start)
  /\ parseResumeWithLlamaExtract runtime unconfigured 21 jane_input start
     = Some (Thrown (Error (lit "LLAMA_CLOUD_API_KEY missing")), start)
  /\ LlamaExtract.serve runtime unconfigured 21 jane_request start
     = Some (Normal (respond 400
                       (VObj [(lit "error", VStr (lit "LLAMA_CLOUD_API_KEY missing"))])),
             after_log [LogText (lit "LLAMA_CLOUD_API_KEY missing")] start).
Proof.
  assert (H1 : str_eqb (method jane_request) (lit "OPTIONS") = false)
    by (vm_compute; reflexivity).
  assert (H2 : JSON_parse runtime
                 (match safeBody (req_text jane_request) with [] => lit "{}" | safe => safe end)
               = Some (VObj [(lit "text", VStr jane_text)])) by (vm_compute; reflexivity).
  assert (H3 : asResumeRequest (VObj [(lit "text", VStr jane_text)]) = Some jane_body)
    by (vm_compute; reflexivity).
  assert (H4 : loadResumeInput runtime unconfigured jane_body start
               = Some (Normal jane_input, start)) by (vm_compute; reflexivity).
  assert (H5 : parseResumeWithLlamaExtract runtime unconfigured 21 jane_input start
               = Some (Thrown (Error (lit "LLAMA_CLOUD_API_KEY missing")), start))
    by (vm_compute; reflexivity).
  exact (conj H1 (conj H2 (conj H3 (conj H4 (conj H5
           (proj2 (@serve_failures_are_400 runtime unconfigured 21 jane_request start H1)
              (VObj [(lit "text", VStr jane_text)]) jane_body
              (Error (lit "LLAMA_CLOUD_API_KEY missing")) start H2 H3
              (or_intror (ex_intro _ jane_input (conj H4 H5))))))))).
Defined.

Lemma safeBody_unicode_escapes_are_complete_witness :
  safeBody broken_escape = [] ++ 92%N :: 117%N :: lit "FFFD12"
  /\ four_hex (lit "FFFD12") = true.
Proof.
  assert (H1 : safeBody broken_escape = [] ++ 92%N :: 117%N :: lit "FFFD12")
    by (vm_compute; reflexivity).
  exact (conj H1 (@safeBody_unicode_escapes_are_complete broken_escape [] (lit "FFFD12") H1)).
Defined.

Lemma safeBody_unchanged_iff_clean_witness :
  ~ In 92%N (lit "{}") /\ safeBody (lit "{}") = lit "{}".
Proof.
  assert (H1 : ~ In 92%N (lit "{}")).
  { intros H. vm_compute in H. destruct H as [H|[H|H]]; [discriminate|discriminate|exact H]. }
  exact (conj H1 (proj2 (@safeBody_unchanged_iff_clean (lit "{}")) H1)).
Defined.

Lemma inferExt_is_text_after_last_dot_witness :
  ~ In 46%N (lit "PDF")
  /\ inferExt runtime (Some (lit "uploads/2024.05/Jane.PDF")) = Some (lit "pdf").
Proof.
  assert (H1 : ~ In 46%N (lit "PDF")).
  { intros H. vm_compute in H.
    destruct H as [H|[H|[H|H]]]; [discriminate|discriminate|discriminate|exact H]. }
  exact (conj H1
           (proj1 (proj2 (proj2 (proj2 (@inferExt_is_text_after_last_dot runtime))))
              (lit "uploads/2024.05/Jane") (lit "PDF") H1)).
Defined.

Lemma loadResumeInput_from_storage_witness :
  (text stored_body = None
   \/ exists t, text stored_body = Some t /\ forallb is_white_space t = true)
  /\ supabase upload_then_stored = Some working_client
  /\ bucket stored_body = Some (lit "resumes")
  /\ lit "resumes" <> []
  /\ filePath stored_body = Some (lit "uploads/2024.05/Jane.PDF")
  /\ lit "uploads/2024.05/Jane.PDF" <> []
  /\ exists input,
      loadResumeInput runtime upload_then_stored stored_body start
      = Some (Normal input, start)
      /\ buffer input = [37; 80; 68; 70]%N
      /\ (~ In 46%N (lit "uploads/2024.05/Jane.PDF") -> filename input = lit "resume.bin")
      /\ (forall stem ext,
            lit "uploads/2024.05/Jane.PDF" = stem ++ 46%N :: ext -> ~ In 46%N ext ->
            filename input = lit "resume." ++ toLowerCase runtime ext)
      /\ (lit "application/pdf" = [] -> contentType input = lit "application/octet-stream")
      /\ (lit "application/pdf" <> [] -> contentType input = lit "application/pdf").
Proof.
  assert (H1 : text stored_body = None
               \/ exists t, text stored_body = Some t /\ forallb is_white_space t = true)
    by (left; reflexivity).
  assert (H2 : supabase upload_then_stored = Some working_client) by reflexivity.
  assert (H3 : bucket stored_body = Some (lit "resumes")) by reflexivity.
  assert (H4 : lit "resumes" <> []) by discriminate.
  assert (H5 : filePath stored_body = Some (lit "uploads/2024.05/Jane.PDF")) by reflexivity.
  assert (H6 : lit "uploads/2024.05/Jane.PDF" <> []) by discriminate.
  exact (conj H1 (conj H2 (conj H3 (conj H4 (conj H5 (conj H6
           (proj2 (proj2 (@loadResumeInput_from_storage runtime upload_then_stored stored_body
                            working_client (lit "resumes") (lit "uploads/2024.05/Jane.PDF")
                            start H1 H2 H3 H4 H5 H6))
              {| blob_bytes := [37; 80; 68; 70]%N; blob_type := lit "application/pdf" |}
              eq_refl eq_refl))))))).
Defined.

Lemma stored_raw_text_is_bounded_witness :
  text jane_body = Some jane_text
  /\ jane_text <> []
  /\ raw_text (LlamaExtract.resume_row jane_body jane_parsed)
     = VStr (firstn LlamaExtract.MAX_TEXT_STORE jane_text)
  /\ (List.length (firstn LlamaExtract.MAX_TEXT_STORE jane_text)
      <= LlamaExtract.MAX_TEXT_STORE)%nat
  /\ (LlamaExtract.success_body jane_body jane_parsed VNull)?."rawText" = VStr jane_text.
Proof.
  assert (H1 : text jane_body = Some jane_text) by reflexivity.
  assert (H2 : jane_text <> []) by discriminate.
  exact (conj H1 (conj H2
           (proj1 (@stored_raw_text_is_bounded jane_body jane_parsed VNull) jane_text H1 H2))).
Defined.

Lemma llamaparse_handler_always_answers_witness :
  (21 <= 21)%nat
  /\ JSON_parse runtime (req_text jane_request) = Some (VObj [(lit "text", VStr jane_text)])
  /\ asResumeRequest (VObj [(lit "text", VStr jane_text)]) = Some jane_body
  /\ exists (reply : HttpReply) (w' : World),
      LlamaParseHandler.serve runtime upload_then_stored decode_ascii to_string 21
        jane_request start = Some (Normal reply, w')
      /\ (reply = preflight_ok
          \/ (exists b, reply = respond 400 b)
          \/ (exists (client : Client) (row : Row) (parsed : value),
                supabase upload_then_stored = Some client
                /\ insert_error (insert client row) = None
                /\ reply = respond 200
                             (VObj [(lit "resumeId", (insert_data (insert client row))?."id");
                                    (lit "parsed", parsed);
                                    (lit "parserVersion", VStr LlamaParse.PARSER_VERSION)]))).
Proof.
  assert (H1 : (21 <= 21)%nat) by lia.
  assert (H2 : JSON_parse runtime (req_text jane_request)
               = Some (VObj [(lit "text", VStr jane_text)])) by (vm_compute; reflexivity).
  assert (H3 : asResumeRequest (VObj [(lit "text", VStr jane_text)]) = Some jane_body)
    by (vm_compute; reflexivity).
  exact (conj H1 (conj H2 (conj H3
           (@llamaparse_handler_always_answers runtime upload_then_stored decode_ascii to_string
              21 jane_request start H1
              (or_intror (or_intror
                 (ex_intro _ (VObj [(lit "text", VStr jane_text)])
                    (ex_intro _ jane_body (conj H2 H3))))))))).
Defined.

Lemma llamaparse_handler_needs_the_table_witness :
  str_eqb (method jane_request) (lit "OPTIONS") = false
  /\ JSON_parse runtime (req_text jane_request) = Some (VObj [(lit "text", VStr jane_text)])
  /\ asResumeRequest (VObj [(lit "text", VStr jane_text)]) = Some jane_body
  /\ loadResumeInput runtime upload_then_hello jane_body start
     = Some (Normal jane_input, start)
  /\ parseResumeWithLlamaParse runtime upload_then_hello 21 jane_input start
     = Some (Normal hello_parsed, hello_parsed_world)
  /\ supabase upload_then_hello = Some no_client
  /\ insert_error (insert no_client
                     (LlamaParseHandler.resume_row decode_ascii jane_body jane_input
                        hello_parsed))
     = Some permission_denied
  /\ LlamaParseHandler.serve runtime upload_then_hello decode_ascii to_string 21
       jane_request start
     = Some (Normal (respond 400 (VObj [(lit "error", VStr (lit "permission denied"))])),
             after_log [LogText (lit "permission denied")] hello_parsed_world).
Proof.
  assert (H1 : str_eqb (method jane_request) (lit "OPTIONS") = false)
    by (vm_compute; reflexivity).
  assert (H2 : JSON_parse runtime (req_text jane_request)
               = Some (VObj [(lit "text", VStr jane_text)])) by (vm_compute; reflexivity).
  assert (H3 : asResumeRequest (VObj [(lit "text", VStr jane_text)]) = Some jane_body)
    by (vm_compute; reflexivity).
  assert (H4 : loadResumeInput runtime upload_then_hello jane_body start
               = Some (Normal jane_input, start)) by (vm_compute; reflexivity).
  assert (H5 : parseResumeWithLlamaParse runtime upload_then_hello 21 jane_input start
               = Some (Normal hello_parsed, hello_parsed_world)) by (vm_compute; reflexivity).
  assert (H6 : supabase upload_then_hello = Some no_client) by reflexivity.
  assert (H7 : insert_error (insert no_client
                               (LlamaParseHandler.resume_row decode_ascii jane_body jane_input
                                  hello_parsed))
               = Some permission_denied) by reflexivity.
  exact (conj H1 (conj H2 (conj H3 (conj H4 (conj H5 (conj H6 (conj H7
           (proj1 (proj2 (@llamaparse_handler_needs_the_table runtime upload_then_hello
                            decode_ascii to_string 21 jane_request
                            (VObj [(lit "text", VStr jane_text)]) jane_body jane_input
                            hello_parsed start hello_parsed_world H1 H2 H3 H4 H5))
              no_client permission_denied H6 H7)))))))).
Defined.

Lemma safeName_is_safe_witness :
  (fun s : jsstring => s) plain_name = plain_name
  /\ forallb is_safe plain_name = true
  /\ (forall p q, plain_name <> p ++ 45%N :: 45%N :: q)
  /\ safeName (fun s => s) plain_name = plain_name.
Proof.
  assert (H1 : (fun s : jsstring => s) plain_name = plain_name) by reflexivity.
  assert (H2 : forallb is_safe plain_name = true) by reflexivity.
  assert (H3 : forall p q, plain_name <> p ++ 45%N :: 45%N :: q).
  { intros p q H. unfold plain_name in H.
    do 8 (destruct p as [|? p]; [simpl in H; discriminate|]). simpl in H. discriminate. }
  exact (conj H1 (conj H2 (conj H3
           (proj2 (proj2 (@safeName_is_safe (fun s => s) plain_name)) H1 H2 H3)))).
Defined.

Lemma extractStructured_cases_witness :
  result_with_wrapped_structured?."parsed"
  = VStr (JSON.text "{'structured':{'name':'Jane Doe'}}")
  /\ JSON.text "{'structured':{'name':'Jane Doe'}}" <> []
  /\ JSON_parse runtime (JSON.text "{'structured':{'name':'Jane Doe'}}")
     = Some (VObj [(lit "structured", VObj [(lit "name", VStr (lit "Jane Doe"))])])
  /\ extractStructured runtime result_with_wrapped_structured
     = VObj [(lit "name", VStr (lit "Jane Doe"))].
Proof.
  assert (H1 : result_with_wrapped_structured?."parsed"
               = VStr (JSON.text "{'structured':{'name':'Jane Doe'}}"))
    by (vm_compute; reflexivity).
  assert (H2 : JSON.text "{'structured':{'name':'Jane Doe'}}" <> [])
    by (vm_compute; discriminate).
  assert (H3 : JSON_parse runtime (JSON.text "{'structured':{'name':'Jane Doe'}}")
               = Some (VObj [(lit "structured", VObj [(lit "name", VStr (lit "Jane Doe"))])]))
    by (vm_compute; reflexivity).
  assert (H4 : truthy ((VObj [(lit "structured", VObj [(lit "name", VStr (lit "Jane Doe"))])])
                         ?."structured") = true) by (vm_compute; reflexivity).
  exact (conj H1 (conj H2 (conj H3
           (proj1 (proj2 (proj2 (@extractStructured_cases runtime
                                   result_with_wrapped_structured)))
              _ _ H1 H2 H3 H4)))).
Defined.

Lemma handler_answer_reaches_client_witness :
  (400 < 200 \/ 299 < 400)%Z
  /\ JSON_parse runtime (JSON_stringify runtime key_missing) = Some key_missing
  /\ key_missing?."error" = VStr (lit "LLAMA_CLOUD_API_KEY missing")
  /\ lit "LLAMA_CLOUD_API_KEY missing" <> []
  /\ callFunction runtime to_string (Some (on_the_wire runtime (respond 400 key_missing)))
     = Thrown (Error (lit "LLAMA_CLOUD_API_KEY missing")).
Proof.
  assert (H1 : (400 < 200 \/ 299 < 400)%Z) by (right; lia).
  assert (H2 : JSON_parse runtime (JSON_stringify runtime key_missing) = Some key_missing)
    by (vm_compute; reflexivity).
  assert (H3 : key_missing?."error" = VStr (lit "LLAMA_CLOUD_API_KEY missing"))
    by (vm_compute; reflexivity).
  assert (H4 : lit "LLAMA_CLOUD_API_KEY missing" <> []) by discriminate.
  exact (conj H1 (conj H2 (conj H3 (conj H4
           (proj1 (@handler_answer_reaches_client runtime to_string 400 key_missing)
              key_missing (lit "LLAMA_CLOUD_API_KEY missing") H1 H2 H3 H4))))).
Defined.

Lemma llamaparse_handler_without_key_witness :
  str_eqb (method jane_request) (lit "OPTIONS") = false
  /\ JSON_parse runtime (req_text jane_request) = Some (VObj [(lit "text", VStr jane_text)])
  /\ asResumeRequest (VObj [(lit "text", VStr jane_text)]) = Some jane_body
  /\ loadResumeInput runtime unconfigured jane_body start = Some (Normal jane_input, start)
  /\ (Deno_env_get unconfigured (lit "LLAMA_PARSE_API_KEY") = None
      \/ Deno_env_get unconfigured (lit "LLAMA_PARSE_API_KEY") = Some [])
  /\ exists w' : World,
      LlamaParseHandler.serve runtime unconfigured decode_ascii to_string 21 jane_request start
      = Some (Normal (respond 400
                        (VObj [(lit "error", VStr (lit "LLAMA_PARSE_API_KEY is missing"))])),
              w')
      /\ fetches w' = fetches start
      /\ timers w' = timers start
      /\ console w' = console start ++ [[LogText (lit "LLAMA_PARSE_API_KEY is missing")]].
Proof.
  assert (H1 : str_eqb (method jane_request) (lit "OPTIONS") = false)
    by (vm_compute; reflexivity).
  assert (H2 : JSON_parse runtime (req_text jane_request)
               = Some (VObj [(lit "text", VStr jane_text)])) by (vm_compute; reflexivity).
  assert (H3 : asResumeRequest (VObj [(lit "text", VStr jane_text)]) = Some jane_body)
    by (vm_compute; reflexivity).
  assert (H4 : loadResumeInput runtime unconfigured jane_body start
               = Some (Normal jane_input, start)) by (vm_compute; reflexivity).
  assert (H5 : Deno_env_get unconfigured (lit "LLAMA_PARSE_API_KEY") = None
               \/ Deno_env_get unconfigured (lit "LLAMA_PARSE_API_KEY") = Some [])
    by (left; reflexivity).
  exact (conj H1 (conj H2 (conj H3 (conj H4 (conj H5
           (@llamaparse_handler_without_key runtime unconfigured decode_ascii to_string 21
              jane_request (VObj [(lit "text", VStr jane_text)]) jane_body jane_input start
              H1 H2 H3 H4 H5)))))).
Defined.

Lemma uploaded_path_extension_witness :
  safeName (fun s => s) (lit "Jane Doe (CV).PDF") = lit "Jane-Doe-CV-" ++ 46%N :: lit "PDF"
  /\ ~ In 46%N (lit "PDF")
  /\ inferExt runtime (Some (objectPath (fun s => s) (lit "0f8a") (lit "Jane Doe (CV).PDF")))
     = Some (lit "pdf").
Proof.
  assert (H1 : safeName (fun s => s) (lit "Jane Doe (CV).PDF")
               = lit "Jane-Doe-CV-" ++ 46%N :: lit "PDF") by (vm_compute; reflexivity).
  assert (H2 : ~ In 46%N (lit "PDF")).
  { intros H. vm_compute in H.
    destruct H as [H|[H|[H|H]]]; [discriminate|discriminate|discriminate|exact H]. }
  exact (conj H1 (conj H2
           (proj1 (@uploaded_path_extension runtime (fun s => s) (lit "0f8a")
                     (lit "Jane Doe (CV).PDF"))
              (lit "Jane-Doe-CV-") (lit "PDF") H1 H2))).
Defined.


(** Why the LlamaExtract handler needs the proviso: the JSON the web
    client sends for the text a, backslash, x is valid, and the
    LlamaParse handler uploads that text; but the second replacement
    of the LlamaExtract handler doubles the second of its two
    backslashes, and the handler answers 400 without a request. *)
Example backslash_text_is_rejected :
  text_submission runtime backslash_text = Some backslash_submission
  /\ JSON_parse runtime (req_text backslash_submission)
     = Some (VObj [(lit "text", VStr backslash_text)])
  /\ safeBody (req_text backslash_submission) <> req_text backslash_submission
  /\ LlamaExtract.serve runtime extract_then_insert_fails 21 backslash_submission start
     = Some (Normal (respond 400
                       (VObj [(lit "error",
                               VStr (lit "Invalid JSON body (escape sequences/backslashes)"))])),
             start).
Proof.
  split; [vm_compute; reflexivity|].
  split; [vm_compute; reflexivity|].
  split; [vm_compute; discriminate|].
  vm_compute. reflexivity.
Qed.

End MoreExamples.
